(** * MongoBites: order creation and order life cycle of [app.py]

    A shallow embedding of the order handlers of the Flask application
    ([pedidos_crear], [cambiar_estado_pedido]) and of the product handlers
    that edit the catalogue ([productos_actualizar], [productos_eliminar]),
    over an explicit model of the four MongoDB collections they touch.

    Conventions.
    - A collection is the list of its documents in natural order;
      [find_one] returns the first match, [update_one] and [delete_one]
      act on the first match, [insert_one] appends.
    - Python [int] is [Z]; Python [float] is the kernel's binary64 [float].
    - Python [str] is [string], read as a sequence of code points below
      128; [strip] and [upper] are those of such strings.
    - Every write issued against the database is also recorded, in order,
      in the [writes] log of the world, so that the order of the effects of
      a handler can be stated.
    - [int] and [bytes.fromhex] skip the white space of C ([9..13] and
      32), which is less than [str.strip] drops ([28..31] as well).
    - An [ObjectId] is the bytes it holds, and two identifiers are equal
      when their bytes are; read from 24 hexadecimal digits it is the
      number they encode.  The identifiers the driver generates come from
      the counter [next_oid].
    - The 64-bit range of the integers MongoDB stores is not modelled. *)

From Stdlib Require Import ZArith NArith List String Ascii Bool Lia.
From Stdlib Require Import PrimFloat.
From Stdlib Require SpecFloat FloatOps.
Import ListNotations.
Open Scope string_scope.
Open Scope list_scope.
Open Scope Z_scope.

(* ================================================================== *)
(** ** Python strings *)
(* ================================================================== *)

Module Py.

(** [str.isspace] on one code point below 128: tab, line feed, vertical
    tab, form feed, carriage return, the separators 28..31 and space. *)
Definition isspace (c : ascii) : bool :=
  let n := N_of_ascii c in
  (((9 <=? n) && (n <=? 13)) || ((28 <=? n) && (n <=? 32)))%N.

Fixpoint lstrip (s : string) : string :=
  match s with
  | EmptyString => EmptyString
  | String c r => if isspace c then lstrip r else s
  end.

(** [rstrip]: a character is kept when it is not a space or when
    something is kept after it. *)
Fixpoint rstrip (s : string) : string :=
  match s with
  | EmptyString => EmptyString
  | String c r =>
      match rstrip r with
      | EmptyString => if isspace c then EmptyString else String c EmptyString
      | r' => String c r'
      end
  end.

Definition strip (s : string) : string := rstrip (lstrip s).

Definition upper_char (c : ascii) : ascii :=
  let n := N_of_ascii c in
  if ((97 <=? n) && (n <=? 122))%N then ascii_of_N (n - 32) else c.

Fixpoint upper (s : string) : string :=
  match s with
  | EmptyString => EmptyString
  | String c r => String (upper_char c) (upper r)
  end.

(** Truth value of a string: the empty string is false. *)
Definition truthy (s : string) : bool :=
  match s with EmptyString => false | _ => true end.

(** [x or d] for an optional string [x] ([None] and [""] are false). *)
Definition or_str (x : option string) (d : string) : string :=
  match x with
  | Some s => if truthy s then s else d
  | None => d
  end.

(** [x or ys] for lists: the empty list is false. *)
Definition or_list {A} (xs ys : list A) : list A :=
  match xs with [] => ys | _ => xs end.

(** [x in (a, b, ...)] for strings. *)
Definition str_in (x : string) (l : list string) : bool :=
  existsb (String.eqb x) l.

(** *** [int(s)] for a string [s] *)

Definition digit_val (c : ascii) : option Z :=
  let n := N_of_ascii c in
  if ((48 <=? n) && (n <=? 57))%N then Some (Z.of_N n - 48) else None.

Definition is_underscore (c : ascii) : bool := (N_of_ascii c =? 95)%N.

(** Digits with single underscores between them; [acc] is the value read
    so far, [after_digit] tells whether the previous character was a digit
    (an underscore is allowed only there, and not at the end). *)
Fixpoint int_digits (s : string) (acc : Z) (after_digit : bool) : option Z :=
  match s with
  | EmptyString => if after_digit then Some acc else None
  | String c r =>
      match digit_val c with
      | Some d => int_digits r (10 * acc + d) true
      | None =>
          if is_underscore c && after_digit then
            match r with
            | EmptyString => None
            | String c' _ =>
                match digit_val c' with
                | Some _ => int_digits r acc false
                | None => None
                end
            end
          else None
      end
  end.

Fixpoint count_digits (s : string) : nat :=
  match s with
  | EmptyString => O
  | String c r =>
      match digit_val c with
      | Some _ => S (count_digits r)
      | None => count_digits r
      end
  end.

(** The interpreter's limit on the digits of a decimal string. *)
Definition max_str_digits : nat := 4300.

(** White space as [int] and [bytes.fromhex] skip it in a string of code
    points below 128: tab, line feed, vertical tab, form feed, carriage
    return and space.  The separators 28..31, which [str.strip] drops,
    are not among them: [int("\x1c3")] raises [ValueError]. *)
Definition c_isspace (c : ascii) : bool :=
  let n := N_of_ascii c in
  (((9 <=? n) && (n <=? 13)) || (n =? 32))%N.

Fixpoint skip_spaces (s : string) : string :=
  match s with
  | EmptyString => EmptyString
  | String c r => if c_isspace c then skip_spaces r else s
  end.

Fixpoint drop_trailing_spaces (s : string) : string :=
  match s with
  | EmptyString => EmptyString
  | String c r =>
      match drop_trailing_spaces r with
      | EmptyString => if c_isspace c then EmptyString else String c EmptyString
      | r' => String c r'
      end
  end.

(** [int(s)]: the white space around the number is skipped, one sign is
    allowed, then decimal digits; [None] stands for [ValueError]. *)
Definition int (s : string) : option Z :=
  let t := drop_trailing_spaces (skip_spaces s) in
  if Nat.ltb max_str_digits (count_digits t) then None else
  match t with
  | String "-" r => option_map Z.opp (int_digits r 0 false)
  | String "+" r => int_digits r 0 false
  | _ => int_digits t 0 false
  end.

(** *** [float(q)] for an integer [q] and float arithmetic *)

(** Nearest binary64 value, ties to even; [None] stands for the
    [OverflowError] raised when the integer is too large for a float. *)
Definition float_of_int (q : Z) : option float :=
  match SpecFloat.binary_normalize FloatOps.prec FloatOps.emax q 0 false with
  | SpecFloat.S754_infinity _ => None
  | f => Some (FloatOps.SF2Prim f)
  end.

Definition fadd : float -> float -> float := PrimFloat.add.
Definition fmul : float -> float -> float := PrimFloat.mul.
Definition fzero : float := PrimFloat.zero.

End Py.

(* ================================================================== *)
(** ** BSON object identifiers *)
(* ================================================================== *)

(** An [ObjectId] holds bytes: twelve when the driver generates it or
    when it is read from 24 hexadecimal digits, fewer when the 24
    characters it is read from hold white space.  Two identifiers are
    equal when their bytes are.  It is kept as a number: twelve bytes as
    the number they encode, fewer bytes as the number they encode plus
    [2^96] times the count of the missing ones, so that different bytes
    are different numbers ([oid_of_bytes_inj]). *)
Definition oid := N.

Definition hex_val (c : ascii) : option N :=
  let n := N_of_ascii c in
  if ((48 <=? n) && (n <=? 57))%N then Some (n - 48)%N
  else if ((97 <=? n) && (n <=? 102))%N then Some (n - 87)%N
  else if ((65 <=? n) && (n <=? 70))%N then Some (n - 55)%N
  else None.

(** [bytes.fromhex(s)]: two hexadecimal digits per byte; white space is
    skipped before a byte and at the end, not between the two digits of
    a byte; [None] stands for [ValueError]. *)
Fixpoint fromhex (s : string) : option (list N) :=
  match s with
  | EmptyString => Some []
  | String c r =>
      if Py.c_isspace c then fromhex r
      else
        match hex_val c, r with
        | Some top, String c' r' =>
            match hex_val c' with
            | Some bot => option_map (cons (16 * top + bot)%N) (fromhex r')
            | None => None
            end
        | _, _ => None
        end
  end.

(** The number the bytes encode, the first byte being the most
    significant. *)
Definition bytes_value (bs : list N) : N :=
  fold_left (fun a b => 256 * a + b)%N bs 0%N.

Definition oid_of_bytes (bs : list N) : oid :=
  (bytes_value bs + 2 ^ 96 * N.of_nat (12 - List.length bs))%N.

(** [ObjectId(s)] for a string: 24 characters that [bytes.fromhex]
    accepts; [None] stands for [InvalidId]. *)
Definition ObjectId (s : string) : option oid :=
  if Nat.eqb (String.length s) 24
  then option_map oid_of_bytes (fromhex s)
  else None.

(* ================================================================== *)
(** ** Documents and collections *)
(* ================================================================== *)

(** A document of [productos].  [stock] is optional because the order
    handler reads it with [prod.get("stock", 0)]; the image fields are
    present only when an image was uploaded. *)
Record Producto := mkProducto {
  prod_id : oid;
  nombre : string;
  categoria : string;
  precio : float;
  stock : option Z;
  activo : bool;
  image_data : option string;
  image_mime : option string
}.

(** A document of [pedidos].  [estado] is optional because the status
    handler reads it with [pedido.get("estado")]. *)
Record Pedido := mkPedido {
  ped_id : oid;
  id_cliente : oid;
  fecha : Z;
  total : float;
  estado : option string;
  metodo_pago : string;
  creado_por : string
}.

(** The dictionary built for one line while an order is validated. *)
Record Linea := mkLinea {
  id_producto : oid;
  nombre_producto : string;
  cantidad : Z;
  precio_unit : float;
  subtotal : float
}.

(** A document of [detalle_pedido]: the line, with the order it belongs
    to and the identifier given at insertion. *)
Record Detalle := mkDetalle {
  det_id : oid;
  id_pedido : oid;
  linea : Linea
}.

(** A document of [auditoria]. *)
Record Auditoria := mkAuditoria {
  aud_id : oid;
  entidad : string;
  entidad_id : oid;
  accion : string;
  antes : string;
  despues : string;
  usuario_app : string;
  aud_fecha : Z
}.

(** The fields written by [{"$set": upd}] on a product. *)
Record ProductoUpd := mkProductoUpd {
  upd_nombre : string;
  upd_categoria : string;
  upd_precio : float;
  upd_stock : Z;
  upd_activo : bool;
  upd_image : option (string * option string)
}.

(** The writes a handler can issue, as they reach the database. *)
Inductive Write :=
| InsertPedido (p : Pedido)
| InsertDetalle (d : Detalle)
| IncStock (id : oid) (delta : Z)
| SetEstado (id : oid) (e : string)
| InsertAuditoria (a : Auditoria)
| SetProducto (id : oid) (upd : ProductoUpd)
| DeleteProducto (id : oid).

(** The database, the source of fresh identifiers and the log of the
    writes issued so far. *)
Record World := mkWorld {
  productos : list Producto;
  pedidos : list Pedido;
  detalle_pedido : list Detalle;
  auditoria : list Auditoria;
  next_oid : N;
  writes : list Write
}.

(** *** Collection primitives *)

Fixpoint update_first {A} (q : A -> bool) (f : A -> A) (l : list A) : list A :=
  match l with
  | [] => []
  | x :: r => if q x then f x :: r else x :: update_first q f r
  end.

Fixpoint delete_first {A} (q : A -> bool) (l : list A) : list A :=
  match l with
  | [] => []
  | x :: r => if q x then r else x :: delete_first q r
  end.

Definition has_id (id : oid) (p : Producto) : bool := (prod_id p =? id)%N.

(** [int(prod.get("stock", 0))]. *)
Definition stock_or_0 (p : Producto) : Z :=
  match stock p with Some s => s | None => 0 end.

(** [{"$inc": {"stock": delta}}] on one product; a missing field is
    created with the value [delta]. *)
Definition inc_stock_doc (delta : Z) (p : Producto) : Producto :=
  mkProducto (prod_id p) (nombre p) (categoria p) (precio p)
             (Some (stock_or_0 p + delta)) (activo p)
             (image_data p) (image_mime p).

(** [{"$set": upd}] on one product; the image fields are written only
    when [upd] carries them. *)
Definition set_producto_doc (u : ProductoUpd) (p : Producto) : Producto :=
  mkProducto (prod_id p) (upd_nombre u) (upd_categoria u) (upd_precio u)
             (Some (upd_stock u)) (upd_activo u)
             (match upd_image u with
              | Some (d, _) => Some d | None => image_data p end)
             (match upd_image u with
              | Some (_, m) => m | None => image_mime p end).

Definition set_estado_doc (e : string) (p : Pedido) : Pedido :=
  mkPedido (ped_id p) (id_cliente p) (fecha p) (total p) (Some e)
           (metodo_pago p) (creado_por p).

(** [mongo.db.productos.find_one({"_id": pid, "activo": True})]. *)
Definition find_active_producto (pid : oid) (w : World) : option Producto :=
  find (fun p => has_id pid p && activo p) (productos w).

(** [mongo.db.productos.find_one({"_id": pid})]. *)
Definition find_producto (pid : oid) (w : World) : option Producto :=
  find (has_id pid) (productos w).

(** [mongo.db.pedidos.find_one({"_id": id})]. *)
Definition find_pedido (id : oid) (w : World) : option Pedido :=
  find (fun p => (ped_id p =? id)%N) (pedidos w).

(** [list(mongo.db.detalle_pedido.find({"id_pedido": id}))]. *)
Definition find_detalles (id : oid) (w : World) : list Detalle :=
  filter (fun d => (id_pedido d =? id)%N) (detalle_pedido w).

(* ================================================================== *)
(** ** Requests, responses and the handler monad *)
(* ================================================================== *)

(** The exceptions the handlers can meet. *)
Inductive Exc :=
| InvalidId (s : string)
| ValueError (s : string)
| KeyError (k : string)
| OverflowError.

(** The views a handler redirects to. *)
Inductive Endpoint :=
| ep_home
| ep_login
| ep_pedidos_list
| ep_pedidos_nuevo
| ep_pedido_detalle (id : oid)
| ep_productos_list
| ep_productos_editar (id : string).

(** The flashed messages, one constructor per message of the source. *)
Inductive Flash :=
| flash_login                      (* flask_login's request to log in *)
| flash_solo_administradores       (* "Solo administradores." *)
| flash_faltan_datos               (* "Faltan datos del pedido." *)
| flash_no_hay_items               (* "No hay ítems válidos." *)
| flash_producto_no_encontrado     (* "Producto no encontrado o inactivo." *)
| flash_stock_insuficiente (nombre : string) (disponible : Z)
                                   (* "Stock insuficiente para {nombre}.
                                       Disponible: {stock}" *)
| flash_pedido_creado              (* "Pedido creado correctamente." *)
| flash_error (e : Exc)            (* "Error: {e}" *)
| flash_estado_invalido            (* "Estado inválido." *)
| flash_pedido_no_encontrado       (* "Pedido no encontrado." *)
| flash_no_se_puede (actual nuevo : string)
                                   (* "No se puede cambiar de {actual}
                                       a {nuevo}." *)
| flash_estado_actualizado (actual nuevo : string)
                                   (* "Estado actualizado de {actual}
                                       a {nuevo}." *)
| flash_error_estado (e : Exc)     (* "Error al cambiar estado: {e}" *)
| flash_nombre_obligatorio         (* "El nombre es obligatorio." *)
| flash_producto_actualizado       (* "Producto actualizado." *)
| flash_error_actualizar (e : Exc) (* "Error al actualizar producto: {e}" *)
| flash_producto_eliminado         (* "Producto eliminado." *)
| flash_error_eliminar (e : Exc).  (* "Error al eliminar: {e}" *)

(** Every handler answers with one flashed message and a redirect. *)
Record Response := Redirect { flashed : Flash; location : Endpoint }.

Record User := mkUser { email : string; role : string }.

Definition is_admin (u : User) : bool := (role u =? "admin")%string.

(** An uploaded file: its name, its bytes and its declared type. *)
Record Upload := mkUpload {
  filename : string;
  contents : string;
  mimetype : string
}.

(** What a handler reads from its environment: the submitted form (its
    fields in order), the uploaded files, the logged-in user if any, and
    the clock. *)
Record Request := mkRequest {
  form : list (string * string);
  files : list (string * Upload);
  current_user : option User;
  now : Z
}.

(** [request.form.get(k)] and [request.form.getlist(k)]. *)
Definition form_get (req : Request) (k : string) : option string :=
  option_map snd (find (fun kv => (fst kv =? k)%string) (form req)).

Definition form_getlist (req : Request) (k : string) : list string :=
  map snd (filter (fun kv => (fst kv =? k)%string) (form req)).

Definition files_get (req : Request) (k : string) : option Upload :=
  option_map snd (find (fun kv => (fst kv =? k)%string) (files req)).

(** A step of a handler ends with a value, with an early [return] of a
    response, or with a raised exception. *)
Inductive Outcome (A : Type) :=
| Val (a : A)
| Return (r : Response)
| Raise (e : Exc).
Arguments Val {A} a.
Arguments Return {A} r.
Arguments Raise {A} e.

Definition M (A : Type) : Type := World -> Outcome A * World.

Definition ret {A} (a : A) : M A := fun w => (Val a, w).

Definition bind {A B} (m : M A) (k : A -> M B) : M B :=
  fun w =>
    match m w with
    | (Val a, w') => k a w'
    | (Return r, w') => (Return r, w')
    | (Raise e, w') => (Raise e, w')
    end.

Notation "x <- m ;; k" := (bind m (fun x => k))
  (at level 61, m at next level, right associativity).
Notation "m ;;; k" := (bind m (fun _ => k))
  (at level 61, right associativity).

(** [return r] before the end of the body. *)
Definition return_ {A} (r : Response) : M A := fun w => (Return r, w).

(** A computation that only reads the database. *)
Definition gets {A} (f : World -> A) : M A := fun w => (Val (f w), w).

Definition lift {A} (f : World -> Outcome A) : M A := fun w => (f w, w).

(** The value of [o], or the exception [e] when there is none. *)
Definition or_raise {A} (e : Exc) (o : option A) : M A :=
  match o with
  | Some a => ret a
  | None => fun w => (Raise e, w)
  end.

(** [for x in xs: body(x)]. *)
Fixpoint for_each {A} (xs : list A) (body : A -> M unit) : M unit :=
  match xs with
  | [] => ret tt
  | x :: r => body x ;;; for_each r body
  end.

(** [try: body  except Exception as e: return handler(e)]. *)
Definition try_except (body : M Response) (handler : Exc -> Response)
  : World -> Response * World :=
  fun w =>
    match body w with
    | (Val r, w') => (r, w')
    | (Return r, w') => (r, w')
    | (Raise e, w') => (handler e, w')
    end.

(** *** Writes *)

Definition insert_pedido (mk : oid -> Pedido) : M oid :=
  fun w =>
    let p := mk (next_oid w) in
    (Val (next_oid w),
     mkWorld (productos w) (pedidos w ++ [p]) (detalle_pedido w)
             (auditoria w) (N.succ (next_oid w))
             (writes w ++ [InsertPedido p])).

Definition insert_detalle (mk : oid -> Detalle) : M unit :=
  fun w =>
    let d := mk (next_oid w) in
    (Val tt,
     mkWorld (productos w) (pedidos w) (detalle_pedido w ++ [d])
             (auditoria w) (N.succ (next_oid w))
             (writes w ++ [InsertDetalle d])).

Definition insert_auditoria (mk : oid -> Auditoria) : M unit :=
  fun w =>
    let a := mk (next_oid w) in
    (Val tt,
     mkWorld (productos w) (pedidos w) (detalle_pedido w)
             (auditoria w ++ [a]) (N.succ (next_oid w))
             (writes w ++ [InsertAuditoria a])).

(** [productos.update_one({"_id": id}, {"$inc": {"stock": delta}})]. *)
Definition inc_stock (id : oid) (delta : Z) : M unit :=
  fun w =>
    (Val tt,
     mkWorld (update_first (has_id id) (inc_stock_doc delta) (productos w))
             (pedidos w) (detalle_pedido w) (auditoria w) (next_oid w)
             (writes w ++ [IncStock id delta])).

(** [productos.update_one({"_id": id}, {"$set": upd})]. *)
Definition set_producto (id : oid) (upd : ProductoUpd) : M unit :=
  fun w =>
    (Val tt,
     mkWorld (update_first (has_id id) (set_producto_doc upd) (productos w))
             (pedidos w) (detalle_pedido w) (auditoria w) (next_oid w)
             (writes w ++ [SetProducto id upd])).

(** [productos.delete_one({"_id": id})]. *)
Definition delete_producto (id : oid) : M unit :=
  fun w =>
    (Val tt,
     mkWorld (delete_first (has_id id) (productos w))
             (pedidos w) (detalle_pedido w) (auditoria w) (next_oid w)
             (writes w ++ [DeleteProducto id])).

(** [pedidos.update_one({"_id": id}, {"$set": {"estado": e}})]. *)
Definition set_estado (id : oid) (e : string) : M unit :=
  fun w =>
    (Val tt,
     mkWorld (productos w)
             (update_first (fun p => (ped_id p =? id)%N) (set_estado_doc e)
                           (pedidos w))
             (detalle_pedido w) (auditoria w) (next_oid w)
             (writes w ++ [SetEstado id e])).

(** *** Access control *)

Definition Handler : Type := Request -> World -> Response * World.

(** [@login_required]: an anonymous request is sent to the login view. *)
Definition login_required (fn : User -> Handler) : Handler :=
  fun req w =>
    match current_user req with
    | None => (Redirect flash_login ep_login, w)
    | Some u => fn u req w
    end.

(** [@role_required(role)]. *)
Definition role_required (role : string) (fn : User -> Handler) : Handler :=
  login_required (fun u req w =>
    if (role =? "admin")%string && negb (is_admin u)
    then (Redirect flash_solo_administradores ep_home, w)
    else fn u req w).

(* ================================================================== *)
(** ** [pedidos_crear] *)
(* ================================================================== *)

(** The pairs kept by the normalisation loop: a pair is kept when its
    quantity reads as an integer for [int], that integer is positive and
    [ObjectId] accepts its product identifier; any other pair is
    skipped. *)
Fixpoint normaliza (pairs : list (string * string)) : list (oid * Z) :=
  match pairs with
  | [] => []
  | (pid, cant) :: rest =>
      match Py.int cant with
      | Some q =>
          if q >? 0 then
            match ObjectId pid with
            | Some o => (o, q) :: normaliza rest
            | None => normaliza rest
            end
          else normaliza rest
      | None => normaliza rest
      end
  end.

(** The loop that validates the stock and computes the total.  It reads
    the database and writes nothing; [total] and [detalles] are the
    accumulators of the source. *)
Fixpoint validar (w : World) (items : list (oid * Z))
                 (total : float) (detalles : list Linea)
  : Outcome (float * list Linea) :=
  match items with
  | [] => Val (total, detalles)
  | (pid, q) :: rest =>
      match find_active_producto pid w with
      | None =>
          Return (Redirect flash_producto_no_encontrado ep_pedidos_nuevo)
      | Some prod =>
          if stock_or_0 prod <? q then
            match stock prod with
            | Some s =>
                Return (Redirect (flash_stock_insuficiente (nombre prod) s)
                                 ep_pedidos_nuevo)
            | None => Raise (KeyError "stock")
            end
          else
            match Py.float_of_int q with
            | None => Raise OverflowError
            | Some fq =>
                let subtotal := Py.fmul (precio prod) fq in
                validar w rest (Py.fadd total subtotal)
                        (detalles ++ [mkLinea (prod_id prod) (nombre prod) q
                                              (precio prod) subtotal])
            end
      end
  end.

(** [ids] and [cants] as the handler reads them from the form, and the
    (product, quantity) pairs [zip(ids, cants)] of the request. *)
Definition ids_de (req : Request) : list string :=
  Py.or_list (form_getlist req "id_producto[]") (form_getlist req "id_producto").

Definition cants_de (req : Request) : list string :=
  Py.or_list (form_getlist req "cantidad[]") (form_getlist req "cantidad").

Definition pares (req : Request) : list (string * string) :=
  combine (ids_de req) (cants_de req).

Definition pedidos_crear_body (u : User) (req : Request) : M Response :=
  let id_cliente := form_get req "id_cliente" in
  let ids := ids_de req in
  let cants := cants_de req in
  let metodo_pago :=
    match form_get req "metodo_pago" with Some m => m | None => "EFECTIVO" end in
  if negb (Py.truthy (Py.or_str id_cliente ""))
     || match ids with [] => true | _ => false end
     || match cants with [] => true | _ => false end
  then return_ (Redirect flash_faltan_datos ep_pedidos_nuevo)
  else
    let items := normaliza (pares req) in
    match items with
    | [] => return_ (Redirect flash_no_hay_items ep_pedidos_nuevo)
    | _ =>
        td <- lift (fun w => validar w items Py.fzero []) ;;
        cli <- or_raise (InvalidId (Py.or_str id_cliente ""))
                        (ObjectId (Py.or_str id_cliente "")) ;;
        id_pedido <- insert_pedido (fun id =>
                       mkPedido id cli (now req) (fst td) (Some "CREADO")
                                metodo_pago (email u)) ;;
        for_each (snd td) (fun d =>
          insert_detalle (fun id => mkDetalle id id_pedido d) ;;;
          inc_stock (id_producto d) (- cantidad d)) ;;;
        ret (Redirect flash_pedido_creado
               (if is_admin u then ep_pedidos_list
                else ep_pedido_detalle id_pedido))
    end.

Definition pedidos_crear : Handler :=
  login_required (fun u req =>
    try_except (pedidos_crear_body u req)
               (fun e => Redirect (flash_error e) ep_pedidos_nuevo)).

(* ================================================================== *)
(** ** [cambiar_estado_pedido] *)
(* ================================================================== *)

Definition estados : list string := ["CREADO"; "PAGADO"; "ENVIADO"; "CANCELADO"].

(** The dictionary of allowed transitions, as the source writes it. *)
Definition transiciones : list (string * list string) :=
  [ ("CREADO", ["PAGADO"; "ENVIADO"; "CANCELADO"]);
    ("PAGADO", ["ENVIADO"; "CANCELADO"]);
    ("ENVIADO", ["PAGADO"]);
    ("CANCELADO", []) ].

(** [d.get(k, set())]. *)
Definition dict_get (d : list (string * list string)) (k : string)
  : list string :=
  match find (fun kv => (fst kv =? k)%string) d with
  | Some kv => snd kv
  | None => []
  end.

(** The requested status, trimmed and upper-cased. *)
Definition nuevo_de (req : Request) : string :=
  Py.upper (Py.strip (Py.or_str (form_get req "estado") "")).

(** The status of a stored order as the handler reads it: a missing or
    empty field counts as "CREADO"; trimmed and upper-cased. *)
Definition estado_actual_de (pedido : Pedido) : string :=
  Py.upper (Py.strip (Py.or_str (estado pedido) "CREADO")).

Definition cambiar_estado_pedido_body
           (id_pedido_s : string) (u : User) (req : Request) : M Response :=
  let nuevo := nuevo_de req in
  if negb (Py.str_in nuevo estados)
  then return_ (Redirect flash_estado_invalido ep_pedidos_list)
  else
    id <- or_raise (InvalidId id_pedido_s) (ObjectId id_pedido_s) ;;
    found <- gets (find_pedido id) ;;
    match found with
    | None => return_ (Redirect flash_pedido_no_encontrado ep_pedidos_list)
    | Some pedido =>
        let estado_actual := estado_actual_de pedido in
        if negb (Py.str_in nuevo (dict_get transiciones estado_actual))
        then return_ (Redirect (flash_no_se_puede estado_actual nuevo)
                               ep_pedidos_list)
        else
          (if (nuevo =? "CANCELADO")%string
              && negb (estado_actual =? "CANCELADO")%string
           then
             detalles <- gets (find_detalles id) ;;
             for_each detalles (fun d =>
               inc_stock (id_producto (linea d)) (cantidad (linea d)))
           else ret tt) ;;;
          set_estado id nuevo ;;;
          insert_auditoria (fun aid =>
            mkAuditoria aid "pedido" id "CAMBIAR_ESTADO"
                        estado_actual nuevo (email u) (now req)) ;;;
          ret (Redirect (flash_estado_actualizado estado_actual nuevo)
                        ep_pedidos_list)
    end.

Definition cambiar_estado_pedido (id_pedido_s : string) : Handler :=
  role_required "admin" (fun u req =>
    try_except (cambiar_estado_pedido_body id_pedido_s u req)
               (fun e => Redirect (flash_error_estado e) ep_pedidos_list)).

(* ================================================================== *)
(** ** [productos_actualizar] and [productos_eliminar] *)
(* ================================================================== *)

Section Catalogo.

(** [float(s)] for a string [s] is the interpreter's; the handlers are
    defined for any such reading, [None] standing for [ValueError]. *)
Variable float_of_str : string -> option float.

Definition productos_actualizar_body
           (id : string) (u : User) (req : Request) : M Response :=
  let nombre := Py.strip (Py.or_str (form_get req "nombre") "") in
  let categoria := Py.strip (Py.or_str (form_get req "categoria") "") in
  precio <- (let s := Py.or_str (form_get req "precio") "" in
             if Py.truthy s
             then or_raise (ValueError s) (float_of_str s)
             else ret Py.fzero) ;;
  stock <- (let s := Py.or_str (form_get req "stock") "" in
            if Py.truthy s
            then or_raise (ValueError s) (Py.int s)
            else ret 0) ;;
  let activo :=
    match form_get req "activo" with
    | Some v => (v =? "on")%string
    | None => false
    end in
  if negb (Py.truthy nombre)
  then return_ (Redirect flash_nombre_obligatorio (ep_productos_editar id))
  else
    pid <- or_raise (InvalidId id) (ObjectId id) ;;
    prod_actual <- gets (find_producto pid) ;;
    let image_data0 :=
      match prod_actual with Some p => image_data p | None => None end in
    let image_mime0 :=
      match prod_actual with Some p => image_mime p | None => None end in
    let image :=
      match files_get req "imagen" with
      | Some f =>
          if Py.truthy (filename f)
          then (Some (contents f),
                Some (if Py.truthy (mimetype f) then mimetype f
                      else "image/jpeg"))
          else (image_data0, image_mime0)
      | None => (image_data0, image_mime0)
      end in
    set_producto pid
      (mkProductoUpd nombre
                     (if Py.truthy categoria then categoria
                      else "Sin categoría")
                     precio stock activo
                     (match fst image with
                      | Some d =>
                          if Py.truthy d then Some (d, snd image) else None
                      | None => None
                      end)) ;;;
    ret (Redirect flash_producto_actualizado ep_productos_list).

Definition productos_actualizar (id : string) : Handler :=
  role_required "admin" (fun u req =>
    try_except (productos_actualizar_body id u req)
               (fun e => Redirect (flash_error_actualizar e)
                                  (ep_productos_editar id))).

Definition productos_eliminar_body
           (id : string) (u : User) (req : Request) : M Response :=
  pid <- or_raise (InvalidId id) (ObjectId id) ;;
  delete_producto pid ;;;
  ret (Redirect flash_producto_eliminado ep_productos_list).

Definition productos_eliminar (id : string) : Handler :=
  role_required "admin" (fun u req =>
    try_except (productos_eliminar_body id u req)
               (fun e => Redirect (flash_error_eliminar e) ep_productos_list)).

(** A later edit of the catalogue: an update or a deletion of a product. *)
Inductive Edicion :=
| Actualizar (id : string) (req : Request)
| Eliminar (id : string) (req : Request).

Definition editar (e : Edicion) (w : World) : World :=
  match e with
  | Actualizar id req => snd (productos_actualizar id req w)
  | Eliminar id req => snd (productos_eliminar id req w)
  end.

Definition editar_todas (es : list Edicion) (w : World) : World :=
  fold_left (fun w e => editar e w) es w.

End Catalogo.

(* ================================================================== *)
(** ** The life cycle as the specification words it *)
(* ================================================================== *)

Inductive Status := CREATED | PAID | SHIPPED | CANCELLED.

(** The name under which the code stores each status. *)
Definition status_name (s : Status) : string :=
  match s with
  | CREATED => "CREADO"
  | PAID => "PAGADO"
  | SHIPPED => "ENVIADO"
  | CANCELLED => "CANCELADO"
  end.

(** The transition table of the specification:
    CREATED -> PAID, SHIPPED, CANCELLED; PAID -> SHIPPED, CANCELLED;
    SHIPPED -> PAID; CANCELLED -> nothing. *)
Definition spec_allowed (a b : Status) : bool :=
  match a, b with
  | CREATED, PAID | CREATED, SHIPPED | CREATED, CANCELLED => true
  | PAID, SHIPPED | PAID, CANCELLED => true
  | SHIPPED, PAID => true
  | _, _ => false
  end.

(** A pair of (normalised) status strings is in the table. *)
Definition in_table (actual nuevo : string) : Prop :=
  exists a b, actual = status_name a /\ nuevo = status_name b
              /\ spec_allowed a b = true.

(** The response that reports an accepted status change. *)
Definition accepted (r : Response) : bool :=
  match flashed r with
  | flash_estado_actualizado _ _ => true
  | _ => false
  end.

(** The response that reports a created order. *)
Definition created (r : Response) : bool :=
  match flashed r with
  | flash_pedido_creado => true
  | _ => false
  end.

(** The stock of the product with identifier [pid], as a query for that
    identifier reads it. *)
Definition stock_of (pid : oid) (w : World) : option Z :=
  match find_producto pid w with
  | Some p => Some (stock_or_0 p)
  | None => None
  end.

(** Sum of the subtotals of lines, added in order from [0.0]. *)
Definition sum_subtotals (ls : list Linea) : float :=
  fold_left (fun acc l => Py.fadd acc (subtotal l)) ls Py.fzero.

(** Unit price times quantity of a line. *)
Definition price_times_quantity (l : Linea) : option float :=
  option_map (Py.fmul (precio_unit l)) (Py.float_of_int (cantidad l)).

(** Sum over lines of unit price times quantity, added in order from
    [0.0]; [None] when a quantity has no float. *)
Fixpoint sum_price_times_quantity_from (acc : float) (ls : list Linea)
  : option float :=
  match ls with
  | [] => Some acc
  | l :: r =>
      match price_times_quantity l with
      | Some x => sum_price_times_quantity_from (Py.fadd acc x) r
      | None => None
      end
  end.

Definition sum_price_times_quantity (ls : list Linea) : option float :=
  sum_price_times_quantity_from Py.fzero ls.

(** Total quantity the lines [ds] hold of product [pid]. *)
Definition units_of (pid : oid) (ds : list Detalle) : Z :=
  fold_right (fun d acc =>
                if (id_producto (linea d) =? pid)%N
                then cantidad (linea d) + acc else acc) 0 ds.

(** Identifiers in use are below the next fresh one. *)
Definition fresh_ids (w : World) : Prop :=
  Forall (fun p => (ped_id p < next_oid w)%N) (pedidos w) /\
  Forall (fun d => (id_pedido d < next_oid w)%N) (detalle_pedido w).

(* ================================================================== *)
(** ** Notions used in the statements *)
(* ================================================================== *)

(** The world after the restocking loop of a cancellation has run over
    the lines [ds]. *)
Definition restock (ds : list Detalle) (w : World) : World :=
  fold_left (fun w d =>
               snd (inc_stock (id_producto (linea d)) (cantidad (linea d)) w))
            ds w.

(** The writes of that loop. *)
Definition restock_writes (ds : list Detalle) : list Write :=
  map (fun d => IncStock (id_producto (linea d)) (cantidad (linea d))) ds.

(** The world after the insertion loop of an order creation has run over
    the lines [ls] of order [id]. *)
Definition insert_lines (id : oid) (ls : list Linea) (w : World) : World :=
  fold_left (fun w l =>
               snd (inc_stock (id_producto l) (- cantidad l)
                      (snd (insert_detalle (fun i => mkDetalle i id l) w))))
            ls w.

(** Total quantity the lines [ls] hold of product [pid]. *)
Definition units_in (pid : oid) (ls : list Linea) : Z :=
  fold_right (fun l acc =>
                if (id_producto l =? pid)%N then cantidad l + acc else acc)
             0 ls.

(** The world an accepted change leaves. *)
Definition after_change (id : oid) (pedido : Pedido) (u : User)
           (req : Request) (w : World) : World :=
  let nuevo := nuevo_de req in
  let estado_actual := estado_actual_de pedido in
  let w1 := if (nuevo =? "CANCELADO")%string
               && negb (estado_actual =? "CANCELADO")%string
            then restock (find_detalles id w) w else w in
  let a := mkAuditoria (next_oid w1) "pedido" id "CAMBIAR_ESTADO"
                       estado_actual nuevo (email u) (now req) in
  mkWorld (productos w1)
          (update_first (fun p => (ped_id p =? id)%N) (set_estado_doc nuevo)
                        (pedidos w1))
          (detalle_pedido w1) (auditoria w1 ++ [a]) (N.succ (next_oid w1))
          ((writes w1 ++ [SetEstado id nuevo]) ++ [InsertAuditoria a]).

(** The order document [pedidos_crear] builds. *)
Definition pedido_nuevo (u : User) (req : Request) (cli : oid)
           (total : float) (id : oid) : Pedido :=
  mkPedido id cli (now req) total (Some "CREADO")
           (match form_get req "metodo_pago" with
            | Some m => m | None => "EFECTIVO" end)
           (email u).

(** The world a created order leaves: the order inserted under the next
    fresh identifier, then its lines. *)
Definition after_create (u : User) (req : Request) (cli : oid)
           (total : float) (ls : list Linea) (w : World) : World :=
  insert_lines (next_oid w) ls
               (snd (insert_pedido (pedido_nuevo u req cli total) w)).

(** What the loop checked of an item and recorded in its line. *)
Definition validated (w : World) (it : oid * Z) (l : Linea) : Prop :=
  exists prod,
    find_active_producto (fst it) w = Some prod /\
    snd it <= stock_or_0 prod /\
    id_producto l = fst it /\ cantidad l = snd it /\
    nombre_producto l = nombre prod /\ precio_unit l = precio prod /\
    price_times_quantity l = Some (subtotal l).

(** The order [id] is stored as cancelled. *)
Definition is_cancelled (id : oid) (w : World) : bool :=
  match find_pedido id w with
  | Some p => (estado_actual_de p =? "CANCELADO")%string
  | None => false
  end.

(** The stored status field [e] is missing, is empty, or is the name of
    [c] up to case and surrounding white space; a missing or empty field
    stands for CREATED. *)
Definition reads_as (e : option string) (c : Status) : Prop :=
  (e = None /\ c = CREATED) \/
  (e = Some "" /\ c = CREATED) \/
  (exists s, e = Some s /\ s <> "" /\ Py.upper (Py.strip s) = status_name c).

(** A computation that touches neither the orders nor their lines, and
    takes no fresh identifier. *)
Definition keeps_orders {A} (m : M A) : Prop :=
  forall w, pedidos (snd (m w)) = pedidos w /\
            detalle_pedido (snd (m w)) = detalle_pedido w /\
            next_oid (snd (m w)) = next_oid w.

(** A sequence of status requests for one order, served in turn. *)
Definition cambiar_todos (id_s : string) (reqs : list Request) (w : World)
  : World :=
  fold_left (fun w q => snd (cambiar_estado_pedido id_s q w)) reqs w.

(** The quantity of a submitted pair is a positive integer. *)
Definition cantidad_valida (pc : string * string) : bool :=
  match Py.int (snd pc) with
  | Some q => q >? 0
  | None => false
  end.

(** The form fields that carry the pairs [F]. *)
Definition lines_of (F : list (string * string)) : list (string * string) :=
  flat_map (fun pc => [("id_producto[]", fst pc); ("cantidad[]", snd pc)]) F.

(** The request [req] without the pairs whose quantity is not a positive
    integer: same customer, payment method, user and clock. *)
Definition sin_invalidas (req : Request) : Request :=
  mkRequest
    ((match form_get req "id_cliente" with
      | Some c => [("id_cliente", c)] | None => [] end)
     ++ (match form_get req "metodo_pago" with
         | Some m => [("metodo_pago", m)] | None => [] end)
     ++ lines_of (filter cantidad_valida (pares req)))
    (files req) (current_user req) (now req).

(** A pair of the request refers to a product that does not exist or is
    inactive. *)
Definition refers_to_unavailable (req : Request) (w : World) : Prop :=
  exists pid cant, In (pid, cant) (pares req) /\
    match ObjectId pid with
    | Some o => find_active_producto o w = None
    | None => True
    end.

(** A pair of the request asks for more than the stock of its product. *)
Definition exceeds_stock (req : Request) (w : World) : Prop :=
  exists pid cant o q p, In (pid, cant) (pares req) /\
    ObjectId pid = Some o /\ Py.int cant = Some q /\
    find_producto o w = Some p /\ stock_or_0 p < q.

(** Every product has a stock that is not negative. *)
Definition stock_nonneg (w : World) : Prop :=
  Forall (fun p => 0 <= stock_or_0 p) (productos w).

(* ================================================================== *)
(** ** Sample data *)
(* ================================================================== *)

Module Sample.

Definition P_hex : string := "00000000000000000000000a".
Definition Q_hex : string := "00000000000000000000000b".
Definition cliente_hex : string := "0000000000000000000000c1".

(** Product P: stock 5, price 10.0, active. *)
Definition P : Producto :=
  mkProducto 10%N "P" "demo" 10%float (Some 5) true None None.

(** Product Q: stock 4, price 2.5, inactive. *)
Definition Q : Producto :=
  mkProducto 11%N "Q" "demo" 2.5%float (Some 4) false None None.

Definition admin : User := mkUser "admin@demo" "admin".
Definition ana : User := mkUser "ana@demo" "user".

Definition w0 : World := mkWorld [P; Q] [] [] [] 100%N [].

(** An order form with the given (product, quantity) pairs. *)
Definition order_form (pairs : list (string * string)) : list (string * string) :=
  ("id_cliente", cliente_hex)
    :: flat_map (fun pq => [("id_producto[]", fst pq); ("cantidad[]", snd pq)])
                pairs.

Definition order (u : User) (pairs : list (string * string)) : Request :=
  mkRequest (order_form pairs) [] (Some u) 1000.

Definition change (u : User) (e : string) : Request :=
  mkRequest [("estado", e)] [] (Some u) 2000.

(** The identifier, in hexadecimal, of the first order created in [w0]. *)
Definition order_hex : string := "000000000000000000000064".

(** [w0] after ana orders 3 units of P. *)
Definition w1 : World := snd (pedidos_crear (order ana [(P_hex, "3")]) w0).

(** [w1] after the admin cancels that order. *)
Definition w2 : World :=
  snd (cambiar_estado_pedido order_hex (change admin "cancelado") w1).

(** [w1] after the admin marks the order as shipped. *)
Definition w_enviado : World :=
  snd (cambiar_estado_pedido order_hex (change admin "ENVIADO") w1).

(** A world whose only order has no status field. *)
Definition w_sin_estado : World :=
  mkWorld [P; Q]
          [mkPedido 100%N 193%N 1000 30%float None "EFECTIVO" "ana@demo"]
          [mkDetalle 101%N 100%N (mkLinea 10%N "P" 3 10%float 30%float)]
          [] 102%N [].

(** A product edit by the admin: new name, price and stock for P. *)
Definition edit_P : Request :=
  mkRequest [("nombre", "P2"); ("categoria", ""); ("precio", "99");
             ("stock", "1"); ("activo", "on")] [] (Some admin) 3000.

(** A reading of decimal strings that knows the one price used above. *)
Definition float_of_str (s : string) : option float :=
  if (s =? "99")%string then Some 99%float else None.

End Sample.

(* ================================================================== *)
(** ** Sequences of operations *)
(* ================================================================== *)

Section Operaciones.

Variable float_of_str : string -> option float.

(** A request served by one of the modelled handlers. *)
Inductive Operacion :=
| OpCrear (req : Request)
| OpCambiar (id_s : string) (req : Request)
| OpEditar (e : Edicion).

Definition ejecutar (op : Operacion) (w : World) : World :=
  match op with
  | OpCrear req => snd (pedidos_crear req w)
  | OpCambiar id_s req => snd (cambiar_estado_pedido id_s req w)
  | OpEditar e => editar float_of_str e w
  end.

Definition ejecutar_todas (ops : list Operacion) (w : World) : World :=
  fold_left (fun w op => ejecutar op w) ops w.

End Operaciones.

(** The operation is on orders: it is not an edit of the catalogue. *)
Definition de_pedidos (op : Operacion) : bool :=
  match op with
  | OpEditar _ => false
  | _ => true
  end.

(** The pairs kept of an order creation name distinct products. *)
Definition sin_repetidos (op : Operacion) : Prop :=
  match op with
  | OpCrear req => NoDup (map fst (normaliza (pares req)))
  | _ => True
  end.

(** The stored status of [p] reads as cancelled. *)
Definition cancelled_doc (p : Pedido) : bool :=
  (estado_actual_de p =? "CANCELADO")%string.

(** Units of product [pid] that the order [p] holds: those of its lines,
    unless it is cancelled. *)
Definition held (pid : oid) (w : World) (p : Pedido) : Z :=
  if cancelled_doc p then 0
  else units_of pid (find_detalles (ped_id p) w).

(** Units of product [pid] held by all the stored orders. *)
Definition committed (pid : oid) (w : World) : Z :=
  fold_right (fun p acc => held pid w p + acc) 0 (pedidos w).

(** No two orders share an identifier. *)
Definition unique_orders (w : World) : Prop :=
  NoDup (map ped_id (pedidos w)).

(** Every stored status is one of the four names, as written. *)
Definition canonical_statuses (w : World) : Prop :=
  Forall (fun p => exists c, estado p = Some (status_name c)) (pedidos w).

(** Every stored line has a positive quantity. *)
Definition positive_lines (w : World) : Prop :=
  Forall (fun d => 0 < cantidad (linea d)) (detalle_pedido w).

(** Every stored line belongs to a stored order. *)
Definition lines_have_orders (w : World) : Prop :=
  Forall (fun d => exists p, find_pedido (id_pedido d) w = Some p)
         (detalle_pedido w).

(** The total of every stored order is the sum of the subtotals of its
    lines. *)
Definition totals_consistent (w : World) : Prop :=
  Forall (fun p => sum_subtotals (map linea (find_detalles (ped_id p) w))
                   = total p)
         (pedidos w).

(** The writes that persist the lines [ds] of a new order. *)
Definition line_writes (ds : list Detalle) : list Write :=
  flat_map (fun d => [InsertDetalle d;
                      IncStock (id_producto (linea d)) (- cantidad (linea d))])
           ds.

(** What a line document keeps of the item it was made from and of the
    product found for it when the order was placed. *)
Definition snapshot_of (w : World) (id : oid) (it : oid * Z) (d : Detalle)
  : Prop :=
  id_pedido d = id /\
  id_producto (linea d) = fst it /\ cantidad (linea d) = snd it /\
  exists prod,
    find_active_producto (fst it) w = Some prod /\
    nombre_producto (linea d) = nombre prod /\
    precio_unit (linea d) = precio prod /\
    snd it <= stock_or_0 prod.

(** The fields [productos_actualizar] writes, from the form, the price and
    stock it read, and the product it found. *)
Definition upd_de (req : Request) (precio : float) (stock : Z)
           (prod_actual : option Producto) : ProductoUpd :=
  let image_data0 :=
    match prod_actual with Some p => image_data p | None => None end in
  let image_mime0 :=
    match prod_actual with Some p => image_mime p | None => None end in
  let image :=
    match files_get req "imagen" with
    | Some f =>
        if Py.truthy (filename f)
        then (Some (contents f),
              Some (if Py.truthy (mimetype f) then mimetype f
                    else "image/jpeg"))
        else (image_data0, image_mime0)
    | None => (image_data0, image_mime0)
    end in
  mkProductoUpd (Py.strip (Py.or_str (form_get req "nombre") ""))
                (if Py.truthy (Py.strip (Py.or_str (form_get req "categoria") ""))
                 then Py.strip (Py.or_str (form_get req "categoria") "")
                 else "Sin categoría")
                precio stock
                (match form_get req "activo" with
                 | Some v => (v =? "on")%string
                 | None => false
                 end)
                (match fst image with
                 | Some d => if Py.truthy d then Some (d, snd image) else None
                 | None => None
                 end).

(** The integer a form field holds: 0 when the field is missing or empty,
    [None] when it does not read as an integer. *)
Definition int_field (req : Request) (k : string) : option Z :=
  let s := Py.or_str (form_get req k) "" in
  if Py.truthy s then Py.int s else Some 0.

(** Two product documents that differ at most in their stock. *)
Definition same_but_stock (p p' : Producto) : Prop :=
  prod_id p' = prod_id p /\ nombre p' = nombre p /\
  categoria p' = categoria p /\ precio p' = precio p /\
  activo p' = activo p /\
  image_data p' = image_data p /\ image_mime p' = image_mime p.

(** No two products share an identifier. *)
Definition unique_products (w : World) : Prop :=
  NoDup (map prod_id (productos w)).

(* ================================================================== *)
(** ** More Python strings *)
(* ================================================================== *)

Module PyText.

Definition lower_char (c : ascii) : ascii :=
  let n := N_of_ascii c in
  if ((65 <=? n) && (n <=? 90))%N then ascii_of_N (n + 32) else c.

Fixpoint lower (s : string) : string :=
  match s with
  | EmptyString => EmptyString
  | String c r => String (lower_char c) (lower r)
  end.

(** [c in s] for a character [c]. *)
Fixpoint contains (c : ascii) (s : string) : bool :=
  match s with
  | EmptyString => false
  | String x r => Ascii.eqb x c || contains c r
  end.

(** [s.rsplit(c, 1)[-1]]: the text after the last [c] of [s], or [s]
    itself when it holds no [c]. *)
Fixpoint after_last (c : ascii) (s : string) : string :=
  match s with
  | EmptyString => EmptyString
  | String x r =>
      if contains c r then after_last c r
      else if Ascii.eqb x c then r
      else s
  end.

End PyText.

(* ================================================================== *)
(** ** Files in GridFS: [save_to_gridfs] and [media] *)
(* ================================================================== *)

(** A file kept in GridFS. *)
Record GridFile := mkGridFile {
  gf_id : oid;
  gf_filename : string;
  gf_content_type : string;
  gf_data : string
}.

(** The store and the source of the identifiers [fs.put] gives. *)
Record GridFS := mkGridFS {
  gf_files : list GridFile;
  gf_next : N
}.

(** [fs.put(data, filename=..., content_type=...)]. *)
Definition fs_put (data fname ctype : string) (fs : GridFS) : oid * GridFS :=
  (gf_next fs,
   mkGridFS (gf_files fs ++ [mkGridFile (gf_next fs) fname ctype data])
            (N.succ (gf_next fs))).

(** [fs.get(id)]; [None] stands for [NoFile]. *)
Definition fs_get (id : oid) (fs : GridFS) : option GridFile :=
  find (fun f => (gf_id f =? id)%N) (gf_files fs).

(** [save_to_gridfs(file_storage)]: nothing is stored for a missing file,
    an empty file name or empty contents. *)
Definition save_to_gridfs (file_storage : option Upload) (fs : GridFS)
  : option oid * GridFS :=
  match file_storage with
  | None => (None, fs)
  | Some f =>
      if negb (Py.truthy (filename f)) then (None, fs)
      else if negb (Py.truthy (contents f)) then (None, fs)
      else
        let content_type :=
          if Py.truthy (mimetype f) then mimetype f
          else "application/octet-stream" in
        let r := fs_put (contents f) (filename f) content_type fs in
        (Some (fst r), snd r)
  end.

(** The dictionary of [media] from extensions to types, with its
    default. *)
Definition mime_of_ext (ext : string) : string :=
  match find (fun kv => (fst kv =? ext)%string)
             [("png", "image/png"); ("jpg", "image/jpeg");
              ("jpeg", "image/jpeg"); ("webp", "image/webp")] with
  | Some kv => snd kv
  | None => "application/octet-stream"
  end.

(** The extension [media] reads off a file name. *)
Definition ext_of (fname : string) : string :=
  if PyText.contains "." fname
  then PyText.lower (PyText.after_last "." fname)
  else "".

(** What the [media] view answers. *)
Inductive MediaResponse :=
| SendFile (data mimetype download_name : string)
| NotFound.                     (* "Archivo no encontrado", 404 *)

Definition media (file_id : string) (fs : GridFS) : MediaResponse :=
  match ObjectId file_id with
  | None => NotFound
  | Some id =>
      match fs_get id fs with
      | None => NotFound
      | Some file =>
          let fname :=
            if Py.truthy (gf_filename file) then gf_filename file
            else "file.bin" in
          SendFile (gf_data file) (mime_of_ext (ext_of fname)) fname
      end
  end.

(** Identifiers of stored files are below the next one [fs.put] gives. *)
Definition fs_fresh (fs : GridFS) : Prop :=
  Forall (fun f => (gf_id f < gf_next fs)%N) (gf_files fs).

(* ================================================================== *)
(** ** Accounts: [ensure_admin], [login], [logout], [register] *)
(* ================================================================== *)

Module Cuentas.

(** A document of [usuarios].  The password and the role are optional
    because [login] reads them with [get] and a default. *)
Record Usuario := mkUsuario {
  usr_id : oid;
  usr_email : string;
  usr_password : option string;
  usr_role : option string;
  usr_cliente_id : option oid;
  usr_creado_en : Z
}.

(** A document of [clientes]. *)
Record Cliente := mkCliente {
  cli_id : oid;
  cli_nombre : string;
  cli_email : option string;
  cli_telefono : option string;
  cli_ciudad : option string;
  cli_avatar_file_id : option oid;
  cli_activo : bool;
  cli_creado_en : Z
}.

(** The two collections and the source of fresh identifiers. *)
Record Estado := mkEstado {
  usuarios : list Usuario;
  clientes : list Cliente;
  next_id : N
}.

(** The views these handlers redirect to. *)
Inductive Destino :=
| a_home | a_login | a_register | a_pedidos_list | a_mis_pedidos.

(** The messages these handlers flash. *)
Inductive Aviso :=
| aviso_login            (* flask_login's request to log in *)
| aviso_bienvenido       (* "Bienvenido." *)
| aviso_credenciales     (* "Credenciales inválidas." *)
| aviso_sesion_cerrada   (* "Sesión cerrada." *)
| aviso_obligatorios     (* "Nombre, correo y contraseña son obligatorios." *)
| aviso_no_coinciden     (* "Las contraseñas no coinciden." *)
| aviso_ya_existe        (* "Ya existe un usuario con ese correo." *)
| aviso_cuenta_creada.   (* "Cuenta creada correctamente. ¡Bienvenido!" *)

Inductive Vista :=
| Redirige (d : Destino)
| Plantilla (name : string).

(** What a handler leaves: the flashed message if any, the view, who is
    logged in after the request, and the collections. *)
Record Salida := mkSalida {
  aviso : option Aviso;
  vista : Vista;
  sesion : option User;
  estado : Estado
}.

(** [User(doc)]: the role defaults to "user". *)
Definition User_of (doc : Usuario) : User :=
  mkUser (usr_email doc)
         (match usr_role doc with Some r => r | None => "user" end).

(** [mongo.db.usuarios.find_one({"email": email})]. *)
Definition find_usuario (email : string) (s : Estado) : option Usuario :=
  find (fun u => (usr_email u =? email)%string) (usuarios s).

(** [(request.form.get(k) or "").strip()]. *)
Definition campo (req : Request) (k : string) : string :=
  Py.strip (Py.or_str (form_get req k) "").

(** [(request.form.get("email") or "").strip().lower()]. *)
Definition email_de (req : Request) : string :=
  PyText.lower (campo req "email").

(** [x or None] for a string. *)
Definition or_none (s : string) : option string :=
  if Py.truthy s then Some s else None.

(** Where a logged-in user is sent according to the role. *)
Definition segun_rol (u : User) : Destino :=
  if is_admin u then a_pedidos_list else a_mis_pedidos.

Section Hash.

(** The password functions are werkzeug's; the handlers are defined for
    any such pair.  A hash is taken as a function of the password: the
    salt werkzeug draws is not modelled. *)
Variable generate_password_hash : string -> string.
Variable check_password_hash : string -> string -> bool.

(** [ensure_admin()], run once when the application starts. *)
Definition ensure_admin (now : Z) (s : Estado) : Estado :=
  match find_usuario "admin@demo" s with
  | Some _ => s
  | None =>
      mkEstado (usuarios s ++
                  [mkUsuario (next_id s) "admin@demo"
                             (Some (generate_password_hash "admin123"))
                             (Some "admin") None now])
               (clientes s) (N.succ (next_id s))
  end.

Definition login (method : string) (req : Request) (s : Estado) : Salida :=
  match current_user req with
  | Some cu => mkSalida None (Redirige (segun_rol cu)) (Some cu) s
  | None =>
      if (method =? "POST")%string then
        let email := email_de req in
        let pwd := Py.or_str (form_get req "password") "" in
        match find_usuario email s with
        | Some u =>
            if check_password_hash
                 (match usr_password u with Some h => h | None => "" end) pwd
            then mkSalida (Some aviso_bienvenido)
                          (Redirige (segun_rol (User_of u)))
                          (Some (User_of u)) s
            else mkSalida (Some aviso_credenciales) (Plantilla "login.html")
                          None s
        | None =>
            mkSalida (Some aviso_credenciales) (Plantilla "login.html") None s
        end
      else mkSalida None (Plantilla "login.html") None s
  end.


Definition register (method : string) (req : Request) (s : Estado) : Salida :=
  match current_user req with
  | Some cu => mkSalida None (Redirige a_home) (Some cu) s
  | None =>
      if (method =? "POST")%string then
        let nombre := campo req "nombre" in
        let email := email_de req in
        let pwd := Py.or_str (form_get req "password") "" in
        let pwd2 := Py.or_str (form_get req "password2") "" in
        let ciudad := campo req "ciudad" in
        let telefono := campo req "telefono" in
        if negb (Py.truthy nombre) || negb (Py.truthy email)
           || negb (Py.truthy pwd)
        then mkSalida (Some aviso_obligatorios) (Redirige a_register) None s
        else if negb (pwd =? pwd2)%string
        then mkSalida (Some aviso_no_coinciden) (Redirige a_register) None s
        else
          match find_usuario email s with
          | Some _ =>
              mkSalida (Some aviso_ya_existe) (Redirige a_register) None s
          | None =>
              let cliente_id := next_id s in
              let cliente :=
                mkCliente cliente_id nombre (Some email) (or_none telefono)
                          (or_none ciudad) None true (now req) in
              let user_doc :=
                mkUsuario (N.succ cliente_id) email
                          (Some (generate_password_hash pwd)) (Some "user")
                          (Some cliente_id) (now req) in
              mkSalida (Some aviso_cuenta_creada) (Redirige a_mis_pedidos)
                       (Some (User_of user_doc))
                       (mkEstado (usuarios s ++ [user_doc])
                                 (clientes s ++ [cliente])
                                 (N.succ (N.succ cliente_id)))
          end
      else mkSalida None (Plantilla "register.html") None s
  end.

End Hash.

(** No two accounts share an e-mail address. *)
Definition unique_emails (s : Estado) : Prop :=
  NoDup (map usr_email (usuarios s)).

(** The account of every customer link exists: each [cliente_id] of a
    user is the identifier of a stored customer. *)
Definition links_resolve (s : Estado) : Prop :=
  Forall (fun u => match usr_cliente_id u with
                   | Some c => exists k, In k (clientes s) /\ cli_id k = c
                   | None => True
                   end) (usuarios s).

End Cuentas.

(* ================================================================== *)
(** ** More sample data *)
(* ================================================================== *)

Module Muestra.

Import Sample.

(** An order form whose customer identifier is not an [ObjectId]. *)
Definition order_bad_customer : Request :=
  mkRequest [("id_cliente", "abc"); ("id_producto[]", P_hex);
             ("cantidad[]", "3")] [] (Some ana) 1000.

(** An order, its payment, an edit of the catalogue, its cancellation. *)
Definition historia : list Operacion :=
  [OpCrear (order ana [(P_hex, "3")]);
   OpCambiar order_hex (change admin "PAGADO");
   OpEditar (Actualizar P_hex edit_P);
   OpCambiar order_hex (change admin "CANCELADO")].

(** Two orders and the cancellation of the first. *)
Definition pedidos_y_cancelacion : list Operacion :=
  [OpCrear (order ana [(P_hex, "3")]);
   OpCrear (order ana [(P_hex, "1")]);
   OpCambiar order_hex (change admin "CANCELADO")].

(** An update of P sent without the "activo" box. *)
Definition edit_off : Request :=
  mkRequest [("nombre", "P"); ("precio", "99"); ("stock", "5")]
            [] (Some admin) 3000.

(** An update with a blank name. *)
Definition edit_blank : Request :=
  mkRequest [("nombre", "   "); ("precio", "99"); ("stock", "5")]
            [] (Some admin) 3000.

(** An uploaded picture and a second upload. *)
Definition foto : Upload := mkUpload "Foto.PNG" "bytes" "image/png".
Definition nota : Upload := mkUpload "nota.txt" "hola" "".

Definition fs0 : GridFS := mkGridFS [] 500%N.
Definition fs1 : GridFS := snd (save_to_gridfs (Some foto) fs0).

(** The identifier, in hexadecimal, of the first file stored in [fs0]. *)
Definition foto_hex : string := "0000000000000000000001f4".

(** Password functions for the examples: a hash is its password behind a
    mark. *)
Definition gen_hash (pwd : string) : string := ("hash:" ++ pwd)%string.
Definition check_hash (h pwd : string) : bool := (h =? gen_hash pwd)%string.

Definition cuentas0 : Cuentas.Estado := Cuentas.mkEstado [] [] 1%N.

(** A registration form and a login form for the same person. *)
Definition alta : Request :=
  mkRequest [("nombre", "Ana"); ("email", " Ana@Demo "); ("password", "secreto");
             ("password2", "secreto"); ("ciudad", "Lima")] [] None 4000.

Definition entrada : Request :=
  mkRequest [("email", "ANA@demo"); ("password", "secreto")] [] None 5000.

Definition cuentas1 : Cuentas.Estado :=
  Cuentas.estado (Cuentas.register gen_hash "POST" alta cuentas0).

End Muestra.

(* ================================================================== *)
(** ** Object identifiers *)
(* ================================================================== *)

Lemma hex_val_bound (c : ascii) (d : N) : hex_val c = Some d -> (d < 16)%N.
Proof.
  unfold hex_val.
  destruct ((48 <=? N_of_ascii c) && (N_of_ascii c <=? 57))%N eqn:E1.
  { intros H. injection H as <-. apply andb_prop in E1. destruct E1 as [_ E].
    apply N.leb_le in E. lia. }
  destruct ((97 <=? N_of_ascii c) && (N_of_ascii c <=? 102))%N eqn:E2.
  { intros H. injection H as <-. apply andb_prop in E2. destruct E2 as [_ E].
    apply N.leb_le in E. lia. }
  destruct ((65 <=? N_of_ascii c) && (N_of_ascii c <=? 70))%N eqn:E3;
    [|discriminate].
  intros H. injection H as <-. apply andb_prop in E3. destruct E3 as [_ E].
  apply N.leb_le in E. lia.
Qed.

(** The bytes read from a string are bytes, and there are at most half
    as many as the string has characters. *)
Lemma fromhex_bytes (s : string) :
  forall bs, fromhex s = Some bs ->
    Forall (fun b => (b < 256)%N) bs /\
    (2 * List.length bs <= String.length s)%nat.
Proof.
  assert (H : forall n s, (String.length s <= n)%nat ->
            forall bs, fromhex s = Some bs ->
              Forall (fun b => (b < 256)%N) bs /\
              (2 * List.length bs <= String.length s)%nat).
  { induction n as [|n IH]; intros s' Hn bs Hb.
    - destruct s'; [|cbn in Hn; lia]. cbn in Hb. injection Hb as <-.
      split; [constructor|cbn; lia].
    - destruct s' as [|c r]; [cbn in Hb; injection Hb as <-;
                              split; [constructor|cbn; lia]|].
      cbn [fromhex] in Hb. cbn [String.length] in Hn |- *.
      apply le_S_n in Hn.
      destruct (Py.c_isspace c).
      + destruct (IH r Hn bs Hb) as [H1 H2]. split; [exact H1|lia].
      + destruct (hex_val c) as [top|] eqn:Et; [|discriminate Hb].
        destruct r as [|c' r']; [discriminate Hb|].
        destruct (hex_val c') as [bot|] eqn:Eb; [|discriminate Hb].
        destruct (fromhex r') as [bs'|] eqn:Er; [|discriminate Hb].
        cbn [option_map] in Hb. injection Hb as <-.
        cbn [String.length] in Hn |- *.
        assert (Hn' : (String.length r' <= n)%nat) by lia.
        destruct (IH r' Hn' bs' Er) as [H1 H2]. split.
        * constructor; [|exact H1].
          apply hex_val_bound in Et, Eb. cbv beta. destruct top; lia.
        * cbn [List.length]. lia. }
  intros bs. apply (H (String.length s) s (le_n _)).
Qed.

Lemma bytes_value_from (bs : list N) (a : N) :
  (fold_left (fun a b => 256 * a + b) bs a
   = a * 256 ^ N.of_nat (List.length bs) + bytes_value bs)%N.
Proof.
  unfold bytes_value. revert a.
  induction bs as [|b r IH]; intros a.
  - cbn. lia.
  - cbn [fold_left List.length]. rewrite IH, (IH (256 * 0 + b)%N).
    rewrite Nat2N.inj_succ, N.pow_succ_r'. lia.
Qed.

Lemma bytes_value_cons (b : N) (bs : list N) :
  (bytes_value (b :: bs) = b * 256 ^ N.of_nat (List.length bs) + bytes_value bs)%N.
Proof.
  unfold bytes_value at 1. cbn [fold_left]. rewrite bytes_value_from.
  f_equal.
Qed.

Lemma bytes_value_bound (bs : list N) :
  Forall (fun b => (b < 256)%N) bs ->
  (bytes_value bs < 256 ^ N.of_nat (List.length bs))%N.
Proof.
  induction 1 as [|b r Hb _ IH]; [cbn; lia|].
  rewrite bytes_value_cons. cbn [List.length].
  rewrite Nat2N.inj_succ, N.pow_succ_r'. nia.
Qed.

(** Bytes of the same count that encode the same number are the same. *)
Lemma bytes_value_inj (bs bs' : list N) :
  Forall (fun b => (b < 256)%N) bs -> Forall (fun b => (b < 256)%N) bs' ->
  List.length bs = List.length bs' ->
  bytes_value bs = bytes_value bs' -> bs = bs'.
Proof.
  intros H. revert bs'.
  induction H as [|b r Hb Hr IH]; intros bs' H' Hl Hv.
  - destruct bs'; [reflexivity|discriminate Hl].
  - destruct H' as [|b' r' Hb' Hr']; [discriminate Hl|].
    cbn [List.length] in Hl. injection Hl as Hl.
    rewrite !bytes_value_cons, <- Hl in Hv.
    pose proof (bytes_value_bound r Hr) as B.
    pose proof (bytes_value_bound r' Hr') as B'. rewrite <- Hl in B'.
    assert (b = b') by nia. subst b'.
    f_equal. apply IH; auto. lia.
Qed.

(** Different bytes are different identifiers. *)
Lemma oid_of_bytes_inj (bs bs' : list N) :
  Forall (fun b => (b < 256)%N) bs -> Forall (fun b => (b < 256)%N) bs' ->
  (List.length bs <= 12)%nat -> (List.length bs' <= 12)%nat ->
  oid_of_bytes bs = oid_of_bytes bs' -> bs = bs'.
Proof.
  intros H H' Hl Hl' E. unfold oid_of_bytes in E.
  pose proof (bytes_value_bound bs H) as B.
  pose proof (bytes_value_bound bs' H') as B'.
  assert (P : forall n, (n <= 12)%nat -> (256 ^ N.of_nat n <= 2 ^ 96)%N).
  { intros n Hn. change (2 ^ 96)%N with (256 ^ N.of_nat 12)%N.
    apply N.pow_le_mono_r; lia. }
  pose proof (P _ Hl) as Q. pose proof (P _ Hl') as Q'.
  assert (El : List.length bs = List.length bs').
  { assert (N.of_nat (12 - List.length bs) = N.of_nat (12 - List.length bs'))
      by nia.
    lia. }
  apply bytes_value_inj; auto. rewrite El in E. lia.
Qed.

(** Two strings are read as the same identifier exactly when they hold
    the same bytes. *)
Lemma ObjectId_same_bytes (s s' : string) (o : oid) :
  ObjectId s = Some o ->
  (ObjectId s' = Some o <->
   String.length s' = 24%nat /\ fromhex s' = fromhex s).
Proof.
  unfold ObjectId.
  destruct (Nat.eqb_spec (String.length s) 24) as [L|]; [|discriminate].
  destruct (fromhex s) as [bs|] eqn:Eb; [|discriminate].
  cbn [option_map]. intros Eo. injection Eo as <-.
  destruct (fromhex_bytes s bs Eb) as [Hb Hl].
  split.
  - destruct (Nat.eqb_spec (String.length s') 24) as [L'|]; [|discriminate].
    destruct (fromhex s') as [bs'|] eqn:Eb'; [|discriminate].
    cbn [option_map]. intros Eo. injection Eo as Eo.
    destruct (fromhex_bytes s' bs' Eb') as [Hb' Hl'].
    split; [exact L'|]. f_equal.
    apply oid_of_bytes_inj; auto; lia.
  - intros [L' ->]. rewrite L'. reflexivity.
Qed.

(** Read from 24 hexadecimal digits, an identifier is the number they
    encode; with white space in the 24 characters it holds fewer bytes
    and is another identifier; the separators 28..31 are not white space
    here, nor for [int]. *)
Example ObjectId_readings :
  ObjectId "0000000000000000000000c1" = Some 193%N /\
  ObjectId "00000000000000000000C1  " = ObjectId "00 00 0000000000000000c1" /\
  ObjectId "00 00 0000000000000000c1" <> None /\
  ObjectId "00 00 0000000000000000c1" <> Some 193%N /\
  ObjectId "0 00000000000000000000c1" = None /\
  ObjectId "c1" = None /\
  ObjectId (String (ascii_of_N 28) "00000000000000000000c1 ") = None.
Proof. vm_compute. repeat split; discriminate || reflexivity. Qed.

Example int_readings :
  Py.int " 3 " = Some 3 /\ Py.int "+1_000" = Some 1000 /\
  Py.int "-2" = Some (-2) /\ Py.int "007" = Some 7 /\
  Py.int (String (ascii_of_N 9) "3") = Some 3 /\
  Py.int (String (ascii_of_N 28) "3") = None /\
  Py.int (String (ascii_of_N 31) "3") = None /\
  Py.int "1__0" = None /\ Py.int "3.0" = None /\ Py.int "" = None.
Proof. vm_compute. repeat split. Qed.

(* ================================================================== *)
(** ** The transition table *)
(* ================================================================== *)

Lemma status_name_in_estados (b : Status) :
  Py.str_in (status_name b) estados = true.
Proof. destruct b; reflexivity. Qed.

(** The dictionary of the code and the table of the specification hold
    the same pairs. *)
Lemma transiciones_in_table (actual nuevo : string) :
  Py.str_in nuevo (dict_get transiciones actual) = true <->
  in_table actual nuevo.
Proof.
  split.
  - unfold dict_get, transiciones; cbn [find fst snd].
    destruct (String.eqb_spec "CREADO" actual) as [<-|_].
    { unfold Py.str_in; cbn [existsb fst snd]; intros H.
      destruct (String.eqb_spec nuevo "PAGADO") as [E|_];
        [subst nuevo; exists CREATED, PAID; auto|].
      destruct (String.eqb_spec nuevo "ENVIADO") as [E|_];
        [subst nuevo; exists CREATED, SHIPPED; auto|].
      destruct (String.eqb_spec nuevo "CANCELADO") as [E|_];
        [subst nuevo; exists CREATED, CANCELLED; auto|].
      cbn in H; discriminate H. }
    destruct (String.eqb_spec "PAGADO" actual) as [<-|_].
    { unfold Py.str_in; cbn [existsb fst snd]; intros H.
      destruct (String.eqb_spec nuevo "ENVIADO") as [E|_];
        [subst nuevo; exists PAID, SHIPPED; auto|].
      destruct (String.eqb_spec nuevo "CANCELADO") as [E|_];
        [subst nuevo; exists PAID, CANCELLED; auto|].
      cbn in H; discriminate H. }
    destruct (String.eqb_spec "ENVIADO" actual) as [<-|_].
    { unfold Py.str_in; cbn [existsb fst snd]; intros H.
      destruct (String.eqb_spec nuevo "PAGADO") as [E|_];
        [subst nuevo; exists SHIPPED, PAID; auto|].
      cbn in H; discriminate H. }
    destruct (String.eqb_spec "CANCELADO" actual) as [<-|_];
      cbn; intros H; discriminate H.
  - intros (a & b & -> & -> & H).
    destruct a, b; try discriminate H; reflexivity.
Qed.

Lemma in_table_estados (actual nuevo : string) :
  in_table actual nuevo -> Py.str_in nuevo estados = true.
Proof. intros (a & b & _ & -> & _). apply status_name_in_estados. Qed.

(** Nothing leaves "CANCELADO". *)
Lemma cancelado_row_empty (nuevo : string) :
  Py.str_in nuevo (dict_get transiciones "CANCELADO") = false.
Proof. reflexivity. Qed.

(** "CANCELADO" is entered from a different status only. *)
Lemma into_cancelado_from_other (actual : string) :
  Py.str_in "CANCELADO" (dict_get transiciones actual) = true ->
  (actual =? "CANCELADO")%string = false.
Proof.
  intros H. destruct (String.eqb_spec actual "CANCELADO") as [->|]; auto.
Qed.

(* ================================================================== *)
(** ** Collections: [find] after [update_first] *)
(* ================================================================== *)

Lemma find_update_first_same {A} (q : A -> bool) (f : A -> A) (l : list A) :
  (forall x, q (f x) = q x) ->
  find q (update_first q f l) = option_map f (find q l).
Proof.
  intros Hq. induction l as [|x r IH]; cbn; auto.
  destruct (q x) eqn:E; cbn.
  - now rewrite Hq, E.
  - now rewrite E.
Qed.

Lemma find_update_first_other {A} (q q' : A -> bool) (f : A -> A) (l : list A) :
  (forall x, q (f x) = q x) ->
  (forall x, q x = true -> q' x = false) ->
  find q (update_first q' f l) = find q l.
Proof.
  intros Hq Hd. induction l as [|x r IH]; cbn; auto.
  destruct (q' x) eqn:E'; cbn.
  - rewrite Hq. destruct (q x) eqn:E; auto.
    apply Hd in E. congruence.
  - destruct (q x); auto.
Qed.

Lemma find_app_fresh {A} (q : A -> bool) (l : list A) (x : A) :
  Forall (fun y => q y = false) l -> q x = true ->
  find q (l ++ [x]) = Some x.
Proof.
  intros H Hx. induction H as [|y r Hy _ IH]; cbn.
  - now rewrite Hx.
  - now rewrite Hy.
Qed.

Lemma filter_none {A} (q : A -> bool) (l : list A) :
  Forall (fun y => q y = false) l -> filter q l = [].
Proof.
  induction 1 as [|y r Hy _ IH]; cbn; auto. now rewrite Hy.
Qed.

Lemma filter_all {A} (q : A -> bool) (l : list A) :
  Forall (fun y => q y = true) l -> filter q l = l.
Proof.
  induction 1 as [|y r Hy _ IH]; cbn; auto. rewrite Hy. now f_equal.
Qed.

(* ================================================================== *)
(** ** Running the handler monad *)
(* ================================================================== *)

Lemma bind_ret {A B} (a : A) (k : A -> M B) (w : World) :
  bind (ret a) k w = k a w.
Proof. reflexivity. Qed.

Lemma bind_gets {A B} (f : World -> A) (k : A -> M B) (w : World) :
  bind (gets f) k w = k (f w) w.
Proof. reflexivity. Qed.

Lemma bind_val {A B} (m : M A) (k : A -> M B) (w w' : World) (a : A) :
  m w = (Val a, w') -> bind m k w = k a w'.
Proof. intros E. unfold bind. now rewrite E. Qed.

(* ================================================================== *)
(** ** The restocking loop *)
(* ================================================================== *)

Lemma for_each_restock (ds : list Detalle) (w : World) :
  for_each ds (fun d => inc_stock (id_producto (linea d)) (cantidad (linea d))) w
  = (Val tt, restock ds w).
Proof.
  revert w. induction ds as [|d r IH]; intros w; cbn; auto.
Qed.

Lemma restock_cons (d : Detalle) (ds : list Detalle) (w : World) :
  restock (d :: ds) w =
  restock ds (snd (inc_stock (id_producto (linea d)) (cantidad (linea d)) w)).
Proof. reflexivity. Qed.

Lemma restock_frame (ds : list Detalle) (w : World) :
  pedidos (restock ds w) = pedidos w /\
  detalle_pedido (restock ds w) = detalle_pedido w /\
  auditoria (restock ds w) = auditoria w /\
  next_oid (restock ds w) = next_oid w /\
  writes (restock ds w) = writes w ++ restock_writes ds.
Proof.
  revert w. induction ds as [|d r IH]; intros w.
  - cbn. now rewrite app_nil_r.
  - rewrite restock_cons.
    destruct (IH (snd (inc_stock (id_producto (linea d))
                                 (cantidad (linea d)) w)))
      as (-> & -> & -> & -> & ->).
    cbn. now rewrite <- app_assoc.
Qed.

Lemma has_id_other (pid id : oid) (x : Producto) :
  id <> pid -> has_id pid x = true -> has_id id x = false.
Proof.
  unfold has_id. intros Hne H. apply N.eqb_eq in H. apply N.eqb_neq. congruence.
Qed.

(** One [$inc] changes the stock of the product it names, and of no
    other. *)
Lemma stock_of_inc_stock (pid id : oid) (delta : Z) (w : World) :
  stock_of pid (snd (inc_stock id delta w)) =
  option_map (fun s => if (id =? pid)%N then s + delta else s) (stock_of pid w).
Proof.
  unfold stock_of, find_producto; cbn.
  destruct (N.eqb_spec id pid) as [->|Hne].
  - rewrite find_update_first_same by reflexivity.
    destruct (find (has_id pid) (productos w)); reflexivity.
  - rewrite find_update_first_other;
      [| reflexivity | intros x; apply has_id_other; exact Hne].
    destruct (find (has_id pid) (productos w)); reflexivity.
Qed.

(** The loop adds to each product the units the lines hold of it. *)
Lemma stock_of_restock (pid : oid) (ds : list Detalle) (w : World) :
  stock_of pid (restock ds w) =
  option_map (fun s => s + units_of pid ds) (stock_of pid w).
Proof.
  revert w. induction ds as [|d r IH]; intros w.
  - cbn. destruct (stock_of pid w); cbn; auto. now rewrite Z.add_0_r.
  - rewrite restock_cons, IH, stock_of_inc_stock.
    destruct (stock_of pid w); cbn; auto.
    fold (units_of pid r).
    destruct (id_producto (linea d) =? pid)%N; f_equal; lia.
Qed.

(* ================================================================== *)
(** ** [cambiar_estado_pedido], case by case *)
(* ================================================================== *)

(** Either nothing is written and the change is not accepted, or the
    caller is an administrator, the order exists, the pair of statuses is
    in the dictionary, and the world is [after_change]. *)
Lemma cambiar_estado_pedido_cases (id_s : string) (req : Request) (w : World) :
  (accepted (fst (cambiar_estado_pedido id_s req w)) = false /\
   snd (cambiar_estado_pedido id_s req w) = w) \/
  (exists u id pedido,
     current_user req = Some u /\ is_admin u = true /\
     ObjectId id_s = Some id /\ find_pedido id w = Some pedido /\
     Py.str_in (nuevo_de req) (dict_get transiciones (estado_actual_de pedido))
       = true /\
     cambiar_estado_pedido id_s req w =
       (Redirect (flash_estado_actualizado (estado_actual_de pedido)
                                           (nuevo_de req)) ep_pedidos_list,
        after_change id pedido u req w)).
Proof.
  unfold cambiar_estado_pedido, role_required, login_required.
  destruct (current_user req) as [u|] eqn:Hu; [|left; split; reflexivity].
  cbn [String.eqb Ascii.eqb Bool.eqb andb].
  destruct (is_admin u) eqn:Ha; cbn [negb]; [|left; split; reflexivity].
  unfold try_except, cambiar_estado_pedido_body.
  destruct (Py.str_in (nuevo_de req) estados) eqn:He; cbn [negb];
    [|left; split; reflexivity].
  destruct (ObjectId id_s) as [id|] eqn:Hid; [|left; split; reflexivity].
  cbn [or_raise]. rewrite bind_ret, bind_gets.
  destruct (find_pedido id w) as [pedido|] eqn:Hp; [|left; split; reflexivity].
  destruct (Py.str_in (nuevo_de req)
              (dict_get transiciones (estado_actual_de pedido))) eqn:Ht;
    cbn [negb]; [|left; split; reflexivity].
  right. exists u, id, pedido. repeat (split; [reflexivity || assumption|]).
  unfold after_change.
  destruct ((nuevo_de req =? "CANCELADO")%string
            && negb (estado_actual_de pedido =? "CANCELADO")%string).
  - rewrite (bind_val _ _ w (restock (find_detalles id w) w) tt);
      [reflexivity|].
    rewrite bind_gets. apply for_each_restock.
  - reflexivity.
Qed.

(** What a served request did not accept, it did not write. *)
Lemma rejected_unchanged (id_s : string) (req : Request) (w : World) :
  accepted (fst (cambiar_estado_pedido id_s req w)) = false ->
  snd (cambiar_estado_pedido id_s req w) = w.
Proof.
  intros H.
  destruct (cambiar_estado_pedido_cases id_s req w)
    as [[_ E]|(u & id & p & _ & _ & _ & _ & _ & E)]; auto.
  rewrite E in H. discriminate H.
Qed.

(** An administrator's request for an existing order is accepted exactly
    when the dictionary holds the pair of normalised statuses. *)
Lemma accepted_iff_dict (id_s : string) (req : Request) (w : World)
      (u : User) (id : oid) (pedido : Pedido) :
  current_user req = Some u -> is_admin u = true ->
  ObjectId id_s = Some id -> find_pedido id w = Some pedido ->
  accepted (fst (cambiar_estado_pedido id_s req w)) =
  Py.str_in (nuevo_de req) (dict_get transiciones (estado_actual_de pedido)).
Proof.
  intros Hu Ha Hid Hp.
  destruct (cambiar_estado_pedido_cases id_s req w)
    as [[E _]|(u' & id' & p' & _ & _ & Hid' & Hp' & Ht & E)].
  - rewrite E. symmetry.
    destruct (Py.str_in (nuevo_de req)
                (dict_get transiciones (estado_actual_de pedido))) eqn:Ht; auto.
    exfalso. revert E.
    unfold cambiar_estado_pedido, role_required, login_required.
    rewrite Hu. cbn [String.eqb Ascii.eqb Bool.eqb andb]. rewrite Ha. cbn [negb].
    unfold try_except, cambiar_estado_pedido_body.
    rewrite (in_table_estados _ _ (proj1 (transiciones_in_table _ _) Ht)).
    cbn [negb]. rewrite Hid. cbn [or_raise]. rewrite bind_ret, bind_gets.
    rewrite Hp, Ht. cbn [negb].
    destruct ((nuevo_de req =? "CANCELADO")%string
              && negb (estado_actual_de pedido =? "CANCELADO")%string).
    + rewrite (bind_val _ _ w (restock (find_detalles id w) w) tt);
        [discriminate|].
      rewrite bind_gets. apply for_each_restock.
    + discriminate.
  - rewrite E. rewrite Hid in Hid'. injection Hid' as <-.
    rewrite Hp in Hp'. injection Hp' as <-. now rewrite Ht.
Qed.

(** After an accepted change the order is found with its new status, and
    with nothing else changed. *)
Lemma find_pedido_after_change (id : oid) (pedido : Pedido) (u : User)
      (req : Request) (w : World) :
  find_pedido id w = Some pedido ->
  find_pedido id (after_change id pedido u req w)
  = Some (set_estado_doc (nuevo_de req) pedido).
Proof.
  intros Hp. unfold find_pedido, after_change. cbn [pedidos].
  rewrite find_update_first_same by reflexivity.
  destruct ((nuevo_de req =? "CANCELADO")%string
            && negb (estado_actual_de pedido =? "CANCELADO")%string).
  - destruct (restock_frame (find_detalles id w) w) as (-> & _).
    unfold find_pedido in Hp. now rewrite Hp.
  - unfold find_pedido in Hp. now rewrite Hp.
Qed.

Lemma find_detalles_after_change (id id' : oid) (pedido : Pedido) (u : User)
      (req : Request) (w : World) :
  find_detalles id' (after_change id pedido u req w) = find_detalles id' w.
Proof.
  unfold find_detalles, after_change. cbn [detalle_pedido].
  destruct ((nuevo_de req =? "CANCELADO")%string
            && negb (estado_actual_de pedido =? "CANCELADO")%string); auto.
  now destruct (restock_frame (find_detalles id w) w) as (_ & -> & _).
Qed.

(** The stock after an accepted change: restocked by the units of the
    order when the change is a cancellation, untouched otherwise. *)
Lemma stock_of_after_change (pid id : oid) (pedido : Pedido) (u : User)
      (req : Request) (w : World) :
  Py.str_in (nuevo_de req) (dict_get transiciones (estado_actual_de pedido))
    = true ->
  stock_of pid (after_change id pedido u req w) =
  option_map (fun s => s + if (nuevo_de req =? "CANCELADO")%string
                           then units_of pid (find_detalles id w) else 0)
             (stock_of pid w).
Proof.
  intros Ht. unfold after_change.
  destruct (String.eqb_spec (nuevo_de req) "CANCELADO") as [E|_].
  - rewrite E in Ht. rewrite (into_cancelado_from_other _ Ht). cbn [negb andb].
    change (stock_of pid (restock (find_detalles id w) w) =
            option_map (fun s => s + units_of pid (find_detalles id w))
                       (stock_of pid w)).
    apply stock_of_restock.
  - cbn [andb]. change (stock_of pid w = option_map (fun s => s + 0) (stock_of pid w)).
    destruct (stock_of pid w); cbn; auto. now rewrite Z.add_0_r.
Qed.

(** A cancelled order refuses every request. *)
Lemma cancelado_is_terminal (id_s : string) (req : Request) (w : World)
      (id : oid) (pedido : Pedido) :
  ObjectId id_s = Some id -> find_pedido id w = Some pedido ->
  estado_actual_de pedido = "CANCELADO" ->
  accepted (fst (cambiar_estado_pedido id_s req w)) = false /\
  snd (cambiar_estado_pedido id_s req w) = w.
Proof.
  intros Hid Hp Hc.
  destruct (cambiar_estado_pedido_cases id_s req w)
    as [?|(u & id' & p' & _ & _ & Hid' & Hp' & Ht & _)]; auto.
  rewrite Hid in Hid'. injection Hid' as <-.
  rewrite Hp in Hp'. injection Hp' as <-.
  rewrite Hc, cancelado_row_empty in Ht. discriminate Ht.
Qed.

(* ================================================================== *)
(** ** The validation loop of [pedidos_crear] *)
(* ================================================================== *)

Lemma find_active_has_id (pid : oid) (w : World) (prod : Producto) :
  find_active_producto pid w = Some prod -> prod_id prod = pid.
Proof.
  intros H. apply find_some in H. destruct H as [_ H].
  apply andb_prop in H. destruct H as [H _]. now apply N.eqb_eq in H.
Qed.

Lemma validar_val (w : World) (items : list (oid * Z)) :
  forall (t : float) (ds : list Linea) (t' : float) (ds' : list Linea),
  validar w items t ds = Val (t', ds') ->
  exists ls,
    ds' = ds ++ ls /\
    Forall2 (validated w) items ls /\
    fold_left (fun acc l => Py.fadd acc (subtotal l)) ls t = t' /\
    sum_price_times_quantity_from t ls = Some t'.
Proof.
  induction items as [|[pid q] rest IH]; intros t ds t' ds' H; cbn in H.
  - injection H as <- <-. exists []. rewrite app_nil_r. repeat split; constructor.
  - destruct (find_active_producto pid w) as [prod|] eqn:Hf; [|discriminate H].
    destruct (stock_or_0 prod <? q) eqn:Hs;
      [destruct (stock prod); discriminate H|].
    destruct (Py.float_of_int q) as [fq|] eqn:Hq; [|discriminate H].
    apply IH in H. destruct H as (ls & -> & Hall & Hsum & Hpq).
    exists (mkLinea (prod_id prod) (nombre prod) q (precio prod)
                    (Py.fmul (precio prod) fq) :: ls).
    rewrite <- app_assoc. split; [reflexivity|]. split; [|split].
    + constructor; auto. exists prod.
      cbn [fst snd id_producto cantidad nombre_producto precio_unit].
      apply Z.ltb_ge in Hs.
      split; [exact Hf|]. split; [exact Hs|].
      split; [exact (find_active_has_id _ _ _ Hf)|].
      repeat (split; [reflexivity|]).
      unfold price_times_quantity; cbn [cantidad precio_unit subtotal].
      now rewrite Hq.
    + exact Hsum.
    + cbn [sum_price_times_quantity_from]. unfold price_times_quantity at 1.
      cbn [cantidad precio_unit subtotal]. rewrite Hq. exact Hpq.
Qed.

(** An item that names no active product, or asks for more than the
    stock, stops the loop. *)
Lemma validar_stops (w : World) (items : list (oid * Z)) (pid : oid) (q : Z) :
  In (pid, q) items ->
  (find_active_producto pid w = None \/
   exists prod, find_active_producto pid w = Some prod /\ stock_or_0 prod < q) ->
  forall t ds td, validar w items t ds <> Val td.
Proof.
  intros Hin Hbad.
  induction items as [|[pid' q'] rest IH]; intros t ds td; [destruct Hin|].
  cbn. destruct Hin as [E|Hin].
  - injection E as -> ->.
    destruct Hbad as [->|(prod & -> & Hlt)]; [discriminate|].
    apply Z.ltb_lt in Hlt. rewrite Hlt. destruct (stock prod); discriminate.
  - destruct (find_active_producto pid' w) as [prod|]; [|discriminate].
    destruct (stock_or_0 prod <? q'); [destruct (stock prod); discriminate|].
    destruct (Py.float_of_int q'); [|discriminate].
    now apply IH.
Qed.

(** The loop never answers that an order was created. *)
Lemma validar_return (w : World) (items : list (oid * Z)) :
  forall t ds r, validar w items t ds = Return r -> created r = false.
Proof.
  induction items as [|[pid q] rest IH]; intros t ds r H; cbn in H;
    [discriminate H|].
  destruct (find_active_producto pid w) as [prod|];
    [|injection H as <-; reflexivity].
  destruct (stock_or_0 prod <? q).
  - destruct (stock prod); [injection H as <-; reflexivity|discriminate H].
  - destruct (Py.float_of_int q); [|discriminate H]. eapply IH, H.
Qed.

(* ================================================================== *)
(** ** The insertion loop of [pedidos_crear] *)
(* ================================================================== *)

Lemma insert_lines_cons (id : oid) (l : Linea) (ls : list Linea) (w : World) :
  insert_lines id (l :: ls) w =
  insert_lines id ls
    (snd (inc_stock (id_producto l) (- cantidad l)
            (snd (insert_detalle (fun i => mkDetalle i id l) w)))).
Proof. reflexivity. Qed.

Lemma for_each_insert_lines (id : oid) (ls : list Linea) (w : World) :
  for_each ls (fun d =>
    insert_detalle (fun i => mkDetalle i id d) ;;;
    inc_stock (id_producto d) (- cantidad d)) w
  = (Val tt, insert_lines id ls w).
Proof.
  revert w. induction ls as [|l r IH]; intros w; [reflexivity|].
  rewrite insert_lines_cons, <- IH. reflexivity.
Qed.

(** The loop leaves the orders and the audit log alone and appends one
    line document per line, in order, all of the order [id]. *)
Lemma insert_lines_frame (id : oid) (ls : list Linea) (w : World) :
  pedidos (insert_lines id ls w) = pedidos w /\
  auditoria (insert_lines id ls w) = auditoria w /\
  exists ds,
    detalle_pedido (insert_lines id ls w) = detalle_pedido w ++ ds /\
    map linea ds = ls /\
    Forall (fun d => id_pedido d = id) ds.
Proof.
  revert w. induction ls as [|l r IH]; intros w.
  - cbn. repeat split. exists []. now rewrite app_nil_r.
  - rewrite insert_lines_cons.
    destruct (IH (snd (inc_stock (id_producto l) (- cantidad l)
                         (snd (insert_detalle (fun i => mkDetalle i id l) w)))))
      as (-> & -> & ds & -> & Hm & Hall).
    cbn [pedidos auditoria detalle_pedido inc_stock insert_detalle snd].
    repeat split.
    exists (mkDetalle (next_oid w) id l :: ds).
    rewrite <- app_assoc. cbn [app map linea]. rewrite Hm.
    repeat split. constructor; auto.
Qed.

(** The loop takes from each product the units the lines hold of it. *)
Lemma stock_of_insert_lines (pid id : oid) (ls : list Linea) (w : World) :
  stock_of pid (insert_lines id ls w) =
  option_map (fun s => s - units_in pid ls) (stock_of pid w).
Proof.
  revert w. induction ls as [|l r IH]; intros w.
  - cbn. destruct (stock_of pid w); cbn; auto. now rewrite Z.sub_0_r.
  - rewrite insert_lines_cons, IH, stock_of_inc_stock.
    change (stock_of pid (snd (insert_detalle (fun i => mkDetalle i id l) w)))
      with (stock_of pid w).
    destruct (stock_of pid w); cbn [option_map units_in fold_right]; auto.
    fold (units_in pid r).
    destruct (id_producto l =? pid)%N; f_equal; lia.
Qed.

(* ================================================================== *)
(** ** [pedidos_crear], case by case *)
(* ================================================================== *)

Lemma bind_lift {A B} (f : World -> Outcome A) (k : A -> M B) (w : World) :
  bind (lift f) k w =
  match f w with
  | Val a => k a w
  | Return r => (Return r, w)
  | Raise e => (Raise e, w)
  end.
Proof. unfold bind, lift. destruct (f w); reflexivity. Qed.

(** Either nothing is written and no order is created, or the caller is
    logged in, every kept pair passed the validation, and the world is
    [after_create]. *)
Lemma pedidos_crear_cases (req : Request) (w : World) :
  (created (fst (pedidos_crear req w)) = false /\
   snd (pedidos_crear req w) = w) \/
  (exists u cli t ls,
     current_user req = Some u /\
     normaliza (pares req) <> [] /\
     validar w (normaliza (pares req)) Py.fzero [] = Val (t, ls) /\
     pedidos_crear req w =
       (Redirect flash_pedido_creado
                 (if is_admin u then ep_pedidos_list
                  else ep_pedido_detalle (next_oid w)),
        after_create u req cli t ls w)).
Proof.
  unfold pedidos_crear, login_required.
  destruct (current_user req) as [u|] eqn:Hu; [|left; split; reflexivity].
  unfold try_except, pedidos_crear_body.
  destruct (negb (Py.truthy (Py.or_str (form_get req "id_cliente") ""))
            || match ids_de req with [] => true | _ :: _ => false end
            || match cants_de req with [] => true | _ :: _ => false end);
    [left; split; reflexivity|].
  destruct (normaliza (pares req)) as [|it items] eqn:Hn;
    [left; split; reflexivity|].
  rewrite bind_lift.
  destruct (validar w (it :: items) Py.fzero []) as [[t ls]|r|e] eqn:Hv;
    [|left; split; [exact (validar_return _ _ _ _ _ Hv)|reflexivity]
     |left; split; reflexivity].
  destruct (ObjectId (Py.or_str (form_get req "id_cliente") "")) as [cli|];
    [|left; split; reflexivity].
  right. exists u, cli, t, ls.
  split; [reflexivity|]. split; [discriminate|]. split; [reflexivity|].
  cbn [or_raise]. rewrite bind_ret.
  unfold after_create.
  rewrite (bind_val _ _ w
             (snd (insert_pedido (pedido_nuevo u req cli t) w)) (next_oid w));
    [|reflexivity].
  cbn [fst snd].
  rewrite (bind_val _ _ _ (insert_lines (next_oid w) ls
             (snd (insert_pedido (pedido_nuevo u req cli t) w))) tt);
    [reflexivity|].
  apply for_each_insert_lines.
Qed.

(** What a served order request did not create, it did not write. *)
Lemma not_created_unchanged (req : Request) (w : World) :
  created (fst (pedidos_crear req w)) = false ->
  snd (pedidos_crear req w) = w.
Proof.
  intros H.
  destruct (pedidos_crear_cases req w)
    as [[_ E]|(u & cli & t & ls & _ & _ & _ & E)]; auto.
  rewrite E in H. discriminate H.
Qed.

(* ================================================================== *)
(** ** Status changes: the table, the audit log, cancellation *)
(* ================================================================== *)

Lemma status_name_inj (a b : Status) : status_name a = status_name b -> a = b.
Proof. destruct a, b; intros H; try reflexivity; discriminate H. Qed.

Lemma reads_as_estado_actual (pedido : Pedido) (c : Status) :
  reads_as (estado pedido) c -> estado_actual_de pedido = status_name c.
Proof.
  unfold estado_actual_de.
  intros [[-> ->]|[[-> ->]|(s & -> & Hs & E)]]; try reflexivity.
  destruct s; [now elim Hs|exact E].
Qed.

(** An administrator's request outside the dictionary is answered with
    the reason and writes nothing. *)
Lemma cambiar_estado_pedido_rejects (id_s : string) (req : Request) (w : World)
      (u : User) (id : oid) (pedido : Pedido) :
  current_user req = Some u -> is_admin u = true ->
  ObjectId id_s = Some id -> find_pedido id w = Some pedido ->
  Py.str_in (nuevo_de req) (dict_get transiciones (estado_actual_de pedido))
    = false ->
  cambiar_estado_pedido id_s req w =
  (Redirect (if Py.str_in (nuevo_de req) estados
             then flash_no_se_puede (estado_actual_de pedido) (nuevo_de req)
             else flash_estado_invalido) ep_pedidos_list, w).
Proof.
  intros Hu Ha Hid Hp Ht.
  unfold cambiar_estado_pedido, role_required, login_required.
  rewrite Hu. cbn [String.eqb Ascii.eqb Bool.eqb andb]. rewrite Ha. cbn [negb].
  unfold try_except, cambiar_estado_pedido_body.
  destruct (Py.str_in (nuevo_de req) estados); cbn [negb]; [|reflexivity].
  rewrite Hid. cbn [or_raise]. rewrite bind_ret, bind_gets, Hp, Ht.
  reflexivity.
Qed.

(** C1. For an order that exists and a request made by an administrator,
    the status change is accepted exactly when the pair (current status,
    new status), both as the handler reads them, is in the table
    CREATED -> PAID, SHIPPED, CANCELLED; PAID -> SHIPPED, CANCELLED;
    SHIPPED -> PAID; CANCELLED -> nothing.  A pair outside the table is
    reported to the caller and leaves the whole database (the status of
    the order, the stock of the products and the audit log) as it was. *)
Theorem cambiar_estado_pedido_follows_table
        (id_s : string) (req : Request) (w : World)
        (u : User) (id : oid) (pedido : Pedido) :
  current_user req = Some u -> is_admin u = true ->
  ObjectId id_s = Some id -> find_pedido id w = Some pedido ->
  (accepted (fst (cambiar_estado_pedido id_s req w)) = true <->
   in_table (estado_actual_de pedido) (nuevo_de req)) /\
  (~ in_table (estado_actual_de pedido) (nuevo_de req) ->
   snd (cambiar_estado_pedido id_s req w) = w /\
   (flashed (fst (cambiar_estado_pedido id_s req w)) = flash_estado_invalido \/
    flashed (fst (cambiar_estado_pedido id_s req w)) =
      flash_no_se_puede (estado_actual_de pedido) (nuevo_de req))).
Proof.
  intros Hu Ha Hid Hp. split.
  - rewrite (accepted_iff_dict id_s req w u id pedido Hu Ha Hid Hp).
    apply transiciones_in_table.
  - intros Hn.
    assert (Ht : Py.str_in (nuevo_de req)
                   (dict_get transiciones (estado_actual_de pedido)) = false).
    { destruct (Py.str_in (nuevo_de req)
                  (dict_get transiciones (estado_actual_de pedido))) eqn:E; auto.
      elim Hn. now apply transiciones_in_table. }
    rewrite (cambiar_estado_pedido_rejects id_s req w u id pedido Hu Ha Hid Hp Ht).
    split; [reflexivity|]. cbn [fst flashed].
    destruct (Py.str_in (nuevo_de req) estados); auto.
Qed.

(** C10. For an order whose stored status is missing, empty, or the name
    of a status up to case and surrounding white space, the handler reads
    it trimmed and upper-cased (missing or empty as CREATED), reads the
    requested status trimmed and upper-cased too, and accepts an
    administrator's request exactly when the table allows the pair; an
    order without a status field follows the CREATED row. *)
Theorem stored_status_is_normalised
        (id_s : string) (req : Request) (w : World)
        (u : User) (id : oid) (pedido : Pedido) (c : Status) :
  current_user req = Some u -> is_admin u = true ->
  ObjectId id_s = Some id -> find_pedido id w = Some pedido ->
  reads_as (estado pedido) c ->
  estado_actual_de pedido = status_name c /\
  (accepted (fst (cambiar_estado_pedido id_s req w)) = true <->
   exists b,
     Py.upper (Py.strip (Py.or_str (form_get req "estado") "")) = status_name b
     /\ spec_allowed c b = true).
Proof.
  intros Hu Ha Hid Hp Hr.
  pose proof (reads_as_estado_actual pedido c Hr) as Hc.
  split; [exact Hc|].
  rewrite (accepted_iff_dict id_s req w u id pedido Hu Ha Hid Hp).
  rewrite transiciones_in_table, Hc. unfold nuevo_de. split.
  - intros (a & b & Ea & Eb & H). apply status_name_inj in Ea. subst a.
    now exists b.
  - intros (b & Eb & H). now exists c, b.
Qed.

(** The audit log after an accepted change: the log before, then one
    record. *)
Lemma auditoria_after_change (id : oid) (pedido : Pedido) (u : User)
      (req : Request) (w : World) :
  auditoria (after_change id pedido u req w)
  = auditoria w ++
    [mkAuditoria (next_oid w) "pedido" id "CAMBIAR_ESTADO"
                 (estado_actual_de pedido) (nuevo_de req) (email u) (now req)].
Proof.
  unfold after_change. cbn [auditoria].
  destruct ((nuevo_de req =? "CANCELADO")%string
            && negb (estado_actual_de pedido =? "CANCELADO")%string).
  - destruct (restock_frame (find_detalles id w) w) as (_ & _ & Ea & En & _).
    rewrite Ea, En. reflexivity.
  - reflexivity.
Qed.

(** C5. For an order that exists and a request made by an administrator:
    when the pair of statuses is in the table, the change is accepted and
    the audit log grows by exactly one record, which holds the order, its
    prior status as the handler read it, the new status, the acting user
    and the time of the request; when the pair is not in the table, the
    change is refused and the audit log is left as it was.  And whoever
    asks, whatever the identifier: a request that is accepted appends
    exactly one such record, a request that is not accepted appends
    none. *)
Theorem accepted_change_appends_one_audit_record
        (id_s : string) (req : Request) (w : World)
        (u : User) (id : oid) (pedido : Pedido) :
  current_user req = Some u -> is_admin u = true ->
  ObjectId id_s = Some id -> find_pedido id w = Some pedido ->
  (in_table (estado_actual_de pedido) (nuevo_de req) ->
   accepted (fst (cambiar_estado_pedido id_s req w)) = true /\
   auditoria (snd (cambiar_estado_pedido id_s req w))
   = auditoria w ++
     [mkAuditoria (next_oid w) "pedido" id "CAMBIAR_ESTADO"
                  (estado_actual_de pedido) (nuevo_de req)
                  (email u) (now req)]) /\
  (~ in_table (estado_actual_de pedido) (nuevo_de req) ->
   accepted (fst (cambiar_estado_pedido id_s req w)) = false /\
   auditoria (snd (cambiar_estado_pedido id_s req w)) = auditoria w) /\
  (forall (id_s' : string) (req' : Request),
     if accepted (fst (cambiar_estado_pedido id_s' req' w))
     then exists u' id' pedido' a,
            current_user req' = Some u' /\ ObjectId id_s' = Some id' /\
            find_pedido id' w = Some pedido' /\
            auditoria (snd (cambiar_estado_pedido id_s' req' w))
              = auditoria w ++ [a] /\
            entidad a = "pedido" /\ entidad_id a = id' /\
            accion a = "CAMBIAR_ESTADO" /\
            antes a = estado_actual_de pedido' /\ despues a = nuevo_de req' /\
            usuario_app a = email u' /\ aud_fecha a = now req'
     else auditoria (snd (cambiar_estado_pedido id_s' req' w)) = auditoria w).
Proof.
  intros Hu Ha Hid Hp. split; [|split].
  - intros Hin. apply transiciones_in_table in Hin.
    pose proof (accepted_iff_dict id_s req w u id pedido Hu Ha Hid Hp) as Hacc.
    rewrite Hin in Hacc. split; [exact Hacc|].
    destruct (cambiar_estado_pedido_cases id_s req w)
      as [[E _]|(u' & id' & p' & Hu' & _ & Hid' & Hp' & _ & E)];
      [rewrite E in Hacc; discriminate Hacc|].
    rewrite Hu in Hu'. injection Hu' as <-.
    rewrite Hid in Hid'. injection Hid' as <-.
    rewrite Hp in Hp'. injection Hp' as <-.
    rewrite E. cbn [snd]. apply auditoria_after_change.
  - intros Hn.
    assert (Ht : Py.str_in (nuevo_de req)
                   (dict_get transiciones (estado_actual_de pedido)) = false).
    { destruct (Py.str_in (nuevo_de req)
                  (dict_get transiciones (estado_actual_de pedido))) eqn:E; auto.
      elim Hn. now apply transiciones_in_table. }
    rewrite (cambiar_estado_pedido_rejects id_s req w u id pedido Hu Ha Hid Hp Ht).
    cbn [fst snd accepted flashed].
    split; [|reflexivity]. now destruct (Py.str_in (nuevo_de req) estados).
  - intros id_s' req'.
    destruct (cambiar_estado_pedido_cases id_s' req' w)
      as [[E ->]|(u' & id' & pedido' & Hu' & _ & Hid' & Hp' & _ & E)].
    + now rewrite E.
    + rewrite E. cbn [fst snd accepted flashed].
      exists u', id', pedido',
        (mkAuditoria (next_oid w) "pedido" id' "CAMBIAR_ESTADO"
                     (estado_actual_de pedido') (nuevo_de req')
                     (email u') (now req')).
      split; [exact Hu'|]. split; [exact Hid'|]. split; [exact Hp'|].
      split; [apply auditoria_after_change|repeat split].
Qed.

(** C3. A status change that moves an order into CANCELLED finds it in
    another status, issues one stock increment per line of the order, by
    the quantity of that line, and only then writes the status (followed
    by the audit record); each product ends with its stock raised by the
    units the order held of it. *)
Theorem cancellation_restocks_before_status_write
        (id_s : string) (req : Request) (w : World) :
  accepted (fst (cambiar_estado_pedido id_s req w)) = true ->
  nuevo_de req = "CANCELADO" ->
  exists id pedido a,
    ObjectId id_s = Some id /\ find_pedido id w = Some pedido /\
    estado_actual_de pedido <> "CANCELADO" /\
    writes (snd (cambiar_estado_pedido id_s req w))
      = writes w ++ restock_writes (find_detalles id w)
                 ++ [SetEstado id "CANCELADO"; InsertAuditoria a] /\
    forall pid,
      stock_of pid (snd (cambiar_estado_pedido id_s req w)) =
      option_map (fun s => s + units_of pid (find_detalles id w))
                 (stock_of pid w).
Proof.
  intros Hacc Hn.
  destruct (cambiar_estado_pedido_cases id_s req w)
    as [[E _]|(u & id & pedido & _ & _ & Hid & Hp & Ht & E)];
    [rewrite E in Hacc; discriminate Hacc|].
  rewrite E. cbn [snd].
  pose proof (stock_of_after_change) as Hs.
  rewrite Hn in Ht. pose proof (into_cancelado_from_other _ Ht) as Hne.
  exists id, pedido,
    (mkAuditoria (next_oid w) "pedido" id "CAMBIAR_ESTADO"
                 (estado_actual_de pedido) "CANCELADO" (email u) (now req)).
  split; [exact Hid|]. split; [exact Hp|]. split.
  { intros Hc. rewrite Hc in Hne. discriminate Hne. }
  split.
  - unfold after_change. rewrite Hn, Hne. cbn [String.eqb Ascii.eqb Bool.eqb
      andb negb writes].
    destruct (restock_frame (find_detalles id w) w) as (_ & _ & _ & En & Ew).
    rewrite Ew, En, <- !app_assoc. reflexivity.
  - intros pid. rewrite Hs by (rewrite Hn; exact Ht). now rewrite Hn.
Qed.

(* ------------------------------------------------------------------ *)

Lemma estado_actual_set_estado (b : Status) (p : Pedido) :
  estado_actual_de (set_estado_doc (status_name b) p) = status_name b.
Proof. destruct b; reflexivity. Qed.

(** Requests for a cancelled order are all refused and change nothing. *)
Lemma cancelled_stays (id_s : string) (id : oid) (reqs : list Request)
      (w : World) :
  ObjectId id_s = Some id -> is_cancelled id w = true ->
  cambiar_todos id_s reqs w = w /\
  Forall (fun q => accepted (fst (cambiar_estado_pedido id_s q w)) = false) reqs.
Proof.
  intros Hid Hc. unfold is_cancelled in Hc.
  destruct (find_pedido id w) as [p|] eqn:Hp; [|discriminate Hc].
  apply String.eqb_eq in Hc.
  induction reqs as [|q r [IHw IHa]]; [split; [reflexivity|constructor]|].
  destruct (cancelado_is_terminal id_s q w id p Hid Hp Hc) as [Ha Hw].
  split.
  - unfold cambiar_todos in *. cbn [fold_left]. now rewrite Hw.
  - constructor; assumption.
Qed.

(** One served request either changes nothing, or finds the order not
    cancelled and leaves it cancelled and restocked, or finds it not
    cancelled and leaves it so with the stock untouched. *)
Lemma cambiar_estado_pedido_step (id_s : string) (id : oid) (q : Request)
      (w : World) :
  ObjectId id_s = Some id ->
  let w1 := snd (cambiar_estado_pedido id_s q w) in
  w1 = w \/
  (is_cancelled id w = false /\
   find_detalles id w1 = find_detalles id w /\
   forall pid,
     stock_of pid w1 =
     option_map (fun s => s + if is_cancelled id w1
                              then units_of pid (find_detalles id w) else 0)
                (stock_of pid w)).
Proof.
  intros Hid w1. subst w1.
  destruct (cambiar_estado_pedido_cases id_s q w)
    as [[_ E]|(u & id' & pedido & _ & _ & Hid' & Hp & Ht & E)]; [now left|].
  right. rewrite E. cbn [snd].
  rewrite Hid in Hid'. injection Hid' as <-.
  split; [|split].
  - unfold is_cancelled. rewrite Hp.
    destruct (String.eqb_spec (estado_actual_de pedido) "CANCELADO") as [Hc|];
      auto.
    rewrite Hc, cancelado_row_empty in Ht. discriminate Ht.
  - apply find_detalles_after_change.
  - intros pid. rewrite (stock_of_after_change pid id pedido u q w Ht).
    unfold is_cancelled. rewrite (find_pedido_after_change _ _ _ _ _ Hp).
    apply transiciones_in_table in Ht. destruct Ht as (a & b & _ & Eb & _).
    rewrite Eb, estado_actual_set_estado. reflexivity.
Qed.

(** C4. Over any sequence of status requests for one order, each product
    is restocked by the units of the order exactly once if the sequence
    takes the order from not cancelled to cancelled, and not at all
    otherwise; once the order is cancelled every further request, a
    repeated cancellation included, is refused and changes nothing. *)
Theorem cancellation_restocks_once
        (id_s : string) (id : oid) (reqs : list Request) (w : World) :
  ObjectId id_s = Some id ->
  (is_cancelled id w = true ->
   cambiar_todos id_s reqs w = w /\
   Forall (fun q => accepted (fst (cambiar_estado_pedido id_s q w)) = false)
          reqs) /\
  (forall pid,
     stock_of pid (cambiar_todos id_s reqs w) =
     option_map
       (fun s => s + if negb (is_cancelled id w)
                        && is_cancelled id (cambiar_todos id_s reqs w)
                     then units_of pid (find_detalles id w) else 0)
       (stock_of pid w)).
Proof.
  intros Hid. split; [apply cancelled_stays; exact Hid|].
  revert w. induction reqs as [|q r IH]; intros w pid.
  - cbn [cambiar_todos fold_left].
    destruct (is_cancelled id w); cbn [negb andb];
      destruct (stock_of pid w); cbn; auto; now rewrite Z.add_0_r.
  - change (cambiar_todos id_s (q :: r) w)
      with (cambiar_todos id_s r (snd (cambiar_estado_pedido id_s q w))).
    destruct (cambiar_estado_pedido_step id_s id q w Hid) as [E|(Hc & Hd & Hs)].
    + rewrite E. apply IH.
    + rewrite Hc. cbn [negb andb].
      destruct (is_cancelled id (snd (cambiar_estado_pedido id_s q w))) eqn:Hc1.
      * destruct (cancelled_stays id_s id r _ Hid Hc1) as [-> _].
        rewrite Hc1. apply Hs.
      * rewrite IH, Hc1, Hd, Hs. cbn [negb andb].
        destruct (stock_of pid w); cbn; auto. now rewrite Z.add_0_r.
Qed.

(* ================================================================== *)
(** ** Order creation: totals, rejection, skipped pairs *)
(* ================================================================== *)

Lemma validated_price (w : World) (items : list (oid * Z)) (ls : list Linea) :
  Forall2 (validated w) items ls ->
  Forall (fun l => price_times_quantity l = Some (subtotal l)) ls.
Proof.
  induction 1 as [|it l items ls H _ IH]; constructor; auto.
  destruct H as (prod & _ & _ & _ & _ & _ & _ & H). exact H.
Qed.

(** The documents of a created order, as later queries find them. *)
Lemma after_create_documents (u : User) (req : Request) (cli : oid)
      (t : float) (ls : list Linea) (w : World) :
  fresh_ids w ->
  let p := pedido_nuevo u req cli t (next_oid w) in
  let w' := after_create u req cli t ls w in
  pedidos w' = pedidos w ++ [p] /\
  find_pedido (next_oid w) w' = Some p /\
  detalle_pedido w' = detalle_pedido w ++ find_detalles (next_oid w) w' /\
  map linea (find_detalles (next_oid w) w') = ls.
Proof.
  intros [Hfp Hfd] p w'. subst p w'. unfold after_create.
  set (wp := snd (insert_pedido (pedido_nuevo u req cli t) w)).
  destruct (insert_lines_frame (next_oid w) ls wp)
    as (Ep & _ & ds & Ed & Hm & Hall).
  change (pedidos wp)
    with (pedidos w ++ [pedido_nuevo u req cli t (next_oid w)]) in Ep.
  change (detalle_pedido wp) with (detalle_pedido w) in Ed.
  assert (Ef : find_detalles (next_oid w) (insert_lines (next_oid w) ls wp)
               = ds).
  { unfold find_detalles. rewrite Ed, filter_app.
    rewrite filter_none, filter_all; [reflexivity| |].
    - eapply Forall_impl; [|exact Hall]. intros d ->. apply N.eqb_refl.
    - eapply Forall_impl; [|exact Hfd]. intros d Hd. cbv beta in Hd.
      apply N.eqb_neq. lia. }
  rewrite Ef. split; [exact Ep|]. split; [|split; [exact Ed|exact Hm]].
  unfold find_pedido. rewrite Ep. apply find_app_fresh.
  - eapply Forall_impl; [|exact Hfp]. intros d Hd. cbv beta in Hd.
    apply N.eqb_neq. lia.
  - apply N.eqb_refl.
Qed.

(** The facts about a created order that later statements share: the
    world is [after_create] for lines [ls] that the validation priced, and
    [t] is their sum either way it is written. *)
Lemma created_order_facts (req : Request) (w : World) :
  created (fst (pedidos_crear req w)) = true ->
  exists u cli t ls,
    snd (pedidos_crear req w) = after_create u req cli t ls w /\
    Forall (fun l => price_times_quantity l = Some (subtotal l)) ls /\
    sum_price_times_quantity ls = Some t /\
    sum_subtotals ls = t.
Proof.
  intros Hc.
  destruct (pedidos_crear_cases req w)
    as [[E _]|(u & cli & t & ls & _ & _ & Hv & E)];
    [rewrite E in Hc; discriminate Hc|].
  exists u, cli, t, ls. rewrite E. split; [reflexivity|].
  apply validar_val in Hv. destruct Hv as (ls' & El & Hall & Hsum & Hpq).
  cbn [app] in El. subst ls'.
  split; [eapply validated_price, Hall|]. split; assumption.
Qed.

(** C2. For every created order, the persisted total is the sum over its
    lines of unit price times quantity, each line's subtotal is its unit
    price times its quantity, and the sum of the subtotals is the total;
    the order is appended under a fresh identifier and its lines are the
    documents a query for that identifier finds. *)
Theorem created_order_total_is_sum_of_lines (req : Request) (w : World) :
  fresh_ids w ->
  created (fst (pedidos_crear req w)) = true ->
  exists p,
    pedidos (snd (pedidos_crear req w)) = pedidos w ++ [p] /\
    find_pedido (ped_id p) (snd (pedidos_crear req w)) = Some p /\
    detalle_pedido (snd (pedidos_crear req w))
      = detalle_pedido w ++ find_detalles (ped_id p) (snd (pedidos_crear req w)) /\
    Forall (fun l => price_times_quantity l = Some (subtotal l))
           (map linea (find_detalles (ped_id p) (snd (pedidos_crear req w)))) /\
    sum_price_times_quantity
      (map linea (find_detalles (ped_id p) (snd (pedidos_crear req w))))
      = Some (total p) /\
    sum_subtotals
      (map linea (find_detalles (ped_id p) (snd (pedidos_crear req w))))
      = total p.
Proof.
  intros Hfresh Hc.
  destruct (created_order_facts req w Hc)
    as (u & cli & t & ls & -> & Hall & Hpq & Hsum).
  destruct (after_create_documents u req cli t ls w Hfresh)
    as (Ep & Ef & Ed & Hm).
  exists (pedido_nuevo u req cli t (next_oid w)).
  cbn [ped_id pedido_nuevo total].
  rewrite Hm. repeat split; assumption.
Qed.

(** A pair is kept by the normalisation when its quantity is a positive
    integer and [ObjectId] accepts its product identifier. *)
Lemma normaliza_keeps (pairs : list (string * string))
      (pid_s cant : string) (pid : oid) (q : Z) :
  In (pid_s, cant) pairs -> Py.int cant = Some q -> 0 < q ->
  ObjectId pid_s = Some pid ->
  In (pid, q) (normaliza pairs).
Proof.
  intros Hin Hq Hpos Hid.
  induction pairs as [|[pid' cant'] rest IH]; [destruct Hin|].
  cbn [normaliza]. destruct Hin as [E|Hin].
  - injection E as -> ->. rewrite Hq, Hid.
    apply Z.gtb_lt in Hpos. rewrite Hpos. now left.
  - specialize (IH Hin).
    destruct (Py.int cant') as [q'|]; auto.
    destruct (q' >? 0); auto.
    destruct (ObjectId pid'); auto. now right.
Qed.

(** C6, amended. When a pair of the request that the normalisation keeps
    (a quantity that [int] reads as a positive integer, a product
    identifier that [ObjectId] accepts) names a
    product that does not exist or is inactive, or asks for more than the
    stock of its product, the whole order is rejected and the database is
    left as it was: no order, no line, no change of stock. *)
Theorem unavailable_line_rejects_order
        (req : Request) (w : World)
        (pid_s cant : string) (pid : oid) (q : Z) :
  In (pid_s, cant) (pares req) ->
  Py.int cant = Some q -> 0 < q -> ObjectId pid_s = Some pid ->
  (find_active_producto pid w = None \/
   exists prod, find_active_producto pid w = Some prod /\ stock_or_0 prod < q) ->
  created (fst (pedidos_crear req w)) = false /\
  snd (pedidos_crear req w) = w.
Proof.
  intros Hin Hq Hpos Hid Hbad.
  destruct (pedidos_crear_cases req w)
    as [?|(u & cli & t & ls & _ & _ & Hv & _)]; auto.
  exfalso.
  exact (validar_stops w _ pid q (normaliza_keeps _ _ _ _ _ Hin Hq Hpos Hid)
                       Hbad _ _ _ Hv).
Qed.

(* ------------------------------------------------------------------ *)

(** Pairs without a positive integer quantity add nothing to the items. *)
Lemma normaliza_filter (pairs : list (string * string)) :
  normaliza pairs = normaliza (filter cantidad_valida pairs).
Proof.
  induction pairs as [|[pid cant] rest IH]; [reflexivity|].
  cbn [filter]. unfold cantidad_valida at 1. cbn [snd normaliza].
  destruct (Py.int cant) as [q|] eqn:Hq; [|exact IH].
  destruct (q >? 0) eqn:Hpos; [|exact IH].
  cbn [normaliza]. rewrite Hq, Hpos, IH. reflexivity.
Qed.

Lemma find_app {A} (f : A -> bool) (l1 l2 : list A) :
  find f (l1 ++ l2) =
  match find f l1 with Some x => Some x | None => find f l2 end.
Proof.
  induction l1 as [|x r IH]; cbn; auto. destruct (f x); auto.
Qed.

Lemma lines_find_other (F : list (string * string)) (k : string) :
  (k =? "id_producto[]")%string = false ->
  (k =? "cantidad[]")%string = false ->
  find (fun kv => (fst kv =? k)%string) (lines_of F) = None.
Proof.
  intros H1 H2. unfold lines_of. rewrite String.eqb_sym in H1, H2.
  induction F as [|pc r IH]; [reflexivity|].
  cbn [flat_map app find fst]. now rewrite H1, H2.
Qed.

Lemma lines_filter_key (F : list (string * string)) (k : string) :
  map snd (filter (fun kv => (fst kv =? k)%string) (lines_of F)) =
  if (k =? "id_producto[]")%string then map fst F
  else if (k =? "cantidad[]")%string then map snd F
  else [].
Proof.
  unfold lines_of.
  induction F as [|pc r IH].
  - cbn. now destruct (k =? "id_producto[]")%string, (k =? "cantidad[]")%string.
  - cbn [flat_map app filter fst].
    rewrite (String.eqb_sym "id_producto[]" k), (String.eqb_sym "cantidad[]" k).
    destruct (String.eqb_spec k "id_producto[]") as [E|H1].
    + subst k. cbn [String.eqb Ascii.eqb Bool.eqb map snd fst] in *. now rewrite IH.
    + destruct (String.eqb_spec k "cantidad[]") as [E|H2].
      * subst k. cbn [String.eqb Ascii.eqb Bool.eqb map snd fst] in *. now rewrite IH.
      * exact IH.
Qed.

Lemma combine_fst_snd {A B} (l : list (A * B)) :
  combine (map fst l) (map snd l) = l.
Proof. induction l as [|[a b] r IH]; cbn; auto. now rewrite IH. Qed.

Lemma sin_invalidas_get (req : Request) (k : string) :
  k = "id_cliente" \/ k = "metodo_pago" ->
  form_get (sin_invalidas req) k = form_get req k.
Proof.
  intros Hk. unfold form_get at 1, sin_invalidas. cbn [form].
  rewrite !find_app.
  rewrite lines_find_other by (destruct Hk as [->| ->]; reflexivity).
  destruct Hk as [->| ->].
  - destruct (form_get req "id_cliente") as [c|]; [reflexivity|].
    destruct (form_get req "metodo_pago"); reflexivity.
  - destruct (form_get req "id_cliente") as [c|];
      destruct (form_get req "metodo_pago"); reflexivity.
Qed.

Lemma sin_invalidas_getlist (req : Request) (k : string) :
  (k =? "id_cliente")%string = false ->
  (k =? "metodo_pago")%string = false ->
  form_getlist (sin_invalidas req) k =
  map snd (filter (fun kv => (fst kv =? k)%string)
             (lines_of (filter cantidad_valida (pares req)))).
Proof.
  intros H1 H2. unfold form_getlist, sin_invalidas. cbn [form].
  rewrite !filter_app.
  rewrite String.eqb_sym in H1, H2.
  destruct (form_get req "id_cliente"); destruct (form_get req "metodo_pago");
    cbn [filter fst app]; rewrite ?H1, ?H2; reflexivity.
Qed.

Lemma sin_invalidas_pares (req : Request) :
  filter cantidad_valida (pares req) <> [] ->
  ids_de (sin_invalidas req) = map fst (filter cantidad_valida (pares req)) /\
  cants_de (sin_invalidas req) = map snd (filter cantidad_valida (pares req)).
Proof.
  intros Hne. unfold ids_de, cants_de.
  rewrite !sin_invalidas_getlist by reflexivity.
  rewrite !lines_filter_key. cbn [String.eqb Ascii.eqb Bool.eqb].
  destruct (filter cantidad_valida (pares req)) as [|pc r]; [now elim Hne|].
  split; reflexivity.
Qed.

(** The body of the handler reads the request only through the customer,
    the payment method, the clock, whether [ids] and [cants] are empty,
    and the pairs the normalisation keeps. *)
Lemma pedidos_crear_body_ext (u : User) (req1 req2 : Request) :
  form_get req1 "id_cliente" = form_get req2 "id_cliente" ->
  form_get req1 "metodo_pago" = form_get req2 "metodo_pago" ->
  now req1 = now req2 ->
  ids_de req1 <> [] -> ids_de req2 <> [] ->
  cants_de req1 <> [] -> cants_de req2 <> [] ->
  normaliza (pares req1) = normaliza (pares req2) ->
  pedidos_crear_body u req1 = pedidos_crear_body u req2.
Proof.
  intros Hc Hm Hn Hi1 Hi2 Hc1 Hc2 Hp. unfold pedidos_crear_body.
  rewrite Hc, Hm, Hn, Hp.
  destruct (ids_de req1); [now elim Hi1|].
  destruct (ids_de req2); [now elim Hi2|].
  destruct (cants_de req1); [now elim Hc1|].
  destruct (cants_de req2); [now elim Hc2|].
  reflexivity.
Qed.

(** C7, amended. A pair whose quantity is not a positive integer is
    skipped.  When no pair with a positive integer quantity remains the
    order is aborted and nothing is persisted; otherwise the request is
    served exactly as the same request without the skipped pairs. *)
Theorem invalid_quantities_are_skipped (req : Request) (w : World) :
  match filter cantidad_valida (pares req) with
  | [] => created (fst (pedidos_crear req w)) = false /\
          snd (pedidos_crear req w) = w
  | _ :: _ => pedidos_crear req w = pedidos_crear (sin_invalidas req) w
  end.
Proof.
  destruct (filter cantidad_valida (pares req)) as [|pc r] eqn:HF.
  - destruct (pedidos_crear_cases req w)
      as [?|(u & cli & t & ls & _ & Hne & _)]; auto.
    elim Hne. now rewrite normaliza_filter, HF.
  - assert (HFne : filter cantidad_valida (pares req) <> [])
      by (rewrite HF; discriminate).
    destruct (sin_invalidas_pares req HFne) as [Ei Ec].
    unfold pedidos_crear, login_required.
    change (current_user (sin_invalidas req)) with (current_user req).
    destruct (current_user req) as [u|]; [|reflexivity].
    rewrite (pedidos_crear_body_ext u req (sin_invalidas req)); auto.
    + symmetry. apply sin_invalidas_get. now left.
    + symmetry. apply sin_invalidas_get. now right.
    + intros E. unfold pares in HF. rewrite E in HF. discriminate HF.
    + rewrite Ei, HF. discriminate.
    + intros E. unfold pares in HF. rewrite E, combine_nil in HF.
      discriminate HF.
    + rewrite Ec, HF. discriminate.
    + unfold pares at 2. rewrite Ei, Ec, combine_fst_snd.
      apply normaliza_filter.
Qed.

(* ------------------------------------------------------------------ *)

(** With one document per product identifier, the active product found
    for an identifier is the product found for it. *)
Lemma find_active_is_find (pid : oid) (ps : list Producto) (prod : Producto) :
  NoDup (map prod_id ps) ->
  find (fun p => has_id pid p && activo p) ps = Some prod ->
  find (has_id pid) ps = Some prod.
Proof.
  induction ps as [|x r IH]; intros Hnd H; [discriminate H|].
  cbn in *. inversion Hnd as [|? ? Hx Hr]; subst.
  destruct (has_id pid x) eqn:Ex; cbn [andb] in H; [|now apply IH].
  destruct (activo x); [exact H|].
  exfalso. apply Hx. apply find_some in H. destruct H as [Hin Hp].
  apply andb_prop in Hp. destruct Hp as [Hp _].
  unfold has_id in Ex, Hp. apply N.eqb_eq in Ex, Hp.
  rewrite Ex, <- Hp. now apply in_map.
Qed.

Lemma units_in_absent (w : World) (items : list (oid * Z)) (ls : list Linea)
      (pid : oid) :
  Forall2 (validated w) items ls -> ~ In pid (map fst items) ->
  units_in pid ls = 0.
Proof.
  induction 1 as [|it l items ls Hv _ IH]; intros Hn; [reflexivity|].
  cbn [units_in fold_right]. fold (units_in pid ls).
  destruct Hv as (prod & _ & _ & Hid & _).
  destruct (N.eqb_spec (id_producto l) pid) as [E|_].
  - elim Hn. left. congruence.
  - apply IH. intros Hin. apply Hn. now right.
Qed.

(** When the kept pairs name distinct products, the units taken from a
    product are those of a single validated line, so they are within its
    stock. *)
Lemma units_in_within_stock (w : World) (items : list (oid * Z))
      (ls : list Linea) (pid : oid) :
  Forall2 (validated w) items ls -> NoDup (map fst items) ->
  units_in pid ls = 0 \/
  exists prod, find_active_producto pid w = Some prod /\
               units_in pid ls <= stock_or_0 prod.
Proof.
  induction 1 as [|it l items ls Hv Hall IH]; intros Hnd; [now left|].
  cbn [map] in Hnd. inversion Hnd as [|? ? Hx Hr]; subst.
  cbn [units_in fold_right]. fold (units_in pid ls).
  destruct (N.eqb_spec (id_producto l) pid) as [E|_]; [|now apply IH].
  right. destruct Hv as (prod & Hf & Hle & Hid & Hq & _).
  exists prod. rewrite <- E, Hid. split; [exact Hf|].
  rewrite (units_in_absent w items ls (fst it) Hall Hx), Hq. lia.
Qed.

(** The stock check does its work when no product is listed twice: an
    order whose kept pairs name distinct products leaves no stock below
    zero that was not below zero before. *)
Lemma distinct_products_keep_stock_nonneg (req : Request) (w : World)
      (pid : oid) (s0 s : Z) :
  NoDup (map prod_id (productos w)) ->
  NoDup (map fst (normaliza (pares req))) ->
  stock_of pid w = Some s0 -> 0 <= s0 ->
  stock_of pid (snd (pedidos_crear req w)) = Some s -> 0 <= s.
Proof.
  intros Hu Hnd Hs0 Hpos Hs.
  destruct (pedidos_crear_cases req w)
    as [[_ E]|(u & cli & t & ls & _ & _ & Hv & E)].
  - rewrite E, Hs0 in Hs. injection Hs as <-. exact Hpos.
  - rewrite E in Hs. cbn [snd] in Hs. unfold after_create in Hs.
    rewrite stock_of_insert_lines in Hs.
    change (stock_of pid (snd (insert_pedido (pedido_nuevo u req cli t) w)))
      with (stock_of pid w) in Hs.
    rewrite Hs0 in Hs. cbn [option_map] in Hs. injection Hs as <-.
    apply validar_val in Hv. destruct Hv as (ls' & El & Hall & _).
    cbn [app] in El. subst ls'.
    destruct (units_in_within_stock w _ ls pid Hall Hnd)
      as [->|(prod & Hf & Hle)]; [lia|].
    apply find_active_is_find in Hf; [|exact Hu].
    unfold stock_of, find_producto in Hs0. rewrite Hf in Hs0.
    injection Hs0 as <-. lia.
Qed.

(** For stock alone the rejection needs no word about kept pairs, once
    the stock is not negative and each product has one document: a pair
    that asks for more than the stock has a positive quantity, so it is
    kept and stops the validation. *)
Lemma exceeding_line_rejects_order (req : Request) (w : World) :
  NoDup (map prod_id (productos w)) -> stock_nonneg w ->
  exceeds_stock req w ->
  created (fst (pedidos_crear req w)) = false /\
  snd (pedidos_crear req w) = w.
Proof.
  intros Hu Hnn (pid_s & cant & o & q & p & Hin & Hid & Hq & Hf & Hlt).
  assert (Hpos : 0 < q).
  { unfold find_producto in Hf. apply find_some in Hf. destruct Hf as [Hp _].
    unfold stock_nonneg in Hnn. rewrite Forall_forall in Hnn.
    specialize (Hnn p Hp). lia. }
  assert (Hbad : find_active_producto o w = None \/
                 exists prod, find_active_producto o w = Some prod /\
                              stock_or_0 prod < q).
  { destruct (find_active_producto o w) as [p'|] eqn:Ha; [right|now left].
    exists p'. split; [reflexivity|].
    apply find_active_is_find in Ha; [|exact Hu].
    unfold find_producto in Hf. rewrite Hf in Ha. injection Ha as <-.
    exact Hlt. }
  destruct (pedidos_crear_cases req w)
    as [?|(u & cli & t & ls & _ & _ & Hv & _)]; auto.
  exfalso.
  exact (validar_stops w _ o q (normaliza_keeps _ _ _ _ _ Hin Hq Hpos Hid)
                       Hbad _ _ _ Hv).
Qed.

(* ------------------------------------------------------------------ *)

Lemma insert_lines_next_oid (id : oid) (ls : list Linea) (w : World) :
  (next_oid w <= next_oid (insert_lines id ls w))%N.
Proof.
  revert w. induction ls as [|l r IH]; intros w; [apply N.le_refl|].
  rewrite insert_lines_cons. eapply N.le_trans; [|apply IH].
  cbn. lia.
Qed.

Lemma Forall_update_first {A} (P : A -> Prop) (q : A -> bool) (f : A -> A)
      (l : list A) :
  (forall x, P x -> P (f x)) -> Forall P l -> Forall P (update_first q f l).
Proof.
  intros Hf. induction 1 as [|x r Hx Hr IH]; cbn; [constructor|].
  destruct (q x); constructor; [apply Hf, Hx|exact Hr|exact Hx|exact IH].
Qed.

(** Order creation keeps the identifiers in use below the next fresh
    one. *)
Lemma pedidos_crear_fresh_ids (req : Request) (w : World) :
  fresh_ids w -> fresh_ids (snd (pedidos_crear req w)).
Proof.
  intros Hf.
  destruct (pedidos_crear_cases req w)
    as [[_ ->]|(u & cli & t & ls & _ & _ & _ & ->)]; [exact Hf|].
  cbn [snd].
  destruct (after_create_documents u req cli t ls w Hf) as (Ep & _ & Ed & _).
  pose proof (insert_lines_next_oid (next_oid w) ls
                (snd (insert_pedido (pedido_nuevo u req cli t) w))) as Hn.
  fold (after_create u req cli t ls w) in Hn. cbn [insert_pedido snd next_oid] in Hn.
  destruct Hf as [Hp Hd]. unfold fresh_ids. rewrite Ep, Ed. split.
  - apply Forall_app. split.
    + eapply Forall_impl; [|exact Hp]. cbv beta. intros; lia.
    + constructor; [cbn; lia|constructor].
  - apply Forall_app. split.
    + eapply Forall_impl; [|exact Hd]. cbv beta. intros; lia.
    + unfold find_detalles. apply Forall_forall. intros d Hin.
      apply filter_In in Hin. destruct Hin as [_ Hin].
      apply N.eqb_eq in Hin. rewrite Hin. lia.
Qed.

(** So does a status change. *)
Lemma cambiar_estado_pedido_fresh_ids (id_s : string) (req : Request)
      (w : World) :
  fresh_ids w -> fresh_ids (snd (cambiar_estado_pedido id_s req w)).
Proof.
  intros [Hp Hd].
  destruct (cambiar_estado_pedido_cases id_s req w)
    as [[_ ->]|(u & id & pedido & _ & _ & _ & _ & _ & ->)]; [now split|].
  cbn [snd]. unfold fresh_ids, after_change. cbn [pedidos detalle_pedido next_oid].
  destruct ((nuevo_de req =? "CANCELADO")%string
            && negb (estado_actual_de pedido =? "CANCELADO")%string).
  - destruct (restock_frame (find_detalles id w) w) as (-> & -> & _ & -> & _).
    split.
    + apply Forall_update_first; [auto|].
      eapply Forall_impl; [|exact Hp]. cbv beta. intros; lia.
    + eapply Forall_impl; [|exact Hd]. cbv beta. intros; lia.
  - split.
    + apply Forall_update_first; [auto|].
      eapply Forall_impl; [|exact Hp]. cbv beta. intros; lia.
    + eapply Forall_impl; [|exact Hd]. cbv beta. intros; lia.
Qed.

(* ================================================================== *)
(** ** Product edits leave the orders alone *)
(* ================================================================== *)

Lemma keeps_orders_ret {A} (a : A) : keeps_orders (ret a).
Proof. intros w. repeat split. Qed.

Lemma keeps_orders_return {A} (r : Response) : keeps_orders (@return_ A r).
Proof. intros w. repeat split. Qed.

Lemma keeps_orders_gets {A} (f : World -> A) : keeps_orders (gets f).
Proof. intros w. repeat split. Qed.

Lemma keeps_orders_or_raise {A} (e : Exc) (o : option A) :
  keeps_orders (or_raise e o).
Proof. intros w. destruct o; repeat split. Qed.

Lemma keeps_orders_set_producto (id : oid) (upd : ProductoUpd) :
  keeps_orders (set_producto id upd).
Proof. intros w. repeat split. Qed.

Lemma keeps_orders_delete_producto (id : oid) :
  keeps_orders (delete_producto id).
Proof. intros w. repeat split. Qed.

Lemma keeps_orders_bind {A B} (m : M A) (k : A -> M B) :
  keeps_orders m -> (forall a, keeps_orders (k a)) -> keeps_orders (bind m k).
Proof.
  intros Hm Hk w. unfold bind. specialize (Hm w).
  destruct (m w) as [[a|r|e] w1]; cbn [snd] in *; auto.
  destruct (Hk a w1) as (E1 & E2 & E3). destruct Hm as (<- & <- & <-).
  repeat split; assumption.
Qed.

Lemma keeps_orders_try_except (body : M Response) (h : Exc -> Response)
      (w : World) :
  keeps_orders body ->
  pedidos (snd (try_except body h w)) = pedidos w /\
  detalle_pedido (snd (try_except body h w)) = detalle_pedido w /\
  next_oid (snd (try_except body h w)) = next_oid w.
Proof.
  intros H. unfold try_except. specialize (H w).
  destruct (body w) as [[a|r|e] w1]; exact H.
Qed.

Create HintDb orders.

#[local] Hint Resolve keeps_orders_ret keeps_orders_return keeps_orders_gets
  keeps_orders_or_raise keeps_orders_set_producto keeps_orders_delete_producto
  : orders.

Section Catalogo_frame.

Variable float_of_str : string -> option float.

Lemma productos_actualizar_keeps_orders (id : string) (u : User) (req : Request) :
  keeps_orders (productos_actualizar_body float_of_str id u req).
Proof.
  unfold productos_actualizar_body.
  apply keeps_orders_bind.
  { destruct (Py.truthy _); auto with orders. }
  intros precio. apply keeps_orders_bind.
  { destruct (Py.truthy _); auto with orders. }
  intros stock.
  destruct (negb _); [auto with orders|].
  apply keeps_orders_bind; [auto with orders|]. intros pid.
  apply keeps_orders_bind; [auto with orders|]. intros prod_actual.
  apply keeps_orders_bind; auto with orders.
Qed.

Lemma productos_eliminar_keeps_orders (id : string) (u : User) (req : Request) :
  keeps_orders (productos_eliminar_body id u req).
Proof.
  unfold productos_eliminar_body.
  apply keeps_orders_bind; [auto with orders|]. intros pid.
  apply keeps_orders_bind; auto with orders.
Qed.

Lemma editar_keeps_orders (e : Edicion) (w : World) :
  pedidos (editar float_of_str e w) = pedidos w /\
  detalle_pedido (editar float_of_str e w) = detalle_pedido w /\
  next_oid (editar float_of_str e w) = next_oid w.
Proof.
  destruct e as [id req|id req]; unfold editar.
  - unfold productos_actualizar, role_required, login_required.
    destruct (current_user req) as [u|]; [|repeat split].
    destruct (_ && _); [repeat split|].
    apply keeps_orders_try_except, productos_actualizar_keeps_orders.
  - unfold productos_eliminar, role_required, login_required.
    destruct (current_user req) as [u|]; [|repeat split].
    destruct (_ && _); [repeat split|].
    apply keeps_orders_try_except, productos_eliminar_keeps_orders.
Qed.

Lemma editar_todas_keeps_orders (es : list Edicion) (w : World) :
  pedidos (editar_todas float_of_str es w) = pedidos w /\
  detalle_pedido (editar_todas float_of_str es w) = detalle_pedido w /\
  next_oid (editar_todas float_of_str es w) = next_oid w.
Proof.
  revert w. induction es as [|e r IH]; intros w; [repeat split|].
  unfold editar_todas in *. cbn [fold_left].
  destruct (IH (editar float_of_str e w)) as (-> & -> & ->).
  apply editar_keeps_orders.
Qed.

(** Product edits keep the identifiers in use below the next fresh one. *)
Lemma editar_todas_fresh_ids (es : list Edicion) (w : World) :
  fresh_ids w -> fresh_ids (editar_todas float_of_str es w).
Proof.
  unfold fresh_ids.
  destruct (editar_todas_keeps_orders es w) as (-> & -> & ->). auto.
Qed.

(** C9. After an order is created, any later sequence of product updates
    and deletions leaves the order document (and so its total) and its
    line documents (and so their product name, unit price and subtotal)
    as they were stored; the total still is the sum of the subtotals and
    the sum of unit price times quantity of those lines. *)
Theorem created_order_immune_to_product_edits
        (req : Request) (w : World) (es : list Edicion) :
  fresh_ids w ->
  created (fst (pedidos_crear req w)) = true ->
  exists p,
    pedidos (snd (pedidos_crear req w)) = pedidos w ++ [p] /\
    find_pedido (ped_id p)
      (editar_todas float_of_str es (snd (pedidos_crear req w))) = Some p /\
    find_detalles (ped_id p)
      (editar_todas float_of_str es (snd (pedidos_crear req w)))
    = find_detalles (ped_id p) (snd (pedidos_crear req w)) /\
    sum_subtotals
      (map linea (find_detalles (ped_id p)
         (editar_todas float_of_str es (snd (pedidos_crear req w)))))
    = total p /\
    sum_price_times_quantity
      (map linea (find_detalles (ped_id p)
         (editar_todas float_of_str es (snd (pedidos_crear req w)))))
    = Some (total p).
Proof.
  intros Hfresh Hc.
  destruct (created_order_facts req w Hc)
    as (u & cli & t & ls & -> & Hall & Hpq & Hsum).
  destruct (after_create_documents u req cli t ls w Hfresh)
    as (Ep & Ef & Ed & Hm).
  destruct (editar_todas_keeps_orders es (after_create u req cli t ls w))
    as (Kp & Kd & _).
  exists (pedido_nuevo u req cli t (next_oid w)).
  cbn [ped_id pedido_nuevo total].
  unfold find_pedido, find_detalles in *. rewrite Kp, Kd, Hm.
  repeat split; assumption.
Qed.

End Catalogo_frame.

(* ================================================================== *)
(** ** The handlers on the sample data *)
(* ================================================================== *)

Section Examples.

Import Sample.

(** The example of the specification: stock 5, price 10.0, 3 units
    ordered; then the order is cancelled. *)
Example order_three_units :
  created (fst (pedidos_crear (order ana [(P_hex, "3")]) w0)) = true /\
  map total (pedidos w1) = [30%float] /\
  stock_of 10%N w1 = Some 2 /\
  stock_of 10%N w2 = Some 5.
Proof. vm_compute. repeat split. Qed.

(** C8. Two lines of 3 units of product P, whose stock is 5, both pass
    the validation, which compares each line with the stock on its own;
    the two decrements leave the stock of P at -1. *)
Theorem duplicate_lines_drive_stock_negative :
  stock_nonneg w0 /\
  stock_of 10%N w0 = Some 5 /\
  created (fst (pedidos_crear (order ana [(P_hex, "3"); (P_hex, "3")]) w0))
    = true /\
  stock_of 10%N (snd (pedidos_crear (order ana [(P_hex, "3"); (P_hex, "3")]) w0))
    = Some (-1).
Proof.
  split.
  - unfold stock_nonneg. repeat constructor; discriminate.
  - vm_compute. repeat split.
Qed.

(** C6 as stated fails: a pair that names the inactive product Q with
    quantity 0, or a pair whose product identifier names no product at
    all, is skipped, and the order is created from the other pair. *)
Lemma unavailable_product_in_skipped_pair :
  (refers_to_unavailable (order ana [(Q_hex, "0"); (P_hex, "3")]) w0 /\
   created (fst (pedidos_crear (order ana [(Q_hex, "0"); (P_hex, "3")]) w0))
     = true /\
   List.length (pedidos (snd (pedidos_crear
                           (order ana [(Q_hex, "0"); (P_hex, "3")]) w0)))
     = 1%nat /\
   stock_of 10%N (snd (pedidos_crear
                       (order ana [(Q_hex, "0"); (P_hex, "3")]) w0))
     = Some 2) /\
  (refers_to_unavailable (order ana [("no-such-product", "1"); (P_hex, "3")]) w0 /\
   created (fst (pedidos_crear
                   (order ana [("no-such-product", "1"); (P_hex, "3")]) w0))
     = true /\
   snd (pedidos_crear (order ana [("no-such-product", "1"); (P_hex, "3")]) w0)
     = w1).
Proof.
  split.
  - split; [|vm_compute; repeat split].
    exists Q_hex, "0". split; [left; reflexivity|reflexivity].
  - split; [|vm_compute; repeat split].
    exists "no-such-product", "1". split; [left; reflexivity|exact I].
Qed.

(** C7 as stated fails: the pairs with quantity 0, -2 and "abc" are not
    positive integers, and the order is created from the remaining
    pair. *)
Lemma order_created_despite_invalid_quantity :
  Forall (fun pc => In pc (pares (order ana [(P_hex, "0"); (P_hex, "-2");
                                             (P_hex, "abc"); (P_hex, "3")]))
                    /\ cantidad_valida pc = false)
         [(P_hex, "0"); (P_hex, "-2"); (P_hex, "abc")] /\
  created (fst (pedidos_crear (order ana [(P_hex, "0"); (P_hex, "-2");
                                          (P_hex, "abc"); (P_hex, "3")]) w0))
    = true /\
  snd (pedidos_crear (order ana [(P_hex, "0"); (P_hex, "-2");
                                 (P_hex, "abc"); (P_hex, "3")]) w0)
    = w1 /\
  w1 <> w0.
Proof.
  split; [|split; [|split]].
  - repeat (apply Forall_cons || apply Forall_nil);
      (split; [vm_compute; auto 10|reflexivity]).
  - vm_compute. reflexivity.
  - vm_compute. reflexivity.
  - intros E. apply (f_equal next_oid) in E. vm_compute in E. discriminate E.
Qed.

(** White space as the handlers meet it.  A quantity behind the
    separator 28 is not an integer for [int], so its pair is skipped and
    the order is created from the other pair, although the skipped pair
    names the inactive product Q.  A product identifier of 24 characters
    with white space is an [ObjectId], so its pair is kept; it names no
    product, and the whole order is refused.  A customer identifier of
    that kind is accepted, and the order is created.  An update of a
    product under such an identifier finds no product, changes none, and
    reports success. *)
Example white_space_in_requests :
  (created (fst (pedidos_crear
                   (order ana [(Q_hex, String "028" "1"); (P_hex, "3")]) w0))
     = true /\
   snd (pedidos_crear (order ana [(Q_hex, String "028" "1"); (P_hex, "3")]) w0)
     = w1) /\
  (created (fst (pedidos_crear
                   (order ana [("00 00 00000000000000000a", "1"); (P_hex, "3")])
                   w0)) = false /\
   snd (pedidos_crear
          (order ana [("00 00 00000000000000000a", "1"); (P_hex, "3")]) w0)
     = w0) /\
  (created (fst (pedidos_crear
                   (mkRequest [("id_cliente", "00 00 0000000000000000c1");
                               ("id_producto[]", P_hex); ("cantidad[]", "3")]
                              [] (Some ana) 1000) w0)) = true /\
   stock_of 10%N (snd (pedidos_crear
                   (mkRequest [("id_cliente", "00 00 0000000000000000c1");
                               ("id_producto[]", P_hex); ("cantidad[]", "3")]
                              [] (Some ana) 1000) w0)) = Some 2) /\
  (flashed (fst (productos_actualizar float_of_str "00 00 00000000000000000a"
                                      edit_P w0))
     = flash_producto_actualizado /\
   productos (snd (productos_actualizar float_of_str "00 00 00000000000000000a"
                                        edit_P w0))
     = productos w0).
Proof. vm_compute. repeat split. Qed.

End Examples.

(* ================================================================== *)
(** ** The statements at work on the sample data *)
(* ================================================================== *)

Section Instances.

Import Sample.

(** A shipped order asked to go back to CREATED: refused, nothing
    changes. *)
Lemma shipped_to_created_is_rejected :
  ~ in_table "ENVIADO" "CREADO" /\
  cambiar_estado_pedido order_hex (change admin "CREADO") w_enviado
  = (Redirect (flash_no_se_puede "ENVIADO" "CREADO") ep_pedidos_list,
     w_enviado).
Proof.
  destruct (cambiar_estado_pedido_follows_table
              order_hex (change admin "CREADO") w_enviado admin 100%N
              (mkPedido 100%N 193%N 1000 30%float (Some "ENVIADO")
                        "EFECTIVO" "ana@demo")
              eq_refl eq_refl eq_refl eq_refl) as [Hiff _].
  split.
  - intros Hin. apply Hiff in Hin. vm_compute in Hin. discriminate Hin.
  - vm_compute. reflexivity.
Defined.

(** An order without a status field, asked for " pagado ": read as
    CREATED to PAID, accepted. *)
Lemma order_without_status_accepts_pagado :
  reads_as None CREATED /\
  accepted (fst (cambiar_estado_pedido order_hex (change admin " pagado ")
                                       w_sin_estado)) = true.
Proof.
  assert (Hr : reads_as None CREATED) by (left; split; reflexivity).
  split; [exact Hr|].
  destruct (stored_status_is_normalised
              order_hex (change admin " pagado ") w_sin_estado admin 100%N
              (mkPedido 100%N 193%N 1000 30%float None "EFECTIVO" "ana@demo")
              CREATED eq_refl eq_refl eq_refl eq_refl Hr) as [_ Hiff].
  apply Hiff. exists PAID. split; reflexivity.
Defined.

(** The sample order asked for "pagado" by the admin: CREATED to PAID is
    in the table, the change is accepted, and the audit log, empty
    before, holds the one record of it. *)
Lemma paying_sample_order_is_audited :
  in_table "CREADO" "PAGADO" /\
  accepted (fst (cambiar_estado_pedido order_hex (change admin "pagado") w1))
    = true /\
  auditoria w1 = [] /\
  auditoria (snd (cambiar_estado_pedido order_hex (change admin "pagado") w1))
  = [mkAuditoria 102%N "pedido" 100%N "CAMBIAR_ESTADO" "CREADO" "PAGADO"
                 "admin@demo" 2000].
Proof.
  assert (Ht : in_table "CREADO" "PAGADO")
    by (exists CREATED, PAID; repeat split).
  destruct (accepted_change_appends_one_audit_record
              order_hex (change admin "pagado") w1 admin 100%N
              (mkPedido 100%N 193%N 1000 30%float (Some "CREADO")
                        "EFECTIVO" "ana@demo")
              eq_refl eq_refl eq_refl eq_refl) as [Hin _].
  destruct (Hin Ht) as [Ha Hl].
  split; [exact Ht|]. split; [exact Ha|]. split; [reflexivity|exact Hl].
Defined.

(** The cancellation of the sample order: one increment of 3 for P, then
    the status, then the audit record; P goes from 2 back to 5. *)
Lemma cancelling_sample_order :
  exists a,
    writes w2 = writes w1 ++ [IncStock 10%N 3; SetEstado 100%N "CANCELADO";
                              InsertAuditoria a] /\
    stock_of 10%N w1 = Some 2 /\ stock_of 10%N w2 = Some 5.
Proof.
  destruct (cancellation_restocks_before_status_write
              order_hex (change admin "cancelado") w1 eq_refl eq_refl)
    as (id & pedido & a & Hid & Hp & _ & Hw & Hs).
  exists a. vm_compute in Hid. injection Hid as <-.
  split; [exact Hw|]. split; reflexivity.
Defined.

(** Cancel, cancel again, then ask for PAID: P is restocked once. *)
Lemma cancelling_twice_restocks_once :
  stock_of 10%N w1 = Some 2 /\
  stock_of 10%N
    (cambiar_todos order_hex
       [change admin "CANCELADO"; change admin "CANCELADO";
        change admin "PAGADO"] w1) = Some 5.
Proof.
  split; [reflexivity|].
  destruct (cancellation_restocks_once
              order_hex 100%N
              [change admin "CANCELADO"; change admin "CANCELADO";
               change admin "PAGADO"] w1 eq_refl) as [_ Hs].
  rewrite Hs. vm_compute. reflexivity.
Defined.

(** The example of the specification: total 30.0 for 3 units at 10.0,
    and the stock of P goes from 5 to 2. *)
Lemma sample_order_total :
  exists p,
    pedidos w1 = [p] /\ total p = 30%float /\
    sum_subtotals (map linea (find_detalles (ped_id p) w1)) = 30%float /\
    stock_of 10%N w0 = Some 5 /\ stock_of 10%N w1 = Some 2.
Proof.
  assert (Hf : fresh_ids w0) by (split; constructor).
  destruct (created_order_total_is_sum_of_lines
              (order ana [(P_hex, "3")]) w0 Hf eq_refl)
    as (p & Ep & _ & _ & _ & _ & Hsum).
  exists p. fold w1 in Ep, Hsum.
  assert (Et : total p = 30%float).
  { vm_compute in Ep. injection Ep as <-. reflexivity. }
  split; [exact Ep|]. split; [exact Et|].
  split; [now rewrite Hsum|]. split; reflexivity.
Defined.

(** A quantity behind the separator 28 is not a positive integer: when
    it is the only pair the order is aborted and nothing is written, and
    next to a pair for 3 units it is skipped and the order is the sample
    order. *)
Lemma separator_quantity_is_skipped :
  (cantidad_valida (P_hex, String "028" "3") = false /\
   created (fst (pedidos_crear (order ana [(P_hex, String "028" "3")]) w0))
     = false /\
   snd (pedidos_crear (order ana [(P_hex, String "028" "3")]) w0) = w0) /\
  (pedidos_crear (order ana [(P_hex, String "028" "1"); (P_hex, "3")]) w0
   = pedidos_crear (order ana [(P_hex, "3")]) w0 /\
   created (fst (pedidos_crear (order ana [(P_hex, "3")]) w0)) = true).
Proof.
  split.
  - split; [reflexivity|].
    exact (invalid_quantities_are_skipped
             (order ana [(P_hex, String "028" "3")]) w0).
  - split; [|reflexivity].
    exact (invalid_quantities_are_skipped
             (order ana [(P_hex, String "028" "1"); (P_hex, "3")]) w0).
Defined.

(** One unit of the inactive product Q next to 3 units of P: the whole
    order is refused. *)
Lemma inactive_product_rejects_order :
  created (fst (pedidos_crear (order ana [(Q_hex, "1"); (P_hex, "3")]) w0))
    = false /\
  snd (pedidos_crear (order ana [(Q_hex, "1"); (P_hex, "3")]) w0) = w0.
Proof.
  apply (unavailable_line_rejects_order
           (order ana [(Q_hex, "1"); (P_hex, "3")]) w0 Q_hex "1" 11%N 1).
  - left. reflexivity.
  - reflexivity.
  - lia.
  - reflexivity.
  - left. reflexivity.
Defined.

(** The sample order after P is renamed and repriced, then deleted. *)
Lemma sample_order_after_edits :
  exists p,
    pedidos w1 = [p] /\
    find_pedido (ped_id p)
      (editar_todas float_of_str
         [Actualizar P_hex edit_P; Eliminar P_hex edit_P] w1) = Some p /\
    sum_subtotals
      (map linea
         (find_detalles (ped_id p)
            (editar_todas float_of_str
               [Actualizar P_hex edit_P; Eliminar P_hex edit_P] w1)))
    = total p.
Proof.
  assert (Hf : fresh_ids w0) by (split; constructor).
  destruct (created_order_immune_to_product_edits
              float_of_str (order ana [(P_hex, "3")]) w0
              [Actualizar P_hex edit_P; Eliminar P_hex edit_P] Hf eq_refl)
    as (p & Ep & Hp & _ & Hsum & _).
  exists p. split; [exact Ep|]. split; [exact Hp|exact Hsum].
Defined.

End Instances.

(* ================================================================== *)
(** ** Further properties of order creation *)
(* ================================================================== *)

Lemma units_of_map_linea (pid : oid) (ds : list Detalle) :
  units_of pid ds = units_in pid (map linea ds).
Proof.
  unfold units_of, units_in.
  induction ds as [|d r IH]; cbn [fold_right map]; [reflexivity|].
  now rewrite IH.
Qed.

(** The insertion loop, with the documents and the writes it adds. *)
Lemma insert_lines_shape (id : oid) (ls : list Linea) (w : World) :
  pedidos (insert_lines id ls w) = pedidos w /\
  auditoria (insert_lines id ls w) = auditoria w /\
  exists ds,
    detalle_pedido (insert_lines id ls w) = detalle_pedido w ++ ds /\
    map linea ds = ls /\
    Forall (fun d => id_pedido d = id) ds /\
    writes (insert_lines id ls w) = writes w ++ line_writes ds.
Proof.
  revert w. induction ls as [|l r IH]; intros w.
  - cbn. repeat split. exists []. cbn. now rewrite !app_nil_r.
  - rewrite insert_lines_cons.
    destruct (IH (snd (inc_stock (id_producto l) (- cantidad l)
                         (snd (insert_detalle (fun i => mkDetalle i id l) w)))))
      as (-> & -> & ds & -> & Hm & Hall & ->).
    cbn [pedidos auditoria detalle_pedido writes inc_stock insert_detalle snd].
    repeat split.
    exists (mkDetalle (next_oid w) id l :: ds).
    rewrite <- !app_assoc. cbn [app map linea line_writes flat_map].
    rewrite Hm. repeat split. constructor; auto.
Qed.

(** A served order request either writes nothing, or passes every check
    and leaves the world [after_create]. *)
Lemma pedidos_crear_step (req : Request) (w : World) :
  (created (fst (pedidos_crear req w)) = false /\
   snd (pedidos_crear req w) = w) \/
  (exists u cli t ls,
     current_user req = Some u /\
     ObjectId (Py.or_str (form_get req "id_cliente") "") = Some cli /\
     Forall2 (validated w) (normaliza (pares req)) ls /\
     sum_subtotals ls = t /\
     created (fst (pedidos_crear req w)) = true /\
     snd (pedidos_crear req w) = after_create u req cli t ls w).
Proof.
  unfold pedidos_crear, login_required.
  destruct (current_user req) as [u|] eqn:Hu; [|left; split; reflexivity].
  unfold try_except, pedidos_crear_body.
  destruct (negb (Py.truthy (Py.or_str (form_get req "id_cliente") ""))
            || match ids_de req with [] => true | _ :: _ => false end
            || match cants_de req with [] => true | _ :: _ => false end);
    [left; split; reflexivity|].
  destruct (normaliza (pares req)) as [|it items] eqn:Hn;
    [left; split; reflexivity|].
  rewrite bind_lift.
  destruct (validar w (it :: items) Py.fzero []) as [[t ls]|r|e] eqn:Hv;
    [|left; split; [exact (validar_return _ _ _ _ _ Hv)|reflexivity]
     |left; split; reflexivity].
  destruct (ObjectId (Py.or_str (form_get req "id_cliente") "")) as [cli|] eqn:Hc;
    [|left; split; reflexivity].
  right. exists u, cli, t, ls.
  apply validar_val in Hv. destruct Hv as (ls' & El & Hall & Hsum & _).
  cbn [app] in El. subst ls'.
  split; [reflexivity|]. split; [reflexivity|]. split; [exact Hall|].
  split; [exact Hsum|].
  cbn [or_raise]. rewrite bind_ret.
  unfold after_create.
  rewrite (bind_val _ _ w
             (snd (insert_pedido (pedido_nuevo u req cli t) w)) (next_oid w));
    [|reflexivity].
  cbn [fst snd].
  rewrite (bind_val _ _ _ (insert_lines (next_oid w) ls
             (snd (insert_pedido (pedido_nuevo u req cli t) w))) tt);
    [split; reflexivity|].
  apply for_each_insert_lines.
Qed.

(** The world a created order leaves, collection by collection. *)
Lemma after_create_shape (u : User) (req : Request) (cli : oid) (t : float)
      (ls : list Linea) (w : World) :
  exists ds,
    pedidos (after_create u req cli t ls w)
      = pedidos w ++ [pedido_nuevo u req cli t (next_oid w)] /\
    detalle_pedido (after_create u req cli t ls w) = detalle_pedido w ++ ds /\
    auditoria (after_create u req cli t ls w) = auditoria w /\
    map linea ds = ls /\
    Forall (fun d => id_pedido d = next_oid w) ds /\
    writes (after_create u req cli t ls w)
      = writes w ++ InsertPedido (pedido_nuevo u req cli t (next_oid w))
                 :: line_writes ds /\
    forall pid,
      stock_of pid (after_create u req cli t ls w)
      = option_map (fun s => s - units_of pid ds) (stock_of pid w).
Proof.
  unfold after_create.
  set (wp := snd (insert_pedido (pedido_nuevo u req cli t) w)).
  destruct (insert_lines_shape (next_oid w) ls wp)
    as (Ep & Ea & ds & Ed & Hm & Hall & Ew).
  exists ds. rewrite Ep, Ed, Ea, Ew.
  split; [reflexivity|]. split; [reflexivity|]. split; [reflexivity|].
  split; [exact Hm|]. split; [exact Hall|]. split.
  - subst wp. cbn [insert_pedido snd writes]. now rewrite <- app_assoc.
  - intros pid. rewrite stock_of_insert_lines, units_of_map_linea, Hm.
    reflexivity.
Qed.

(** The lines a query finds for the new order are the ones it inserted. *)
Lemma find_detalles_new (w w' : World) (ds : list Detalle) :
  fresh_ids w ->
  detalle_pedido w' = detalle_pedido w ++ ds ->
  Forall (fun d => id_pedido d = next_oid w) ds ->
  find_detalles (next_oid w) w' = ds.
Proof.
  intros [_ Hfd] Ed Hall. unfold find_detalles. rewrite Ed, filter_app.
  rewrite filter_none, filter_all; [reflexivity| |].
  - eapply Forall_impl; [|exact Hall]. intros d ->. apply N.eqb_refl.
  - eapply Forall_impl; [|exact Hfd]. intros d Hd. cbv beta in Hd.
    apply N.eqb_neq. lia.
Qed.

(** X1. A created order takes from the stock of each product the units
    its lines hold of that product, and from no other; the documents of
    the products it does not name keep their stock. *)
Theorem created_order_takes_its_units (req : Request) (w : World) :
  fresh_ids w ->
  created (fst (pedidos_crear req w)) = true ->
  forall pid,
    stock_of pid (snd (pedidos_crear req w))
    = option_map
        (fun s => s - units_of pid (find_detalles (next_oid w)
                                      (snd (pedidos_crear req w))))
        (stock_of pid w).
Proof.
  intros Hf Hc pid.
  destruct (pedidos_crear_step req w)
    as [[E _]|(u & cli & t & ls & _ & _ & _ & _ & _ & ->)];
    [rewrite E in Hc; discriminate Hc|].
  destruct (after_create_shape u req cli t ls w)
    as (ds & _ & Ed & _ & _ & Hall & _ & Hs).
  rewrite (find_detalles_new w _ ds Hf Ed Hall). apply Hs.
Qed.

(** X2. The lines stored for a created order are, in order, the pairs the
    normalisation kept: each line carries the identifier and quantity of
    its pair and the name and price of the active product found for it
    when the order was placed, whose stock covered the quantity. *)
Theorem created_order_lines_are_kept_pairs (req : Request) (w : World) :
  fresh_ids w ->
  created (fst (pedidos_crear req w)) = true ->
  Forall2 (snapshot_of w (next_oid w))
          (normaliza (pares req))
          (find_detalles (next_oid w) (snd (pedidos_crear req w))).
Proof.
  intros Hf Hc.
  destruct (pedidos_crear_step req w)
    as [[E _]|(u & cli & t & ls & _ & _ & Hv & _ & _ & ->)];
    [rewrite E in Hc; discriminate Hc|].
  destruct (after_create_shape u req cli t ls w)
    as (ds & _ & Ed & _ & Hm & Hall & _ & _).
  rewrite (find_detalles_new w _ ds Hf Ed Hall).
  subst ls. clear Ed. revert Hv Hall.
  generalize (normaliza (pares req)) as items.
  induction ds as [|d r IH]; intros items Hv Hall; cbn [map] in Hv.
  - inversion Hv. constructor.
  - inversion Hv as [|it l items' ls' Hd Hr]; subst.
    inversion Hall as [|? ? Hid Hall']; subst.
    constructor; [|now apply IH].
    destruct Hd as (prod & Hfp & Hle & Hi & Hq & Hn & Hp & _).
    split; [exact Hid|]. split; [exact Hi|]. split; [exact Hq|].
    exists prod. repeat split; assumption.
Qed.

(** X4. A created order is persisted in this order: the order document,
    then for each line its document followed by the decrement of its
    product's stock; nothing else is written, and the audit log is left
    alone. *)
Theorem created_order_write_sequence (req : Request) (w : World) :
  fresh_ids w ->
  created (fst (pedidos_crear req w)) = true ->
  exists p,
    find_pedido (next_oid w) (snd (pedidos_crear req w)) = Some p /\
    estado p = Some "CREADO" /\
    writes (snd (pedidos_crear req w))
      = writes w ++ InsertPedido p
                 :: line_writes (find_detalles (next_oid w)
                                   (snd (pedidos_crear req w))) /\
    auditoria (snd (pedidos_crear req w)) = auditoria w.
Proof.
  intros Hf Hc.
  destruct (pedidos_crear_step req w)
    as [[E _]|(u & cli & t & ls & _ & _ & _ & _ & _ & ->)];
    [rewrite E in Hc; discriminate Hc|].
  destruct (after_create_shape u req cli t ls w)
    as (ds & _ & Ed & Ea & _ & Hall & Ew & _).
  destruct (after_create_documents u req cli t ls w Hf) as (_ & Ef & _).
  exists (pedido_nuevo u req cli t (next_oid w)).
  rewrite (find_detalles_new w _ ds Hf Ed Hall).
  repeat split; assumption.
Qed.

(** X5. A customer identifier that [ObjectId] refuses (it has not 24
    characters, or [bytes.fromhex] does not read them) never leaves a
    partial order behind: the request is answered without any write,
    whatever the pairs it carries. *)
Theorem malformed_customer_writes_nothing (req : Request) (w : World) :
  ObjectId (Py.or_str (form_get req "id_cliente") "") = None ->
  created (fst (pedidos_crear req w)) = false /\
  snd (pedidos_crear req w) = w.
Proof.
  intros Hn.
  destruct (pedidos_crear_step req w)
    as [?|(u & cli & t & ls & _ & Hc & _)]; auto.
  rewrite Hn in Hc. discriminate Hc.
Qed.

(* ================================================================== *)
(** ** Further properties of status changes *)
(* ================================================================== *)

Lemma update_first_ids {A B} (key : A -> B) (q : A -> bool) (f : A -> A)
      (l : list A) :
  (forall x, key (f x) = key x) ->
  map key (update_first q f l) = map key l.
Proof.
  intros Hk. induction l as [|x r IH]; cbn; [reflexivity|].
  destruct (q x); cbn; [now rewrite Hk|now rewrite IH].
Qed.

Lemma update_first_none {A} (q : A -> bool) (f : A -> A) (l : list A) :
  find q l = None -> update_first q f l = l.
Proof.
  induction l as [|x r IH]; cbn; [reflexivity|].
  destruct (q x); [discriminate|]. intros H. now rewrite IH.
Qed.

(** The world an accepted change leaves, collection by collection. *)
Lemma after_change_shape (id : oid) (pedido : Pedido) (u : User)
      (req : Request) (w : World) :
  pedidos (after_change id pedido u req w)
    = update_first (fun p => (ped_id p =? id)%N)
                   (set_estado_doc (nuevo_de req)) (pedidos w) /\
  detalle_pedido (after_change id pedido u req w) = detalle_pedido w /\
  next_oid (after_change id pedido u req w) = N.succ (next_oid w) /\
  ((nuevo_de req =? "CANCELADO")%string = false ->
   productos (after_change id pedido u req w) = productos w).
Proof.
  unfold after_change. cbn [pedidos detalle_pedido next_oid productos].
  destruct (nuevo_de req =? "CANCELADO")%string; cbn [andb].
  - destruct (negb (estado_actual_de pedido =? "CANCELADO")%string).
    + destruct (restock_frame (find_detalles id w) w) as (-> & -> & _ & -> & _).
      repeat split; discriminate.
    + repeat split; discriminate.
  - repeat split.
Qed.

(** X3. Cancelling an order right after it was created gives every
    product its stock back: an administrator's request for CANCELADO on
    the new order is accepted, and the stock of each product is what it
    was before the order was placed. *)
Theorem cancelling_new_order_restores_stock
        (req creq : Request) (id_s : string) (u : User) (w : World) :
  fresh_ids w ->
  created (fst (pedidos_crear req w)) = true ->
  ObjectId id_s = Some (next_oid w) ->
  current_user creq = Some u -> is_admin u = true ->
  nuevo_de creq = "CANCELADO" ->
  accepted (fst (cambiar_estado_pedido id_s creq (snd (pedidos_crear req w))))
    = true /\
  forall pid,
    stock_of pid
      (snd (cambiar_estado_pedido id_s creq (snd (pedidos_crear req w))))
    = stock_of pid w.
Proof.
  intros Hf Hc Hid Hu Ha Hn.
  destruct (pedidos_crear_step req w)
    as [[E _]|(u' & cli & t & ls & _ & _ & _ & _ & _ & Ew)];
    [rewrite E in Hc; discriminate Hc|].
  destruct (after_create_documents u' req cli t ls w Hf) as (_ & Ef & _).
  destruct (after_create_shape u' req cli t ls w)
    as (ds & _ & Ed & _ & _ & Hall & _ & Hs1).
  pose proof (find_detalles_new w _ ds Hf Ed Hall) as Hds.
  rewrite <- Ew in Ef, Hs1, Hds.
  set (w1 := snd (pedidos_crear req w)) in *.
  assert (Ht : Py.str_in (nuevo_de creq)
                 (dict_get transiciones
                    (estado_actual_de (pedido_nuevo u' req cli t (next_oid w))))
               = true) by (rewrite Hn; reflexivity).
  assert (Hacc : accepted (fst (cambiar_estado_pedido id_s creq w1)) = true).
  { rewrite (accepted_iff_dict id_s creq w1 u _ _ Hu Ha Hid Ef). exact Ht. }
  split; [exact Hacc|]. intros pid.
  destruct (cambiar_estado_pedido_cases id_s creq w1)
    as [[E _]|(u2 & id & p & _ & _ & Hid' & Hp & Ht' & E)];
    [rewrite E in Hacc; discriminate Hacc|].
  rewrite Hid in Hid'. injection Hid' as <-.
  rewrite E. cbn [snd].
  rewrite (stock_of_after_change pid _ p u2 creq w1 Ht'), Hn, Hds, Hs1.
  cbn [String.eqb Ascii.eqb Bool.eqb].
  destruct (stock_of pid w); cbn [option_map]; [f_equal; lia|reflexivity].
Qed.

(** X6. The routes behind [role_required("admin")] do nothing for anyone
    else: an anonymous request is sent to the login view and a logged-in
    user who is not an administrator is sent home, and in both cases the
    status change, the product update and the product deletion write
    nothing.  An anonymous order request is sent to the login view and
    writes nothing. *)
Theorem admin_routes_refuse_everyone_else
        (float_of_str : string -> option float)
        (id : string) (req : Request) (w : World) :
  match current_user req with
  | Some u => is_admin u = false
  | None => True
  end ->
  let refusal :=
    match current_user req with
    | Some _ => Redirect flash_solo_administradores ep_home
    | None => Redirect flash_login ep_login
    end in
  cambiar_estado_pedido id req w = (refusal, w) /\
  productos_actualizar float_of_str id req w = (refusal, w) /\
  productos_eliminar id req w = (refusal, w) /\
  (current_user req = None -> pedidos_crear req w = (refusal, w)).
Proof.
  unfold cambiar_estado_pedido, productos_actualizar, productos_eliminar,
    pedidos_crear, role_required, login_required.
  destruct (current_user req) as [u|]; cbn.
  - intros ->. cbn. repeat split. discriminate.
  - intros _. repeat split.
Qed.

(** X7. A status change touches one order and nothing around it: the
    lines are left as they were, the orders keep their identifiers and
    their places, every order other than the one addressed is found
    unchanged, and unless the new status is CANCELADO the products are
    left as they were. *)
Theorem status_change_touches_one_order
        (id_s : string) (req : Request) (w : World) :
  detalle_pedido (snd (cambiar_estado_pedido id_s req w)) = detalle_pedido w /\
  map ped_id (pedidos (snd (cambiar_estado_pedido id_s req w)))
    = map ped_id (pedidos w) /\
  (forall id', ObjectId id_s <> Some id' ->
     find_pedido id' (snd (cambiar_estado_pedido id_s req w))
     = find_pedido id' w) /\
  (nuevo_de req <> "CANCELADO" ->
   productos (snd (cambiar_estado_pedido id_s req w)) = productos w).
Proof.
  destruct (cambiar_estado_pedido_cases id_s req w)
    as [[_ ->]|(u & id & pedido & _ & _ & Hid & _ & _ & ->)];
    [repeat split|].
  cbn [snd].
  destruct (after_change_shape id pedido u req w) as (Ep & Ed & _ & Epr).
  split; [exact Ed|]. split; [|split].
  - rewrite Ep. now apply update_first_ids.
  - intros id' Hne. unfold find_pedido. rewrite Ep.
    apply find_update_first_other; [reflexivity|].
    intros x Hx. apply N.eqb_eq in Hx. apply N.eqb_neq.
    intros E. apply Hne. rewrite Hid. f_equal. congruence.
  - intros Hne. apply Epr. now apply String.eqb_neq.
Qed.

(** X8. No request ever puts an order back to CREADO: whatever the order
    and its status, a request for CREADO is refused and writes nothing,
    because no row of the dictionary holds CREADO. *)
Theorem creado_is_never_reentered (id_s : string) (req : Request) (w : World) :
  nuevo_de req = "CREADO" ->
  accepted (fst (cambiar_estado_pedido id_s req w)) = false /\
  snd (cambiar_estado_pedido id_s req w) = w.
Proof.
  intros Hn.
  destruct (cambiar_estado_pedido_cases id_s req w)
    as [?|(u & id & pedido & _ & _ & _ & _ & Ht & _)]; auto.
  exfalso. rewrite Hn in Ht. apply transiciones_in_table in Ht.
  destruct Ht as (a & b & _ & Eb & H).
  change "CREADO" with (status_name CREATED) in Eb.
  apply status_name_inj in Eb. subst b. destruct a; discriminate H.
Qed.

(** X9. A shipped order cannot be cancelled directly, but it can in two
    steps: the request for CANCELADO is refused while the order is
    ENVIADO, and the requests PAGADO then CANCELADO leave it cancelled
    with every product restocked by the units of the order. *)
Theorem shipped_order_is_cancelled_through_paid
        (id_s : string) (id : oid) (pedido : Pedido) (u : User)
        (rp rc : Request) (w : World) :
  ObjectId id_s = Some id -> find_pedido id w = Some pedido ->
  estado_actual_de pedido = "ENVIADO" ->
  current_user rp = Some u -> current_user rc = Some u -> is_admin u = true ->
  nuevo_de rp = "PAGADO" -> nuevo_de rc = "CANCELADO" ->
  accepted (fst (cambiar_estado_pedido id_s rc w)) = false /\
  is_cancelled id (cambiar_todos id_s [rp; rc] w) = true /\
  forall pid,
    stock_of pid (cambiar_todos id_s [rp; rc] w)
    = option_map (fun s => s + units_of pid (find_detalles id w))
                 (stock_of pid w).
Proof.
  intros Hid Hp He Hup Huc Ha Hnp Hnc.
  split.
  { rewrite (accepted_iff_dict id_s rc w u id pedido Huc Ha Hid Hp).
    rewrite Hnc, He. reflexivity. }
  unfold cambiar_todos. cbn [fold_left].
  (* first step: ENVIADO -> PAGADO *)
  assert (Ht1 : Py.str_in (nuevo_de rp)
                  (dict_get transiciones (estado_actual_de pedido)) = true)
    by (rewrite Hnp, He; reflexivity).
  destruct (cambiar_estado_pedido_cases id_s rp w)
    as [[E _]|(u1 & id1 & p1 & _ & _ & Hid1 & Hp1 & _ & E1)].
  { rewrite (accepted_iff_dict id_s rp w u id pedido Hup Ha Hid Hp), Ht1 in E.
    discriminate E. }
  rewrite Hid in Hid1. injection Hid1 as <-.
  rewrite Hp in Hp1. injection Hp1 as <-.
  rewrite E1. cbn [snd].
  set (w1 := after_change id pedido u1 rp w).
  assert (Hp' : find_pedido id w1 = Some (set_estado_doc (nuevo_de rp) pedido))
    by (apply find_pedido_after_change; exact Hp).
  assert (Hs1 : forall pid, stock_of pid w1 = stock_of pid w).
  { intros pid. unfold w1.
    rewrite (stock_of_after_change pid id pedido u1 rp w Ht1), Hnp.
    cbn [String.eqb Ascii.eqb Bool.eqb].
    destruct (stock_of pid w); cbn; [f_equal; lia|reflexivity]. }
  assert (Hd1 : find_detalles id w1 = find_detalles id w)
    by apply find_detalles_after_change.
  (* second step: PAGADO -> CANCELADO *)
  assert (Ht2 : Py.str_in (nuevo_de rc)
                  (dict_get transiciones
                     (estado_actual_de (set_estado_doc (nuevo_de rp) pedido)))
                = true) by (rewrite Hnc, Hnp; reflexivity).
  destruct (cambiar_estado_pedido_cases id_s rc w1)
    as [[E _]|(u2 & id2 & p2 & _ & _ & Hid2 & Hp2 & _ & E2)].
  { rewrite (accepted_iff_dict id_s rc w1 u id _ Huc Ha Hid Hp'), Ht2 in E.
    discriminate E. }
  rewrite Hid in Hid2. injection Hid2 as <-.
  rewrite Hp' in Hp2. injection Hp2 as <-.
  rewrite E2. cbn [snd]. split.
  - unfold is_cancelled.
    rewrite (find_pedido_after_change id _ u2 rc w1 Hp'), Hnc. reflexivity.
  - intros pid.
    rewrite (stock_of_after_change pid id _ u2 rc w1 Ht2), Hnc, Hd1, Hs1.
    reflexivity.
Qed.

(* ================================================================== *)
(** ** Invariants of the orders over any sequence of operations *)
(* ================================================================== *)

Lemma find_app_some {A} (q : A -> bool) (l : list A) (x y : A) :
  find q l = Some x -> find q (l ++ [y]) = Some x.
Proof. intros H. rewrite find_app. now rewrite H. Qed.

Lemma find_detalles_old (w w' : World) (ds : list Detalle) (id : oid) :
  detalle_pedido w' = detalle_pedido w ++ ds ->
  Forall (fun d => id_pedido d = next_oid w) ds ->
  id <> next_oid w ->
  find_detalles id w' = find_detalles id w.
Proof.
  intros Ed Hall Hne. unfold find_detalles.
  rewrite Ed, filter_app, (filter_none _ ds), app_nil_r; [reflexivity|].
  eapply Forall_impl; [|exact Hall]. intros d ->. now apply N.eqb_neq.
Qed.

Lemma find_detalles_same_lines (id : oid) (w w' : World) :
  detalle_pedido w' = detalle_pedido w ->
  find_detalles id w' = find_detalles id w.
Proof. unfold find_detalles. now intros ->. Qed.

(** A status change leaves the lines alone and the orders in place. *)
Lemma status_change_frame_lines (id_s : string) (req : Request) (w : World) :
  detalle_pedido (snd (cambiar_estado_pedido id_s req w)) = detalle_pedido w /\
  (snd (cambiar_estado_pedido id_s req w) = w \/
   exists u id pedido,
     ObjectId id_s = Some id /\ find_pedido id w = Some pedido /\
     Py.str_in (nuevo_de req) (dict_get transiciones (estado_actual_de pedido))
       = true /\
     snd (cambiar_estado_pedido id_s req w) = after_change id pedido u req w).
Proof.
  destruct (cambiar_estado_pedido_cases id_s req w)
    as [[_ E]|(u & id & pedido & _ & _ & Hid & Hp & Ht & E)].
  - rewrite E. split; [reflexivity|now left].
  - rewrite E. cbn [snd].
    destruct (after_change_shape id pedido u req w) as (_ & Ed & _).
    split; [exact Ed|]. right. now exists u, id, pedido.
Qed.

Section Invariantes.

Variable float_of_str : string -> option float.

(** An invariant of every operation is an invariant of every sequence. *)
Lemma ejecutar_todas_invariant (I : World -> Prop) :
  (forall op w, I w -> I (ejecutar float_of_str op w)) ->
  forall ops w, I w -> I (ejecutar_todas float_of_str ops w).
Proof.
  intros Hstep ops. unfold ejecutar_todas.
  induction ops as [|op r IH]; intros w Hw; cbn [fold_left]; auto.
Qed.

Lemma ejecutar_fresh_ids (op : Operacion) (w : World) :
  fresh_ids w -> fresh_ids (ejecutar float_of_str op w).
Proof.
  destruct op as [req|id_s req|e]; cbn [ejecutar].
  - apply pedidos_crear_fresh_ids.
  - apply cambiar_estado_pedido_fresh_ids.
  - intros H. apply (editar_todas_fresh_ids float_of_str [e] w H).
Qed.

(** *** Statuses *)

Lemma ejecutar_canonical (op : Operacion) (w : World) :
  canonical_statuses w -> canonical_statuses (ejecutar float_of_str op w).
Proof.
  unfold canonical_statuses. intros H.
  destruct op as [req|id_s req|e]; cbn [ejecutar].
  - destruct (pedidos_crear_step req w)
      as [[_ ->]|(u & cli & t & ls & _ & _ & _ & _ & _ & ->)]; [exact H|].
    destruct (after_create_shape u req cli t ls w) as (ds & -> & _).
    apply Forall_app. split; [exact H|].
    constructor; [|constructor]. now exists CREATED.
  - destruct (cambiar_estado_pedido_cases id_s req w)
      as [[_ ->]|(u & id & pedido & _ & _ & _ & _ & Ht & ->)]; [exact H|].
    cbn [snd]. destruct (after_change_shape id pedido u req w) as (-> & _).
    apply Forall_update_first; [|exact H].
    intros p _. apply transiciones_in_table in Ht.
    destruct Ht as (a & b & _ & -> & _). now exists b.
  - destruct (editar_keeps_orders float_of_str e w) as (-> & _). exact H.
Qed.

(** X11. The handlers only ever store one of the four status names, as
    written: if every stored status is such a name, it still is after any
    sequence of order creations, status changes and product edits. *)
Theorem stored_statuses_stay_canonical (ops : list Operacion) (w : World) :
  canonical_statuses w ->
  canonical_statuses (ejecutar_todas float_of_str ops w).
Proof.
  apply (ejecutar_todas_invariant canonical_statuses), ejecutar_canonical.
Qed.

(** *** Quantities *)

Lemma normaliza_positive (pairs : list (string * string)) :
  Forall (fun it => 0 < snd it) (normaliza pairs).
Proof.
  induction pairs as [|[pid cant] rest IH]; cbn [normaliza]; [constructor|].
  destruct (Py.int cant) as [q|]; [|exact IH].
  destruct (q >? 0) eqn:Hq; [|exact IH].
  destruct (ObjectId pid); [|exact IH].
  constructor; [|exact IH]. cbn. now apply Z.gtb_lt in Hq.
Qed.

Lemma validated_positive (w : World) (items : list (oid * Z))
      (ds : list Detalle) :
  Forall2 (validated w) items (map linea ds) ->
  Forall (fun it => 0 < snd it) items ->
  Forall (fun d => 0 < cantidad (linea d)) ds.
Proof.
  revert items. induction ds as [|d r IH]; intros items Hv Hp; [constructor|].
  cbn [map] in Hv. inversion Hv as [|it l items' ls' Hd Hr]; subst.
  inversion Hp as [|? ? Hq Hp']; subst.
  constructor; [|now apply (IH items')].
  destruct Hd as (prod & _ & _ & _ & -> & _). exact Hq.
Qed.

Lemma ejecutar_positive_lines (op : Operacion) (w : World) :
  positive_lines w -> positive_lines (ejecutar float_of_str op w).
Proof.
  unfold positive_lines. intros H.
  destruct op as [req|id_s req|e]; cbn [ejecutar].
  - destruct (pedidos_crear_step req w)
      as [[_ ->]|(u & cli & t & ls & _ & _ & Hv & _ & _ & ->)]; [exact H|].
    destruct (after_create_shape u req cli t ls w)
      as (ds & _ & -> & _ & Hm & _).
    apply Forall_app. split; [exact H|].
    rewrite <- Hm in Hv.
    exact (validated_positive w _ ds Hv (normaliza_positive _)).
  - destruct (status_change_frame_lines id_s req w) as [-> _]. exact H.
  - destruct (editar_keeps_orders float_of_str e w) as (_ & -> & _). exact H.
Qed.

(** X12. Every stored line keeps a positive quantity: if all lines have
    one, they still do after any sequence of order creations, status
    changes and product edits, because the normalisation keeps only pairs
    with a positive quantity. *)
Theorem stored_lines_stay_positive (ops : list Operacion) (w : World) :
  positive_lines w ->
  positive_lines (ejecutar_todas float_of_str ops w).
Proof.
  apply (ejecutar_todas_invariant positive_lines), ejecutar_positive_lines.
Qed.

Lemma units_of_nonneg (pid : oid) (ds : list Detalle) :
  Forall (fun d => 0 < cantidad (linea d)) ds -> 0 <= units_of pid ds.
Proof.
  unfold units_of. induction 1 as [|d r Hd _ IH]; cbn [fold_right]; [lia|].
  destruct (id_producto (linea d) =? pid)%N; lia.
Qed.

Lemma positive_lines_found (id : oid) (w : World) :
  positive_lines w ->
  Forall (fun d => 0 < cantidad (linea d)) (find_detalles id w).
Proof.
  unfold positive_lines, find_detalles. intros H.
  apply Forall_forall. intros d Hd. apply filter_In in Hd.
  rewrite Forall_forall in H. now apply H.
Qed.


(** *** Lines and their orders *)

Lemma find_pedido_survives_update (id id' : oid) (e : string)
      (l : list Pedido) :
  (exists p, find (fun p => (ped_id p =? id)%N) l = Some p) ->
  exists p, find (fun p => (ped_id p =? id)%N)
              (update_first (fun p => (ped_id p =? id')%N)
                            (set_estado_doc e) l) = Some p.
Proof.
  induction l as [|x r IH]; intros [p Hp]; cbn in *; [discriminate Hp|].
  destruct (ped_id x =? id')%N eqn:E'; cbn.
  - destruct (ped_id x =? id)%N; eauto.
  - destruct (ped_id x =? id)%N; eauto.
Qed.

Lemma ejecutar_lines_have_orders (op : Operacion) (w : World) :
  lines_have_orders w -> lines_have_orders (ejecutar float_of_str op w).
Proof.
  unfold lines_have_orders. intros H.
  destruct op as [req|id_s req|e]; cbn [ejecutar].
  - destruct (pedidos_crear_step req w)
      as [[_ ->]|(u & cli & t & ls & _ & _ & _ & _ & _ & ->)]; [exact H|].
    destruct (after_create_shape u req cli t ls w)
      as (ds & Ep & -> & _ & _ & Hall & _).
    unfold find_pedido. rewrite Ep. apply Forall_app. split.
    + eapply Forall_impl; [|exact H]. intros d [p Hp].
      exists p. now apply find_app_some.
    + eapply Forall_impl; [|exact Hall]. intros d ->. rewrite find_app.
      destruct (find _ (pedidos w)) as [p|]; [now exists p|].
      cbn. rewrite N.eqb_refl. eauto.
  - destruct (status_change_frame_lines id_s req w)
      as [Ed [->|(u & id & pedido & _ & _ & _ & E)]]; [exact H|].
    rewrite Ed, E. unfold find_pedido.
    destruct (after_change_shape id pedido u req w) as (-> & _).
    eapply Forall_impl; [|exact H]. intros d Hd.
    now apply find_pedido_survives_update.
  - destruct (editar_keeps_orders float_of_str e w) as (Ep & -> & _).
    unfold find_pedido. rewrite Ep. exact H.
Qed.

(** X14. No operation orphans a line: orders are never deleted, so if
    every stored line belongs to a stored order, it still does after any
    sequence of order creations, status changes and product edits. *)
Theorem stored_lines_keep_their_orders (ops : list Operacion) (w : World) :
  lines_have_orders w ->
  lines_have_orders (ejecutar_todas float_of_str ops w).
Proof.
  apply (ejecutar_todas_invariant lines_have_orders),
    ejecutar_lines_have_orders.
Qed.

(** *** Totals *)

Lemma ejecutar_totals (op : Operacion) (w : World) :
  fresh_ids w /\ totals_consistent w ->
  fresh_ids (ejecutar float_of_str op w) /\
  totals_consistent (ejecutar float_of_str op w).
Proof.
  intros [Hf H]. split; [now apply ejecutar_fresh_ids|].
  unfold totals_consistent in *.
  destruct op as [req|id_s req|e]; cbn [ejecutar].
  - destruct (pedidos_crear_step req w)
      as [[_ ->]|(u & cli & t & ls & _ & _ & _ & Hsum & _ & ->)]; [exact H|].
    destruct (after_create_shape u req cli t ls w)
      as (ds & Ep & Ed & _ & Hm & Hall & _).
    rewrite Ep. apply Forall_app. split.
    + destruct Hf as [Hfp _].
      apply Forall_forall. intros p Hp.
      rewrite (find_detalles_old w _ ds (ped_id p) Ed Hall).
      * rewrite Forall_forall in H. now apply H.
      * rewrite Forall_forall in Hfp. specialize (Hfp p Hp).
        cbv beta in Hfp. lia.
    + constructor; [|constructor]. cbn [pedido_nuevo ped_id total].
      rewrite (find_detalles_new w _ ds Hf Ed Hall), Hm. exact Hsum.
  - destruct (status_change_frame_lines id_s req w)
      as [Ed [->|(u & id & pedido & _ & _ & _ & E)]]; [exact H|].
    rewrite E in *.
    destruct (after_change_shape id pedido u req w) as (-> & _).
    apply Forall_update_first.
    + intros p Hp. exact Hp.
    + eapply Forall_impl; [|exact H]. intros p Hp. cbv beta.
      now rewrite (find_detalles_same_lines (ped_id p) w _ Ed).
  - destruct (editar_keeps_orders float_of_str e w) as (Ep & Ed & _).
    rewrite Ep. eapply Forall_impl; [|exact H]. intros p Hp. cbv beta.
    now rewrite (find_detalles_same_lines (ped_id p) w _ Ed).
Qed.

(** X15. The total of every stored order stays the sum of the subtotals
    of its lines through any sequence of order creations, status changes
    and product edits: a new order never takes or gives lines to another,
    and no handler rewrites a total or a line. *)
Theorem totals_stay_consistent (ops : list Operacion) (w : World) :
  fresh_ids w -> totals_consistent w ->
  totals_consistent (ejecutar_todas float_of_str ops w).
Proof.
  intros Hf Ht.
  apply (ejecutar_todas_invariant
           (fun w => fresh_ids w /\ totals_consistent w) ejecutar_totals ops w).
  now split.
Qed.

End Invariantes.

(* ================================================================== *)
(** ** Conservation of stock *)
(* ================================================================== *)

Lemma sum_app_one {A} (g : A -> Z) (l : list A) (x : A) :
  fold_right (fun p acc => g p + acc) 0 (l ++ [x])
  = fold_right (fun p acc => g p + acc) 0 l + g x.
Proof. induction l as [|y r IH]; cbn; [lia|]. rewrite IH. lia. Qed.

Lemma sum_ext {A} (g g' : A -> Z) (l : list A) :
  Forall (fun p => g p = g' p) l ->
  fold_right (fun p acc => g p + acc) 0 l
  = fold_right (fun p acc => g' p + acc) 0 l.
Proof. induction 1 as [|y r Hy _ IH]; cbn; [reflexivity|]. now rewrite Hy, IH. Qed.

Lemma sum_update_first {A} (g : A -> Z) (q : A -> bool) (f : A -> A)
      (l : list A) (x : A) :
  find q l = Some x ->
  fold_right (fun p acc => g p + acc) 0 (update_first q f l)
  = fold_right (fun p acc => g p + acc) 0 l - g x + g (f x).
Proof.
  induction l as [|y r IH]; cbn; [discriminate|].
  destruct (q y); cbn.
  - intros E. injection E as <-. lia.
  - intros E. rewrite (IH E). lia.
Qed.

Lemma find_pedido_id (id : oid) (w : World) (p : Pedido) :
  find_pedido id w = Some p -> ped_id p = id.
Proof.
  intros H. apply find_some in H. destruct H as [_ H]. now apply N.eqb_eq in H.
Qed.

(** A created order adds to the committed units those of its lines. *)
Lemma committed_after_create (pid : oid) (u : User) (req : Request)
      (cli : oid) (t : float) (ls : list Linea) (w : World)
      (ds : list Detalle) :
  fresh_ids w ->
  pedidos (after_create u req cli t ls w)
    = pedidos w ++ [pedido_nuevo u req cli t (next_oid w)] ->
  detalle_pedido (after_create u req cli t ls w) = detalle_pedido w ++ ds ->
  Forall (fun d => id_pedido d = next_oid w) ds ->
  committed pid (after_create u req cli t ls w)
  = committed pid w + units_of pid ds.
Proof.
  intros Hf Ep Ed Hall. unfold committed. rewrite Ep, sum_app_one. f_equal.
  - apply sum_ext. destruct Hf as [Hfp _].
    eapply Forall_impl; [|exact Hfp]. intros p Hp. cbv beta in Hp.
    unfold held. destruct (cancelled_doc p); [reflexivity|].
    rewrite (find_detalles_old w _ ds (ped_id p) Ed Hall); [reflexivity|lia].
  - unfold held. cbn [pedido_nuevo ped_id].
    change (cancelled_doc (pedido_nuevo u req cli t (next_oid w))) with false.
    cbv iota. now rewrite (find_detalles_new w _ ds Hf Ed Hall).
Qed.

(** An accepted change moves the units of its order out of the committed
    ones exactly when it cancels the order. *)
Lemma committed_after_change (pid id : oid) (pedido : Pedido) (u : User)
      (req : Request) (w : World) :
  find_pedido id w = Some pedido ->
  Py.str_in (nuevo_de req) (dict_get transiciones (estado_actual_de pedido))
    = true ->
  committed pid (after_change id pedido u req w)
  = committed pid w
    - (if (nuevo_de req =? "CANCELADO")%string
       then units_of pid (find_detalles id w) else 0).
Proof.
  intros Hp Ht. unfold committed.
  destruct (after_change_shape id pedido u req w) as (Ep & Ed & _).
  rewrite Ep.
  rewrite (sum_ext (held pid (after_change id pedido u req w)) (held pid w)).
  2:{ apply Forall_forall. intros p _. unfold held.
      now rewrite (find_detalles_same_lines (ped_id p) w _ Ed). }
  rewrite (sum_update_first _ _ _ _ pedido Hp).
  pose proof (find_pedido_id id w pedido Hp) as Hid.
  assert (Hnc : cancelled_doc pedido = false).
  { unfold cancelled_doc.
    destruct (String.eqb_spec (estado_actual_de pedido) "CANCELADO") as [E|];
      auto.
    rewrite E, cancelado_row_empty in Ht. discriminate Ht. }
  apply transiciones_in_table in Ht. destruct Ht as (a & b & _ & Eb & _).
  unfold held. rewrite Hnc. unfold cancelled_doc.
  rewrite Eb, estado_actual_set_estado. cbn [set_estado_doc ped_id].
  rewrite Hid.
  destruct (status_name b =? "CANCELADO")%string; lia.
Qed.

Section Conservacion.

Variable float_of_str : string -> option float.

Lemma ejecutar_conserves (op : Operacion) (w : World) (pid : oid) (s : Z) :
  fresh_ids w -> de_pedidos op = true ->
  stock_of pid w = Some s ->
  exists s',
    stock_of pid (ejecutar float_of_str op w) = Some s' /\
    s' + committed pid (ejecutar float_of_str op w) = s + committed pid w.
Proof.
  intros Hf Hop Hs. destruct op as [req|id_s req|e]; [| |discriminate Hop];
    cbn [ejecutar].
  - destruct (pedidos_crear_step req w)
      as [[_ ->]|(u & cli & t & ls & _ & _ & _ & _ & _ & ->)];
      [exists s; split; [exact Hs|reflexivity]|].
    destruct (after_create_shape u req cli t ls w)
      as (ds & Ep & Ed & _ & _ & Hall & _ & Hst).
    rewrite Hst, Hs, (committed_after_create pid u req cli t ls w ds Hf Ep Ed Hall).
    cbn [option_map]. eexists. split; [reflexivity|lia].
  - destruct (cambiar_estado_pedido_cases id_s req w)
      as [[_ ->]|(u & id & pedido & _ & _ & _ & Hp & Ht & ->)];
      [exists s; split; [exact Hs|reflexivity]|].
    cbn [snd].
    rewrite (stock_of_after_change pid id pedido u req w Ht), Hs.
    rewrite (committed_after_change pid id pedido u req w Hp Ht).
    cbn [option_map]. eexists. split; [reflexivity|lia].
Qed.

(** X16. Stock is conserved by the order handlers: through any sequence
    of order creations and status changes, the stock of a product plus
    the units of it held by the orders that are not cancelled stays what
    it was.  Creation moves units from the stock to the order,
    cancellation moves them back, and no other status change moves any. *)
Theorem stock_plus_committed_is_conserved
        (ops : list Operacion) (w : World) (pid : oid) (s : Z) :
  fresh_ids w -> forallb de_pedidos ops = true ->
  stock_of pid w = Some s ->
  exists s',
    stock_of pid (ejecutar_todas float_of_str ops w) = Some s' /\
    s' + committed pid (ejecutar_todas float_of_str ops w)
    = s + committed pid w.
Proof.
  unfold ejecutar_todas. revert w s.
  induction ops as [|op r IH]; intros w s Hf Hops Hs; cbn [fold_left].
  - exists s. split; [exact Hs|reflexivity].
  - cbn [forallb] in Hops. apply andb_prop in Hops. destruct Hops as [Hop Hr].
    destruct (ejecutar_conserves op w pid s Hf Hop Hs) as (s1 & Hs1 & E1).
    destruct (IH (ejecutar float_of_str op w) s1
                 (ejecutar_fresh_ids float_of_str op w Hf) Hr Hs1)
      as (s' & Hs' & E').
    exists s'. split; [exact Hs'|lia].
Qed.

End Conservacion.

(* ================================================================== *)
(** ** The catalogue: updates, deletions, and what orders leave of it *)
(* ================================================================== *)

Lemma delete_first_none {A} (q : A -> bool) (l : list A) :
  find q l = None -> delete_first q l = l.
Proof.
  induction l as [|x r IH]; cbn; [reflexivity|].
  destruct (q x); [discriminate|]. intros H. now rewrite IH.
Qed.

Lemma find_delete_first_other {A} (q q' : A -> bool) (l : list A) :
  (forall x, q x = true -> q' x = false) ->
  find q (delete_first q' l) = find q l.
Proof.
  intros Hd. induction l as [|x r IH]; cbn; [reflexivity|].
  destruct (q' x) eqn:E'; cbn.
  - destruct (q x) eqn:E; auto. apply Hd in E. congruence.
  - destruct (q x); auto.
Qed.

Lemma find_no_id (pid : oid) (q : Producto -> bool) (l : list Producto) :
  ~ In pid (map prod_id l) -> find (fun p => has_id pid p && q p) l = None.
Proof.
  induction l as [|x r IH]; cbn; [reflexivity|]. intros Hn.
  unfold has_id at 1. destruct (N.eqb_spec (prod_id x) pid) as [E|_].
  - elim Hn. now left.
  - cbn. apply IH. intros H. apply Hn. now right.
Qed.

Lemma find_no_id' (pid : oid) (l : list Producto) :
  ~ In pid (map prod_id l) -> find (has_id pid) l = None.
Proof.
  intros Hn. rewrite <- (find_no_id pid (fun _ => true) l Hn).
  induction l as [|x r IH]; cbn; [reflexivity|].
  rewrite andb_true_r. destruct (has_id pid x); [reflexivity|].
  apply IH. intros H. apply Hn. now right.
Qed.

(** With one document per identifier, the product deleted is gone. *)
Lemma find_delete_first_same (pid : oid) (l : list Producto) :
  NoDup (map prod_id l) -> find (has_id pid) (delete_first (has_id pid) l) = None.
Proof.
  induction l as [|x r IH]; cbn; [reflexivity|]. intros Hnd.
  inversion Hnd as [|? ? Hx Hr]; subst.
  destruct (has_id pid x) eqn:E; cbn.
  - apply find_no_id'. unfold has_id in E. apply N.eqb_eq in E. now rewrite <- E.
  - rewrite E. now apply IH.
Qed.

(** With one document per identifier, a product updated to inactive is
    not found among the active ones. *)
Lemma find_active_after_deactivation (pid : oid) (f : Producto -> Producto)
      (l : list Producto) :
  (forall x, prod_id (f x) = prod_id x) -> (forall x, activo (f x) = false) ->
  NoDup (map prod_id l) ->
  find (fun p => has_id pid p && activo p) (update_first (has_id pid) f l)
  = None.
Proof.
  intros Hid Hact. induction l as [|x r IH]; cbn; [reflexivity|]. intros Hnd.
  inversion Hnd as [|? ? Hx Hr]; subst.
  destruct (has_id pid x) eqn:E; cbn.
  - rewrite Hact, andb_false_r. apply find_no_id.
    unfold has_id in E. apply N.eqb_eq in E. now rewrite <- E.
  - rewrite E. cbn. now apply IH.
Qed.

Lemma bind_raise_at {A B} (m : M A) (k : A -> M B) (w w' : World) (e : Exc) :
  m w = (Raise e, w') -> bind m k w = (Raise e, w').
Proof. intros E. unfold bind. now rewrite E. Qed.

Section Catalogo_props.

Variable float_of_str : string -> option float.

(** A served update either writes nothing and does not report success,
    or comes from an administrator with a name, a readable price and
    stock and an identifier [ObjectId] accepts, and issues one [$set]. *)
Lemma productos_actualizar_step (id : string) (req : Request) (w : World) :
  (snd (productos_actualizar float_of_str id req w) = w /\
   flashed (fst (productos_actualizar float_of_str id req w))
     <> flash_producto_actualizado) \/
  (exists u pid precio stock,
     current_user req = Some u /\ is_admin u = true /\
     ObjectId id = Some pid /\
     (if Py.truthy (Py.or_str (form_get req "precio") "")
      then float_of_str (Py.or_str (form_get req "precio") "")
      else Some Py.fzero) = Some precio /\
     int_field req "stock" = Some stock /\
     Py.strip (Py.or_str (form_get req "nombre") "") <> "" /\
     productos_actualizar float_of_str id req w
     = (Redirect flash_producto_actualizado ep_productos_list,
        snd (set_producto pid
               (upd_de req precio stock (find_producto pid w)) w))).
Proof.
  unfold productos_actualizar, role_required, login_required.
  destruct (current_user req) as [u|] eqn:Hu;
    [|left; split; [reflexivity|discriminate]].
  cbn [String.eqb Ascii.eqb Bool.eqb andb].
  destruct (is_admin u) eqn:Ha; cbn [negb];
    [|left; split; [reflexivity|discriminate]].
  unfold try_except, productos_actualizar_body, int_field.
  set (sp := Py.or_str (form_get req "precio") "").
  set (ss := Py.or_str (form_get req "stock") "").
  assert (Hprecio :
    (exists e, (if Py.truthy sp then or_raise (ValueError sp) (float_of_str sp)
                else ret Py.fzero) w = (Raise e, w)) \/
    (exists precio,
       (if Py.truthy sp then float_of_str sp else Some Py.fzero) = Some precio /\
       (if Py.truthy sp then or_raise (ValueError sp) (float_of_str sp)
        else ret Py.fzero) w = (Val precio, w))).
  { destruct (Py.truthy sp); [|right; now exists Py.fzero].
    destruct (float_of_str sp) as [x|]; [right; now exists x|].
    left. now exists (ValueError sp). }
  destruct Hprecio as [[e He]|(precio & Hpr & He)].
  { rewrite (bind_raise_at _ _ _ _ _ He). left. split; [reflexivity|discriminate]. }
  rewrite (bind_val _ _ _ _ _ He).
  assert (Hstock :
    (Py.truthy ss = true /\ Py.int ss = None) \/
    (exists stock, (if Py.truthy ss then Py.int ss else Some 0) = Some stock /\
       (if Py.truthy ss then or_raise (ValueError ss) (Py.int ss) else ret 0) w
       = (Val stock, w))).
  { destruct (Py.truthy ss); [|right; now exists 0].
    destruct (Py.int ss) as [x|]; [right; now exists x|]. now left. }
  destruct Hstock as [[Hts Hn]|(stock & Hst & Hs)].
  { rewrite Hts, Hn. left. split; [reflexivity|discriminate]. }
  rewrite (bind_val _ _ _ _ _ Hs).
  destruct (Py.truthy (Py.strip (Py.or_str (form_get req "nombre") "")))
    eqn:Hn; cbn [negb]; [|left; split; [reflexivity|discriminate]].
  destruct (ObjectId id) as [pid|] eqn:Hid;
    [|left; split; [reflexivity|discriminate]].
  right. exists u, pid, precio, stock.
  split; [reflexivity|]. split; [exact Ha|]. split; [reflexivity|].
  split; [exact Hpr|]. split; [exact Hst|]. split.
  { intros E. rewrite E in Hn. discriminate Hn. }
  cbn [or_raise]. rewrite bind_ret, bind_gets. reflexivity.
Qed.

(** X17. After an update that reports success, a lookup of the product
    returns it with the submitted fields: the trimmed, non-empty name, the
    stock read from the form (0 when left empty), active exactly when the
    box was sent as "on"; its identifier is kept, and so is its image when
    no file was uploaded.  Every other product is found as before, and
    when no product has the identifier the success is reported all the
    same and the catalogue is left as it was. *)
Theorem updated_product_is_found (id : string) (req : Request) (w : World) :
  flashed (fst (productos_actualizar float_of_str id req w))
    = flash_producto_actualizado ->
  exists pid,
    ObjectId id = Some pid /\
    (forall pid', pid' <> pid ->
       find_producto pid' (snd (productos_actualizar float_of_str id req w))
       = find_producto pid' w) /\
    match find_producto pid w with
    | None =>
        productos (snd (productos_actualizar float_of_str id req w))
        = productos w
    | Some p =>
        exists p',
          find_producto pid (snd (productos_actualizar float_of_str id req w))
            = Some p' /\
          prod_id p' = prod_id p /\
          nombre p' = Py.strip (Py.or_str (form_get req "nombre") "") /\
          nombre p' <> "" /\
          (exists n, int_field req "stock" = Some n /\ stock p' = Some n) /\
          activo p' = match form_get req "activo" with
                      | Some v => (v =? "on")%string
                      | None => false
                      end /\
          (files_get req "imagen" = None ->
           image_data p' = image_data p /\ image_mime p' = image_mime p)
    end.
Proof.
  intros Hok.
  destruct (productos_actualizar_step id req w)
    as [[_ Hne]|(u & pid & precio & stock & _ & _ & Hid & _ & Hst & Hn & E)];
    [now elim Hne|].
  exists pid. rewrite E. cbn [snd set_producto]. split; [exact Hid|]. split.
  - intros pid' Hne. unfold find_producto. cbn [productos].
    apply find_update_first_other; [reflexivity|].
    intros x. apply has_id_other. congruence.
  - unfold find_producto. cbn [productos].
    destruct (find (has_id pid) (productos w)) as [p|] eqn:Hp.
    + exists (set_producto_doc (upd_de req precio stock (Some p)) p).
      rewrite find_update_first_same by reflexivity. rewrite Hp.
      split; [reflexivity|]. split; [reflexivity|]. split; [reflexivity|].
      split; [exact Hn|]. split; [now exists stock|]. split; [reflexivity|].
      intros Hf. unfold set_producto_doc, upd_de. cbn. rewrite Hf. cbn.
      destruct (image_data p) as [d|]; [|split; reflexivity].
      destruct (Py.truthy d); split; reflexivity.
    + now apply update_first_none.
Qed.

(** X18. An update that cannot be served writes nothing: a name that is
    empty once trimmed, a stock that [int] or a price that [float] does
    not read, or a product identifier that [ObjectId] refuses each leave
    the database as it was, and success is not reported. *)
Theorem unserved_update_writes_nothing (id : string) (req : Request)
        (w : World) :
  Py.strip (Py.or_str (form_get req "nombre") "") = "" \/
  int_field req "stock" = None \/
  (Py.truthy (Py.or_str (form_get req "precio") "") = true /\
   float_of_str (Py.or_str (form_get req "precio") "") = None) \/
  ObjectId id = None ->
  snd (productos_actualizar float_of_str id req w) = w /\
  flashed (fst (productos_actualizar float_of_str id req w))
    <> flash_producto_actualizado.
Proof.
  intros H.
  destruct (productos_actualizar_step id req w)
    as [?|(u & pid & precio & stock & _ & _ & Hid & Hpr & Hst & Hn & _)]; auto.
  exfalso. destruct H as [H|[H|[[H1 H2]|H]]].
  - now apply Hn.
  - rewrite H in Hst. discriminate Hst.
  - rewrite H1, H2 in Hpr. discriminate Hpr.
  - rewrite H in Hid. discriminate Hid.
Qed.

(** An order with a kept pair for a product that is not found among the
    active ones is refused and writes nothing. *)
Lemma no_active_product_rejects (oreq : Request) (w : World)
      (pid_s cant : string) (pid : oid) (q : Z) :
  find_active_producto pid w = None ->
  In (pid_s, cant) (pares oreq) ->
  Py.int cant = Some q -> 0 < q -> ObjectId pid_s = Some pid ->
  created (fst (pedidos_crear oreq w)) = false /\
  snd (pedidos_crear oreq w) = w.
Proof.
  intros Hna Hin Hq Hpos Hid.
  destruct (pedidos_crear_cases oreq w)
    as [?|(u & cli & t & ls & _ & _ & Hv & _)]; auto.
  exfalso.
  exact (validar_stops w _ pid q (normaliza_keeps _ _ _ _ _ Hin Hq Hpos Hid)
                       (or_introl Hna) _ _ _ Hv).
Qed.

(** X19. Unticking the box takes a product off sale: after an update that
    reports success and was not sent with "activo" = "on", with one
    document per product identifier, the product is not found among the
    active ones and every order that keeps a pair for it is refused
    without any write. *)
Theorem deactivated_product_cannot_be_ordered
        (id : string) (req oreq : Request) (w : World)
        (pid : oid) (pid_s cant : string) (q : Z) :
  unique_products w ->
  flashed (fst (productos_actualizar float_of_str id req w))
    = flash_producto_actualizado ->
  form_get req "activo" <> Some "on" ->
  ObjectId id = Some pid ->
  In (pid_s, cant) (pares oreq) ->
  Py.int cant = Some q -> 0 < q -> ObjectId pid_s = Some pid ->
  find_active_producto pid (snd (productos_actualizar float_of_str id req w))
    = None /\
  created (fst (pedidos_crear oreq
                  (snd (productos_actualizar float_of_str id req w)))) = false /\
  snd (pedidos_crear oreq (snd (productos_actualizar float_of_str id req w)))
    = snd (productos_actualizar float_of_str id req w).
Proof.
  intros Hu Hok Hact Hid Hin Hq Hpos Hids.
  assert (Hna : find_active_producto pid
                  (snd (productos_actualizar float_of_str id req w)) = None).
  { destruct (productos_actualizar_step id req w)
      as [[_ Hne]|(u & pid' & precio & stock & _ & _ & Hid' & _ & _ & _ & E)];
      [now elim Hne|].
    rewrite Hid in Hid'. injection Hid' as <-.
    rewrite E. unfold find_active_producto. cbn [snd set_producto productos].
    apply find_active_after_deactivation; [reflexivity| |exact Hu].
    intros x. cbn. destruct (form_get req "activo") as [v|]; [|reflexivity].
    destruct (String.eqb_spec v "on") as [->|]; [now elim Hact|reflexivity]. }
  split; [exact Hna|].
  exact (no_active_product_rejects oreq _ pid_s cant pid q Hna Hin Hq Hpos Hids).
Qed.

(** A served deletion either writes nothing and does not report success,
    or deletes the first product with the identifier. *)
Lemma productos_eliminar_step (id : string) (req : Request) (w : World) :
  (snd (productos_eliminar id req w) = w /\
   flashed (fst (productos_eliminar id req w)) <> flash_producto_eliminado) \/
  (exists pid,
     ObjectId id = Some pid /\
     productos_eliminar id req w
     = (Redirect flash_producto_eliminado ep_productos_list,
        snd (delete_producto pid w))).
Proof.
  unfold productos_eliminar, role_required, login_required.
  destruct (current_user req) as [u|];
    [|left; split; [reflexivity|discriminate]].
  cbn [String.eqb Ascii.eqb Bool.eqb andb].
  destruct (is_admin u); cbn [negb];
    [|left; split; [reflexivity|discriminate]].
  unfold try_except, productos_eliminar_body.
  destruct (ObjectId id) as [pid|];
    [|left; split; [reflexivity|discriminate]].
  right. exists pid. split; reflexivity.
Qed.

(** X20. After a deletion that reports success, with one document per
    product identifier, the product is no longer found, every other
    product is found as before, and every order that keeps a pair for the
    deleted product is refused without any write.  When no product has the
    identifier the deletion reports success all the same and the catalogue
    is left as it was. *)
Theorem deleted_product_is_gone
        (id : string) (req oreq : Request) (w : World)
        (pid : oid) (pid_s cant : string) (q : Z) :
  unique_products w ->
  flashed (fst (productos_eliminar id req w)) = flash_producto_eliminado ->
  ObjectId id = Some pid ->
  find_producto pid (snd (productos_eliminar id req w)) = None /\
  (forall pid', pid' <> pid ->
     find_producto pid' (snd (productos_eliminar id req w))
     = find_producto pid' w) /\
  (find_producto pid w = None ->
   productos (snd (productos_eliminar id req w)) = productos w) /\
  (In (pid_s, cant) (pares oreq) ->
   Py.int cant = Some q -> 0 < q -> ObjectId pid_s = Some pid ->
   created (fst (pedidos_crear oreq (snd (productos_eliminar id req w))))
     = false /\
   snd (pedidos_crear oreq (snd (productos_eliminar id req w)))
     = snd (productos_eliminar id req w)).
Proof.
  intros Hu Hok Hid.
  destruct (productos_eliminar_step id req w)
    as [[_ Hne]|(pid' & Hid' & E)]; [now elim Hne|].
  rewrite Hid in Hid'. injection Hid' as <-.
  rewrite E. cbn [snd delete_producto].
  assert (Hgone : find (has_id pid) (delete_first (has_id pid) (productos w))
                  = None) by (apply find_delete_first_same; exact Hu).
  split; [exact Hgone|]. split; [|split].
  - intros pid' Hne. unfold find_producto. cbn [productos].
    apply find_delete_first_other. intros x. apply has_id_other. congruence.
  - intros Hn. cbn [productos]. now apply delete_first_none.
  - intros Hin Hq Hpos Hids.
    apply (no_active_product_rejects oreq _ pid_s cant pid q); auto.
    unfold find_active_producto. cbn [productos].
    destruct (find (fun p => has_id pid p && activo p)
                   (delete_first (has_id pid) (productos w))) as [x|] eqn:Hx;
      [|reflexivity].
    exfalso. apply find_some in Hx. destruct Hx as [Hin' Hx].
    apply andb_prop in Hx. destruct Hx as [Hx _].
    pose proof (find_none _ _ Hgone x Hin') as Hc. congruence.
Qed.

End Catalogo_props.

(* ------------------------------------------------------------------ *)

Lemma same_but_stock_refl (l : list Producto) : Forall2 same_but_stock l l.
Proof. induction l; constructor; auto. repeat split. Qed.

Lemma same_but_stock_trans (l1 l2 l3 : list Producto) :
  Forall2 same_but_stock l1 l2 -> Forall2 same_but_stock l2 l3 ->
  Forall2 same_but_stock l1 l3.
Proof.
  intros H12. revert l3. induction H12 as [|x y r1 r2 Hxy _ IH]; intros l3 H23.
  - inversion H23. constructor.
  - inversion H23 as [|? z ? r3 Hyz Hr]; subst. constructor; [|now apply IH].
    destruct Hxy as (a1 & a2 & a3 & a4 & a5 & a6 & a7).
    destruct Hyz as (b1 & b2 & b3 & b4 & b5 & b6 & b7).
    repeat split; congruence.
Qed.

Lemma same_but_stock_inc (id : oid) (delta : Z) (w : World) :
  Forall2 same_but_stock (productos w)
          (productos (snd (inc_stock id delta w))).
Proof.
  cbn [inc_stock snd productos].
  induction (productos w) as [|x r IH]; cbn; [constructor|].
  destruct (has_id id x); constructor; auto using same_but_stock_refl.
  - repeat split.
  - repeat split.
Qed.

Lemma same_but_stock_restock (ds : list Detalle) (w : World) :
  Forall2 same_but_stock (productos w) (productos (restock ds w)).
Proof.
  revert w. induction ds as [|d r IH]; intros w; [apply same_but_stock_refl|].
  rewrite restock_cons.
  eapply same_but_stock_trans; [apply same_but_stock_inc|apply IH].
Qed.

Lemma same_but_stock_insert_lines (id : oid) (ls : list Linea) (w : World) :
  Forall2 same_but_stock (productos w) (productos (insert_lines id ls w)).
Proof.
  revert w. induction ls as [|l r IH]; intros w; [apply same_but_stock_refl|].
  rewrite insert_lines_cons.
  eapply same_but_stock_trans; [|apply IH].
  apply (same_but_stock_inc (id_producto l) (- cantidad l)
           (snd (insert_detalle (fun i => mkDetalle i id l) w))).
Qed.

Section Catalogo_kept.

Variable float_of_str : string -> option float.

Lemma ejecutar_keeps_catalogue (op : Operacion) (w : World) :
  de_pedidos op = true ->
  Forall2 same_but_stock (productos w)
          (productos (ejecutar float_of_str op w)).
Proof.
  intros Hop. destruct op as [req|id_s req|e]; [| |discriminate Hop];
    cbn [ejecutar].
  - destruct (pedidos_crear_step req w)
      as [[_ ->]|(u & cli & t & ls & _ & _ & _ & _ & _ & ->)];
      [apply same_but_stock_refl|].
    unfold after_create.
    apply (same_but_stock_insert_lines (next_oid w) ls
             (snd (insert_pedido (pedido_nuevo u req cli t) w))).
  - destruct (cambiar_estado_pedido_cases id_s req w)
      as [[_ ->]|(u & id & pedido & _ & _ & _ & _ & _ & ->)];
      [apply same_but_stock_refl|].
    cbn [snd]. unfold after_change. cbn [productos].
    destruct (_ && _); [apply same_but_stock_restock|apply same_but_stock_refl].
Qed.

(** X21. The order handlers change nothing of the catalogue but stock:
    through any sequence of order creations and status changes the
    products are the same documents in the same places, each with its
    identifier, name, category, price, active flag and image as before;
    no product is added or removed. *)
Theorem orders_change_only_stock (ops : list Operacion) (w : World) :
  forallb de_pedidos ops = true ->
  Forall2 same_but_stock (productos w)
          (productos (ejecutar_todas float_of_str ops w)).
Proof.
  unfold ejecutar_todas. revert w.
  induction ops as [|op r IH]; intros w Hops; cbn [fold_left].
  - apply same_but_stock_refl.
  - cbn [forallb] in Hops. apply andb_prop in Hops. destruct Hops as [Hop Hr].
    eapply same_but_stock_trans;
      [apply ejecutar_keeps_catalogue; exact Hop|apply IH; exact Hr].
Qed.

End Catalogo_kept.

(* ================================================================== *)
(** ** Stock that stays non-negative *)
(* ================================================================== *)

Lemma find_in_unique (l : list Producto) (p : Producto) :
  NoDup (map prod_id l) -> In p l -> find (has_id (prod_id p)) l = Some p.
Proof.
  induction l as [|x r IH]; intros Hnd Hin; [destruct Hin|].
  cbn in *. inversion Hnd as [|? ? Hx Hr]; subst.
  destruct Hin as [->|Hin].
  - unfold has_id. now rewrite N.eqb_refl.
  - unfold has_id at 1. destruct (N.eqb_spec (prod_id x) (prod_id p)) as [E|_].
    + elim Hx. rewrite E. now apply in_map.
    + now apply IH.
Qed.

Lemma find_some_of_id (l : list Producto) (pid : oid) :
  In pid (map prod_id l) -> exists p, find (has_id pid) l = Some p.
Proof.
  induction l as [|x r IH]; cbn; [intros []|]. intros [E|Hin].
  - unfold has_id. rewrite E, N.eqb_refl. eauto.
  - destruct (has_id pid x); eauto.
Qed.

(** Stock that is not negative for every identifier is not negative in
    every document, and conversely, when identifiers are not shared. *)
Lemma stock_nonneg_by_id (w : World) :
  unique_products w ->
  (stock_nonneg w <-> forall pid s, stock_of pid w = Some s -> 0 <= s).
Proof.
  intros Hu. unfold stock_nonneg, stock_of, find_producto. split.
  - intros H pid s Hs.
    destruct (find (has_id pid) (productos w)) as [p|] eqn:Hf;
      [|discriminate Hs].
    injection Hs as <-. apply find_some in Hf. destruct Hf as [Hin _].
    rewrite Forall_forall in H. now apply H.
  - intros H. apply Forall_forall. intros p Hin.
    apply (H (prod_id p)). now rewrite (find_in_unique _ p Hu Hin).
Qed.

Lemma same_but_stock_ids (l l' : list Producto) :
  Forall2 same_but_stock l l' -> map prod_id l' = map prod_id l.
Proof.
  induction 1 as [|x y r r' H _ IH]; cbn; [reflexivity|].
  destruct H as (-> & _). now rewrite IH.
Qed.

Section Stock_no_negativo.

Variable float_of_str : string -> option float.

Lemma ejecutar_keeps_stock_nonneg (op : Operacion) (w : World) :
  de_pedidos op = true -> sin_repetidos op ->
  unique_products w /\ positive_lines w /\ stock_nonneg w ->
  unique_products (ejecutar float_of_str op w) /\
  positive_lines (ejecutar float_of_str op w) /\
  stock_nonneg (ejecutar float_of_str op w).
Proof.
  intros Hop Hnd (Hu & Hpos & Hnn).
  pose proof (same_but_stock_ids _ _
                (ejecutar_keeps_catalogue float_of_str op w Hop)) as Hids.
  assert (Hu' : unique_products (ejecutar float_of_str op w))
    by (unfold unique_products; rewrite Hids; exact Hu).
  split; [exact Hu'|]. split; [now apply ejecutar_positive_lines|].
  apply (stock_nonneg_by_id _ Hu'). intros pid s' Hs'.
  assert (Hex : exists s, stock_of pid w = Some s /\ 0 <= s).
  { unfold stock_of, find_producto in Hs' |- *.
    destruct (find (has_id pid) (productos (ejecutar float_of_str op w)))
      as [p'|] eqn:Hf'; [|discriminate Hs'].
    apply find_some in Hf'. destruct Hf' as [Hin' Hid'].
    unfold has_id in Hid'. apply N.eqb_eq in Hid'.
    destruct (find_some_of_id (productos w) pid) as [p Hp].
    { rewrite <- Hids, <- Hid'. now apply in_map. }
    rewrite Hp. eexists. split; [reflexivity|].
    apply find_some in Hp. destruct Hp as [Hin _].
    unfold stock_nonneg in Hnn. rewrite Forall_forall in Hnn. now apply Hnn. }
  destruct Hex as (s & Hs & H0).
  destruct op as [req|id_s req|e]; [| |discriminate Hop]; cbn [ejecutar] in *.
  - exact (distinct_products_keep_stock_nonneg req w pid s s' Hu Hnd Hs H0 Hs').
  - destruct (cambiar_estado_pedido_cases id_s req w)
      as [[_ E]|(u & id & pedido & _ & _ & _ & _ & Ht & E)].
    + rewrite E, Hs in Hs'. injection Hs' as <-. exact H0.
    + rewrite E in Hs'. cbn [snd] in Hs'.
      rewrite (stock_of_after_change pid id pedido u req w Ht), Hs in Hs'.
      cbn [option_map] in Hs'. injection Hs' as <-.
      pose proof (units_of_nonneg pid _ (positive_lines_found id w Hpos)).
      destruct (nuevo_de req =? "CANCELADO")%string; lia.
Qed.

(** X10. Stock stays non-negative as long as no order lists a product
    twice: starting from products with distinct identifiers and
    non-negative stock and lines with positive quantities, after any
    sequence of order creations and status changes in which the pairs kept
    of each creation name distinct products, no stock is negative. *)
Theorem stock_stays_nonnegative_without_duplicates
        (ops : list Operacion) (w : World) :
  forallb de_pedidos ops = true -> Forall sin_repetidos ops ->
  unique_products w -> positive_lines w -> stock_nonneg w ->
  stock_nonneg (ejecutar_todas float_of_str ops w).
Proof.
  unfold ejecutar_todas. revert w.
  induction ops as [|op r IH]; intros w Hops Hnd Hu Hpos Hnn; cbn [fold_left];
    [exact Hnn|].
  cbn [forallb] in Hops. apply andb_prop in Hops. destruct Hops as [Hop Hr].
  inversion Hnd as [|? ? Hd Hds]; subst.
  destruct (ejecutar_keeps_stock_nonneg op w Hop Hd (conj Hu (conj Hpos Hnn)))
    as (Hu1 & Hpos1 & Hnn1).
  now apply IH.
Qed.

End Stock_no_negativo.


(* ================================================================== *)
(** ** Files: what is stored is served back *)
(* ================================================================== *)

Lemma contains_app_no (c : ascii) (s t : string) :
  PyText.contains c (s ++ t)%string
  = PyText.contains c s || PyText.contains c t.
Proof.
  induction s as [|x r IH]; cbn; [reflexivity|].
  rewrite IH. now rewrite orb_assoc.
Qed.

(** The text after the last [c] of [base ++ c ++ ext], when [ext] holds
    no [c], is [ext]. *)
Lemma after_last_app (c : ascii) (base ext : string) :
  PyText.contains c ext = false ->
  PyText.after_last c (base ++ String c ext)%string = ext.
Proof.
  intros Hn. induction base as [|x r IH]; cbn.
  - now rewrite Hn, Ascii.eqb_refl.
  - rewrite contains_app_no. cbn. rewrite Ascii.eqb_refl, orb_true_r. exact IH.
Qed.

(** X22. The type [media] declares depends on the file name alone: for a
    name [base.ext] whose [ext] holds no dot it is the type the dictionary
    gives for [ext] in lower case (the default for an extension it does
    not list), and for a name without a dot it is the default. *)
Theorem mime_follows_last_extension (base ext fname : string) :
  (PyText.contains "." ext = false ->
   mime_of_ext (ext_of (base ++ String "." ext))
   = mime_of_ext (PyText.lower ext)) /\
  (PyText.contains "." fname = false ->
   mime_of_ext (ext_of fname) = "application/octet-stream").
Proof.
  split.
  - intros Hn. unfold ext_of.
    rewrite contains_app_no. cbn [PyText.contains].
    rewrite Ascii.eqb_refl. cbn [orb]. rewrite orb_true_r.
    now rewrite after_last_app.
  - intros Hn. unfold ext_of. rewrite Hn. reflexivity.
Qed.

Lemma truthy_nonempty (s : string) : Py.truthy s = true <-> s <> "".
Proof. destruct s; cbn; split; intros H; congruence. Qed.

(** X23. A file that was stored is served back byte for byte under its
    own name: when the upload has a name and contents, [save_to_gridfs]
    returns an identifier, and [media] answers a request for that
    identifier with the uploaded bytes, the uploaded name, and the type
    read off that name. *)
Theorem stored_file_is_served_back
        (f : Upload) (fs : GridFS) (file_id : string) :
  fs_fresh fs -> filename f <> "" -> contents f <> "" ->
  exists id,
    fst (save_to_gridfs (Some f) fs) = Some id /\
    (ObjectId file_id = Some id ->
     media file_id (snd (save_to_gridfs (Some f) fs))
     = SendFile (contents f) (mime_of_ext (ext_of (filename f)))
                (filename f)).
Proof.
  intros Hf Hn Hc. exists (gf_next fs).
  apply truthy_nonempty in Hn. apply truthy_nonempty in Hc.
  unfold save_to_gridfs. rewrite Hn, Hc. cbn [negb fst snd fs_put].
  split; [reflexivity|]. intros Hid. unfold media. rewrite Hid.
  unfold fs_get. cbn [gf_files].
  rewrite find_app_fresh.
  - cbn [gf_filename gf_data]. now rewrite Hn.
  - eapply Forall_impl; [|exact Hf]. intros x Hx. cbv beta in Hx.
    apply N.eqb_neq. lia.
  - apply N.eqb_refl.
Qed.

(** X24. Nothing is stored for an upload that is missing, has an empty
    name or has no contents, and only for those: [save_to_gridfs]
    returns no identifier exactly in these cases, and then the store is
    left as it was. *)
Theorem empty_upload_is_not_stored (o : option Upload) (fs : GridFS) :
  (fst (save_to_gridfs o fs) = None <->
   match o with
   | None => True
   | Some f => filename f = "" \/ contents f = ""
   end) /\
  (fst (save_to_gridfs o fs) = None -> snd (save_to_gridfs o fs) = fs).
Proof.
  unfold save_to_gridfs. destruct o as [f|]; [|repeat split].
  destruct (filename f) as [|c r] eqn:Hn; cbn [Py.truthy negb].
  - repeat split. now left.
  - destruct (contents f) as [|c' r'] eqn:Hc; cbn [Py.truthy negb].
    + repeat split. now right.
    + cbn [fst]. repeat split; try discriminate.
      intros [H|H]; discriminate H.
Qed.

(** X25. Storing a file changes nothing of what [media] already serves:
    a request that was answered with a file before the upload gets the
    same answer after it. *)
Theorem earlier_files_are_served_as_before
        (o : option Upload) (fs : GridFS) (file_id : string) :
  media file_id fs <> NotFound ->
  media file_id (snd (save_to_gridfs o fs)) = media file_id fs.
Proof.
  intros Hm. unfold save_to_gridfs.
  destruct o as [f|]; [|reflexivity].
  destruct (negb (Py.truthy (filename f))); [reflexivity|].
  destruct (negb (Py.truthy (contents f))); [reflexivity|].
  cbn [snd fs_put]. unfold media in *.
  destruct (ObjectId file_id) as [id|]; [|reflexivity].
  unfold fs_get in *. cbn [gf_files].
  destruct (find (fun f0 => (gf_id f0 =? id)%N) (gf_files fs)) as [x|] eqn:Hx;
    [|now elim Hm].
  now rewrite (find_app_some _ _ x _ Hx).
Qed.

(* ================================================================== *)
(** ** Accounts *)
(* ================================================================== *)

Module CuentasProps.

Import Cuentas.

Section Hash.

Variable generate_password_hash : string -> string.
Variable check_password_hash : string -> string -> bool.

(** A served registration either leaves the collections and the session
    as they were, or passed every check and appended one customer and one
    user. *)
Lemma register_step (method : string) (req : Request) (s : Estado) :
  (estado (register generate_password_hash method req s) = s /\
   sesion (register generate_password_hash method req s) = current_user req /\
   aviso (register generate_password_hash method req s) <> Some aviso_cuenta_creada) \/
  (current_user req = None /\ method = "POST" /\
   campo req "nombre" <> "" /\ email_de req <> "" /\
   Py.or_str (form_get req "password") "" <> "" /\
   Py.or_str (form_get req "password2") ""
     = Py.or_str (form_get req "password") "" /\
   find_usuario (email_de req) s = None /\
   register generate_password_hash method req s
   = mkSalida (Some aviso_cuenta_creada) (Redirige a_mis_pedidos)
       (Some (mkUser (email_de req) "user"))
       (mkEstado
          (usuarios s ++
             [mkUsuario (N.succ (next_id s)) (email_de req)
                (Some (generate_password_hash
                         (Py.or_str (form_get req "password") "")))
                (Some "user") (Some (next_id s)) (now req)])
          (clientes s ++
             [mkCliente (next_id s) (campo req "nombre")
                (Some (email_de req)) (or_none (campo req "telefono"))
                (or_none (campo req "ciudad")) None true (now req)])
          (N.succ (N.succ (next_id s))))).
Proof.
  unfold register.
  destruct (current_user req) as [cu|] eqn:Hu;
    [left; repeat split; discriminate|].
  destruct (String.eqb_spec method "POST") as [Hm|Hm];
    [|left; repeat split; discriminate].
  destruct (Py.truthy (campo req "nombre")) eqn:Hn; cbn [negb orb];
    [|left; repeat split; discriminate].
  destruct (Py.truthy (email_de req)) eqn:He; cbn [negb orb];
    [|left; repeat split; discriminate].
  destruct (Py.truthy (Py.or_str (form_get req "password") "")) eqn:Hp;
    cbn [negb orb]; [|left; repeat split; discriminate].
  destruct (String.eqb_spec (Py.or_str (form_get req "password") "")
                            (Py.or_str (form_get req "password2") ""))
    as [E|E]; cbn [negb]; [|left; repeat split; discriminate].
  destruct (find_usuario (email_de req) s) as [x|] eqn:Hf;
    [left; repeat split; discriminate|].
  right. apply truthy_nonempty in Hn, He, Hp.
  repeat (split; [assumption || reflexivity || (symmetry; assumption)|]).
  reflexivity.
Qed.

Lemma NoDup_app_one {A} (l : list A) (x : A) :
  NoDup l -> ~ In x l -> NoDup (l ++ [x]).
Proof.
  induction 1 as [|y r Hy _ IH]; intros Hx; cbn.
  - constructor; [intros []|constructor].
  - constructor.
    + rewrite in_app_iff. intros [H|[H|[]]]; [now apply Hy|].
      apply Hx. now left.
    + apply IH. intros H. apply Hx. now right.
Qed.

Lemma find_usuario_none (email : string) (s : Estado) :
  find_usuario email s = None -> ~ In email (map usr_email (usuarios s)).
Proof.
  unfold find_usuario. intros Hf Hin. apply in_map_iff in Hin.
  destruct Hin as (u & Eu & Hu).
  pose proof (find_none _ _ Hf u Hu) as Hc. cbv beta in Hc.
  rewrite Eu, String.eqb_refl in Hc. discriminate Hc.
Qed.

Lemma links_resolve_grow (s : Estado) (us : list Usuario) (cs : list Cliente) :
  links_resolve s ->
  Forall (fun u => match usr_cliente_id u with
                   | Some c => exists k, In k (clientes s ++ cs) /\ cli_id k = c
                   | None => True
                   end) us ->
  forall n, links_resolve (mkEstado (usuarios s ++ us) (clientes s ++ cs) n).
Proof.
  unfold links_resolve. intros H Hus n. cbn [usuarios clientes].
  apply Forall_app. split; [|exact Hus].
  eapply Forall_impl; [|exact H]. intros u Hu. cbv beta in Hu |- *.
  destruct (usr_cliente_id u) as [c|]; [|exact I].
  destruct Hu as (k & Hk & E). exists k. split; [|exact E].
  apply in_or_app. now left.
Qed.

(** X26. The accounts keep two invariants through registration and
    through the seeding of the administrator: no two users share an
    e-mail address, and every user's customer link names a stored
    customer. *)
Theorem accounts_stay_consistent
        (method : string) (req : Request) (now : Z) (s : Estado) :
  unique_emails s -> links_resolve s ->
  (unique_emails (estado (register generate_password_hash method req s)) /\
   links_resolve (estado (register generate_password_hash method req s))) /\
  (unique_emails (ensure_admin generate_password_hash now s) /\ links_resolve (ensure_admin generate_password_hash now s)).
Proof.
  intros Hu Hl. split.
  - destruct (register_step method req s)
      as [(-> & _)|(_ & _ & _ & _ & _ & _ & Hf & ->)]; [now split|].
    cbn [estado]. split.
    + unfold unique_emails. cbn [usuarios]. rewrite map_app. cbn [map usr_email].
      apply NoDup_app_one; [exact Hu|]. now apply find_usuario_none.
    + apply links_resolve_grow; [exact Hl|].
      constructor; [|constructor]. cbn [usr_cliente_id].
      eexists. split; [apply in_or_app; right; left; reflexivity|reflexivity].
  - unfold ensure_admin.
    destruct (find_usuario "admin@demo" s) as [x|] eqn:Hf; [now split|]. split.
    + unfold unique_emails. cbn [usuarios]. rewrite map_app. cbn [map usr_email].
      apply NoDup_app_one; [exact Hu|]. now apply find_usuario_none.
    + rewrite <- (app_nil_r (clientes s)).
      apply links_resolve_grow; [exact Hl|].
      constructor; [exact I|constructor].
Qed.

(** X27. Who registers can log in: after a registration that reports
    success, an anonymous login request that posts the same e-mail address
    (up to case and surrounding white space) and the same password is
    welcomed, logged in as that user with the role "user" and sent to the
    user's orders, provided the password functions agree on that
    password. *)
Theorem registered_user_can_log_in
        (method : string) (req lreq : Request) (s : Estado) :
  aviso (register generate_password_hash method req s) = Some aviso_cuenta_creada ->
  check_password_hash
    (generate_password_hash (Py.or_str (form_get req "password") ""))
    (Py.or_str (form_get req "password") "") = true ->
  current_user lreq = None ->
  email_de lreq = email_de req ->
  Py.or_str (form_get lreq "password") ""
    = Py.or_str (form_get req "password") "" ->
  login check_password_hash "POST" lreq (estado (register generate_password_hash method req s))
  = mkSalida (Some aviso_bienvenido) (Redirige a_mis_pedidos)
             (Some (mkUser (email_de req) "user"))
             (estado (register generate_password_hash method req s)).
Proof.
  intros Hok Hchk Hlu Hle Hlp.
  destruct (register_step method req s)
    as [(_ & _ & Hne)|(_ & _ & _ & _ & _ & _ & Hf & E)]; [now elim Hne|].
  rewrite E. cbn [estado]. unfold login.
  rewrite Hlu, Hle, Hlp. cbn [String.eqb Ascii.eqb Bool.eqb].
  unfold find_usuario in *. cbn [usuarios].
  rewrite find_app, Hf. cbn [find usr_email]. rewrite String.eqb_refl.
  cbn [usr_password]. rewrite Hchk. reflexivity.
Qed.


(** X29. Registration never makes an administrator and never stores a
    password as typed: whatever is posted, the users afterwards are the
    users before, possibly followed by one new user whose role is "user"
    and whose stored password is the hash of the posted one; and whoever
    registration leaves logged in either was logged in already or is not
    an administrator. *)
Theorem register_never_makes_admin
        (method : string) (req : Request) (s : Estado) :
  (usuarios (estado (register generate_password_hash method req s)) = usuarios s \/
   exists u,
     usuarios (estado (register generate_password_hash method req s)) = usuarios s ++ [u] /\
     usr_role u = Some "user" /\
     usr_password u
       = Some (generate_password_hash (Py.or_str (form_get req "password") ""))
     /\ usr_email u = email_de req) /\
  match sesion (register generate_password_hash method req s) with
  | Some v => current_user req = Some v \/ is_admin v = false
  | None => True
  end.
Proof.
  destruct (register_step method req s)
    as [(-> & -> & _)|(_ & _ & _ & _ & _ & _ & _ & ->)].
  - split; [now left|]. destruct (current_user req); auto.
  - cbn [estado usuarios sesion]. split; [|now right].
    right. eexists. split; [reflexivity|]. repeat split.
Qed.

(** X30. The seeding of the administrator is idempotent and protects its
    address: running [ensure_admin] again changes nothing, an account
    with the address "admin@demo" is stored afterwards, and no
    registration that posts that address, in any case and with any
    surrounding white space, creates an account. *)
Theorem seeded_admin_is_protected
        (now now' : Z) (method : string) (req : Request) (s : Estado) :
  ensure_admin generate_password_hash now'
    (ensure_admin generate_password_hash now s) = ensure_admin generate_password_hash now s /\
  find_usuario "admin@demo" (ensure_admin generate_password_hash now s) <> None /\
  (email_de req = "admin@demo" ->
   estado (register generate_password_hash method req (ensure_admin generate_password_hash now s)) = ensure_admin generate_password_hash now s /\
   aviso (register generate_password_hash method req (ensure_admin generate_password_hash now s))
     <> Some aviso_cuenta_creada).
Proof.
  assert (Hex : find_usuario "admin@demo" (ensure_admin generate_password_hash now s) <> None).
  { unfold ensure_admin.
    destruct (find_usuario "admin@demo" s) as [x|] eqn:Hf;
      [rewrite Hf; discriminate|].
    unfold find_usuario in *. cbn [usuarios]. rewrite find_app, Hf.
    cbn. discriminate. }
  split; [|split; [exact Hex|]].
  - unfold ensure_admin at 1.
    destruct (find_usuario "admin@demo"
                (ensure_admin generate_password_hash now s));
      [reflexivity|now elim Hex].
  - intros He.
    destruct (register_step method req (ensure_admin generate_password_hash now s))
      as [(E & _ & Hne)|(_ & _ & _ & _ & _ & _ & Hf & _)]; [now split|].
    rewrite He in Hf. now elim Hex.
Qed.

End Hash.

End CuentasProps.

(* ================================================================== *)
(** ** The further properties at work on the sample data *)
(* ================================================================== *)

Section More_instances.

Import Sample Muestra.

Lemma fresh0 : fresh_ids w0.
Proof. split; constructor. Defined.

(** Three units of P ordered: 3 taken from 5. *)
Lemma sample_order_takes_three_units :
  stock_of 10%N w1
  = option_map (fun s => s - units_of 10%N (find_detalles 100%N w1))
               (stock_of 10%N w0)
  /\ stock_of 10%N w1 = Some 2.
Proof.
  split; [|reflexivity].
  exact (created_order_takes_its_units (order ana [(P_hex, "3")]) w0
           fresh0 eq_refl 10%N).
Defined.

(** The line of the sample order is the pair (P, 3) with P's name and
    price. *)
Lemma sample_order_line_is_its_pair :
  Forall2 (snapshot_of w0 100%N) [(10%N, 3)] (find_detalles 100%N w1).
Proof.
  exact (created_order_lines_are_kept_pairs (order ana [(P_hex, "3")]) w0
           fresh0 eq_refl).
Defined.

(** Ordering 3 units of P and cancelling: P is back at 5. *)
Lemma sample_order_cancelled_restores_stock :
  accepted (fst (cambiar_estado_pedido order_hex (change admin "cancelado") w1))
    = true /\
  stock_of 10%N w2 = stock_of 10%N w0.
Proof.
  destruct (cancelling_new_order_restores_stock
              (order ana [(P_hex, "3")]) (change admin "cancelado")
              order_hex admin w0 fresh0 eq_refl eq_refl eq_refl eq_refl eq_refl)
    as [Ha Hs].
  split; [exact Ha|exact (Hs 10%N)].
Defined.

(** The writes of the sample order: the order, its line, the decrement. *)
Lemma sample_order_writes :
  exists p,
    find_pedido 100%N w1 = Some p /\ estado p = Some "CREADO" /\
    writes w1 = writes w0 ++ InsertPedido p
                          :: line_writes (find_detalles 100%N w1) /\
    auditoria w1 = auditoria w0.
Proof.
  exact (created_order_write_sequence (order ana [(P_hex, "3")]) w0
           fresh0 eq_refl).
Defined.

(** A customer identifier "abc": nothing is written, where the same
    pair under a customer identifier of 24 hexadecimal digits is the
    sample order. *)
Lemma bad_customer_writes_nothing :
  (created (fst (pedidos_crear order_bad_customer w0)) = false /\
   snd (pedidos_crear order_bad_customer w0) = w0) /\
  created (fst (pedidos_crear (order ana [(P_hex, "3")]) w0)) = true.
Proof.
  split; [|reflexivity].
  exact (malformed_customer_writes_nothing order_bad_customer w0 eq_refl).
Defined.

(** Ana, who is not an administrator, asks for a cancellation. *)
Lemma ana_cannot_cancel :
  cambiar_estado_pedido order_hex (change ana "CANCELADO") w1
  = (Redirect flash_solo_administradores ep_home, w1).
Proof.
  exact (proj1 (admin_routes_refuse_everyone_else
                  float_of_str order_hex (change ana "CANCELADO") w1 eq_refl)).
Defined.

(** The cancelled sample order asked to go back to CREADO. *)
Lemma cancelled_order_not_recreated :
  accepted (fst (cambiar_estado_pedido order_hex (change admin " creado ") w2))
    = false /\
  snd (cambiar_estado_pedido order_hex (change admin " creado ") w2) = w2.
Proof.
  exact (creado_is_never_reentered order_hex (change admin " creado ") w2
           eq_refl).
Defined.

(** The shipped sample order: cancelled through PAGADO, P back at 5. *)
Lemma shipped_sample_order_cancelled :
  accepted (fst (cambiar_estado_pedido order_hex (change admin "CANCELADO")
                                       w_enviado)) = false /\
  stock_of 10%N (cambiar_todos order_hex
                   [change admin "PAGADO"; change admin "CANCELADO"] w_enviado)
  = Some 5.
Proof.
  destruct (shipped_order_is_cancelled_through_paid
              order_hex 100%N
              (mkPedido 100%N 193%N 1000 30%float (Some "ENVIADO")
                        "EFECTIVO" "ana@demo")
              admin (change admin "PAGADO") (change admin "CANCELADO")
              w_enviado eq_refl eq_refl eq_refl eq_refl eq_refl eq_refl
              eq_refl eq_refl) as (Hr & _ & Hs).
  split; [exact Hr|]. rewrite Hs. reflexivity.
Defined.

Lemma w0_unique_products : unique_products w0.
Proof.
  unfold unique_products. cbn.
  constructor; [intros [H|[]]; discriminate H|].
  constructor; [intros []|constructor].
Defined.

Lemma w0_stock_nonneg : stock_nonneg w0.
Proof. unfold stock_nonneg. cbn. repeat constructor; discriminate. Defined.

(** Two orders of P, 3 and 1 units, and a cancellation: no stock is
    negative. *)
Lemma sample_stock_stays_nonnegative :
  stock_nonneg (ejecutar_todas float_of_str pedidos_y_cancelacion w0).
Proof.
  apply (stock_stays_nonnegative_without_duplicates
           float_of_str pedidos_y_cancelacion w0).
  - reflexivity.
  - repeat constructor; intros [].
  - exact w0_unique_products.
  - constructor.
  - exact w0_stock_nonneg.
Defined.

(** The sample history leaves a canonical status. *)
Lemma sample_statuses_canonical :
  canonical_statuses (ejecutar_todas float_of_str historia w0).
Proof.
  exact (stored_statuses_stay_canonical float_of_str historia w0
           (Forall_nil _)).
Defined.

Lemma sample_lines_positive :
  positive_lines (ejecutar_todas float_of_str historia w0).
Proof.
  exact (stored_lines_stay_positive float_of_str historia w0 (Forall_nil _)).
Defined.


Lemma sample_lines_keep_orders :
  lines_have_orders (ejecutar_todas float_of_str historia w0).
Proof.
  exact (stored_lines_keep_their_orders float_of_str historia w0
           (Forall_nil _)).
Defined.

Lemma sample_totals_consistent :
  totals_consistent (ejecutar_todas float_of_str historia w0).
Proof.
  exact (totals_stay_consistent float_of_str historia w0 fresh0 (Forall_nil _)).
Defined.

(** Two orders and a cancellation: stock of P plus units held is 5. *)
Lemma sample_stock_conserved :
  exists s',
    stock_of 10%N (ejecutar_todas float_of_str pedidos_y_cancelacion w0)
      = Some s' /\
    s' + committed 10%N (ejecutar_todas float_of_str pedidos_y_cancelacion w0)
    = 5 + committed 10%N w0.
Proof.
  exact (stock_plus_committed_is_conserved float_of_str pedidos_y_cancelacion
           w0 10%N 5 fresh0 eq_refl eq_refl).
Defined.

(** P after the sample edit: found under its identifier as "P2". *)
Lemma sample_update_found :
  exists p',
    find_producto 10%N (snd (productos_actualizar float_of_str P_hex edit_P w0))
      = Some p' /\ nombre p' = "P2" /\ stock p' = Some 1 /\ activo p' = true.
Proof.
  destruct (updated_product_is_found float_of_str P_hex edit_P w0 eq_refl)
    as (pid & Hid & _ & H).
  vm_compute in Hid. injection Hid as <-.
  change (find_producto 10%N w0) with (Some P) in H.
  destruct H as (p' & Hf & _ & Hn & _ & (n & Hi & Hs) & Ha & _).
  exists p'. split; [exact Hf|]. split; [exact Hn|].
  split; [|exact Ha]. rewrite Hs. vm_compute in Hi. exact (eq_sym Hi).
Defined.

(** An update with a blank name writes nothing and does not report
    success, where the sample edit does. *)
Lemma blank_name_update_writes_nothing :
  (snd (productos_actualizar float_of_str P_hex edit_blank w0) = w0 /\
   flashed (fst (productos_actualizar float_of_str P_hex edit_blank w0))
     <> flash_producto_actualizado) /\
  flashed (fst (productos_actualizar float_of_str P_hex edit_P w0))
    = flash_producto_actualizado.
Proof.
  split; [|reflexivity].
  exact (unserved_update_writes_nothing float_of_str P_hex edit_blank w0
           (or_introl eq_refl)).
Defined.

(** P updated without the box: an order of one unit of P, which was
    served before the update, is refused after it. *)
Lemma unticked_product_not_ordered :
  created (fst (pedidos_crear (order ana [(P_hex, "1")]) w0)) = true /\
  find_active_producto 10%N
    (snd (productos_actualizar float_of_str P_hex edit_off w0)) = None /\
  created (fst (pedidos_crear (order ana [(P_hex, "1")])
                  (snd (productos_actualizar float_of_str P_hex edit_off w0))))
    = false.
Proof.
  split; [reflexivity|].
  destruct (deactivated_product_cannot_be_ordered
              float_of_str P_hex edit_off (order ana [(P_hex, "1")]) w0
              10%N P_hex "1" 1 w0_unique_products eq_refl)
    as (Hn & Hc & _).
  - discriminate.
  - reflexivity.
  - left. reflexivity.
  - reflexivity.
  - lia.
  - reflexivity.
  - split; [exact Hn|exact Hc].
Defined.

(** P deleted: found before and not any more, Q found as before, and an
    order of one unit of P is refused. *)
Lemma deleted_sample_product_gone :
  find_producto 10%N w0 = Some P /\
  find_producto 10%N (snd (productos_eliminar P_hex edit_P w0)) = None /\
  find_producto 11%N (snd (productos_eliminar P_hex edit_P w0))
  = find_producto 11%N w0 /\
  created (fst (pedidos_crear (order ana [(P_hex, "1")])
                  (snd (productos_eliminar P_hex edit_P w0)))) = false.
Proof.
  destruct (deleted_product_is_gone P_hex edit_P (order ana [(P_hex, "1")]) w0
              10%N P_hex "1" 1 w0_unique_products eq_refl eq_refl)
    as (Hg & Ho & _ & Hr).
  split; [reflexivity|]. split; [exact Hg|]. split.
  - apply Ho. discriminate.
  - apply Hr; [left; reflexivity|reflexivity|lia|reflexivity].
Defined.

(** Two orders and a cancellation leave P and Q as they were but for
    stock. *)
Lemma sample_catalogue_kept :
  Forall2 same_but_stock (productos w0)
    (productos (ejecutar_todas float_of_str pedidos_y_cancelacion w0)).
Proof.
  exact (orders_change_only_stock float_of_str pedidos_y_cancelacion w0
           eq_refl).
Defined.

(** "Foto.PNG" stored and served back as image/png. *)
Lemma foto_is_served_back :
  media foto_hex fs1 = SendFile "bytes" "image/png" "Foto.PNG".
Proof.
  destruct (stored_file_is_served_back foto fs0 foto_hex (Forall_nil _))
    as (id & Hid & Hm); try discriminate.
  vm_compute in Hid. injection Hid as <-.
  exact (Hm eq_refl).
Defined.

(** A second upload does not disturb the first. *)
Lemma foto_still_served :
  media foto_hex (snd (save_to_gridfs (Some nota) fs1)) = media foto_hex fs1.
Proof.
  apply (earlier_files_are_served_as_before (Some nota) fs1 foto_hex).
  vm_compute. discriminate.
Defined.

(** Registration and seeding from the empty collections. *)
Lemma sample_accounts_consistent :
  Cuentas.unique_emails cuentas1 /\ Cuentas.links_resolve cuentas1.
Proof.
  exact (proj1 (CuentasProps.accounts_stay_consistent
                  gen_hash "POST" alta 0 cuentas0
                  (NoDup_nil _) (Forall_nil _))).
Defined.

(** Ana registers as " Ana@Demo " and logs in as "ANA@demo". *)
Lemma ana_registers_and_logs_in :
  Cuentas.login check_hash "POST" entrada cuentas1
  = Cuentas.mkSalida (Some Cuentas.aviso_bienvenido)
      (Cuentas.Redirige Cuentas.a_mis_pedidos)
      (Some (mkUser "ana@demo" "user")) cuentas1.
Proof.
  exact (CuentasProps.registered_user_can_log_in
           gen_hash check_hash "POST" alta entrada cuentas0
           eq_refl eq_refl eq_refl eq_refl eq_refl).
Defined.


End More_instances.
